(** * CivicMindAI: query routing and response caching

    A shallow embedding of the query classifier ([app.py]), the response
    cache ([cag.py]), the query pipeline and the session bookkeeping
    ([app.py]) and the learning manager ([fl_manager.py]) of the
    CivicMindAI repository, with the properties of the routing-and-caching
    core and of the code around it.

    Conventions of the embedding.
    - Python [str] values are [string]s whose characters are read as the
      code points 0..255; case mapping and the whitespace class follow
      Python on that range.  Every table of the source is plain ASCII.
    - Python dictionaries whose iteration order matters are association
      lists in insertion order.
    - A [datetime] without time zone is an integer: the microseconds
      from 0001-01-01T00:00:00 to it.  Sums and differences that leave
      the years 1 to 9999 raise [OverflowError].  The value stored under
      ["timestamp"], when there is one, is a text; it is kept together
      with what [datetime.fromisoformat] makes of it, as a record file is
      kept as what [json.load] finds in it.
    - A [float] is kept as the rational number it stands for, and the
      operations on floats round to the nearest one.
    - Code that can raise is written in a small state-and-exception monad,
      so that [try]/[except] blocks keep the shape they have in the
      source. *)

From Stdlib Require Import Bool Arith ZArith QArith Qabs Qround Qpower.
From Stdlib Require Import Lia Lqa List.
From Stdlib Require Import Ascii String.
From Stdlib Require Import Permutation Sorted.
Import ListNotations.

Set Implicit Arguments.

(** ** Python string primitives *)

Module PyStr.

Local Open Scope string_scope.
Local Open Scope char_scope.

(** [str.lower] on one code point below 256: the ASCII capitals and the
    Latin-1 capitals (0xC0..0xDE but for the multiplication sign 0xD7). *)
Definition lower_char (c : ascii) : ascii :=
  let n := nat_of_ascii c in
  if ((65 <=? n) && (n <=? 90))%nat then ascii_of_nat (n + 32)
  else if ((192 <=? n) && (n <=? 222) && negb (n =? 215))%nat
       then ascii_of_nat (n + 32)
  else c.

(** ASCII part of [str.upper], used by [str.title] on the ASCII tables. *)
Definition upper_char (c : ascii) : ascii :=
  let n := nat_of_ascii c in
  if ((97 <=? n) && (n <=? 122))%nat then ascii_of_nat (n - 32) else c.

Definition is_cased (c : ascii) : bool :=
  let n := nat_of_ascii c in
  (((65 <=? n) && (n <=? 90)) || ((97 <=? n) && (n <=? 122)))%nat.

(** [str.isspace] on one code point below 256. *)
Definition is_space (c : ascii) : bool :=
  let n := nat_of_ascii c in
  (((9 <=? n) && (n <=? 13)) || ((28 <=? n) && (n <=? 32))
   || (n =? 133) || (n =? 160))%nat.

Fixpoint lower (s : string) : string :=
  match s with
  | EmptyString => EmptyString
  | String c s' => String (lower_char c) (lower s')
  end.

(** [str.title]: a cased character is upper-cased after an uncased one
    and lower-cased after a cased one. *)
Fixpoint title_from (prev_cased : bool) (s : string) : string :=
  match s with
  | EmptyString => EmptyString
  | String c s' =>
      String (if prev_cased then lower_char c else upper_char c)
             (title_from (is_cased c) s')
  end.

Definition title (s : string) : string := title_from false s.

(** [s.startswith(p)]. *)
Fixpoint starts_with (p s : string) : bool :=
  match p with
  | EmptyString => true
  | String a p' =>
      match s with
      | EmptyString => false
      | String b s' => Ascii.eqb a b && starts_with p' s'
      end
  end.

(** [needle in hay]. *)
Fixpoint contains (needle hay : string) : bool :=
  starts_with needle hay
  || match hay with
     | EmptyString => false
     | String _ hay' => contains needle hay'
     end.

Fixpoint drop (n : nat) (s : string) : string :=
  match n with
  | O => s
  | S n' => match s with
            | EmptyString => EmptyString
            | String _ s' => drop n' s'
            end
  end.

(** [s.replace(old, new)] for a non-empty [old]: scan from the left; at
    an occurrence of [old] emit [new] and resume after the occurrence
    ([skip] counts the characters of the occurrence still to pass). *)
Fixpoint replace_from (old new : string) (skip : nat) (s : string) : string :=
  match s with
  | EmptyString => EmptyString
  | String c s' =>
      match skip with
      | S k => replace_from old new k s'
      | O => if starts_with old s
             then new ++ replace_from old new (String.length old - 1) s'
             else String c (replace_from old new 0 s')
      end
  end.

(** With an empty [old], Python puts [new] before every character and at
    the end. *)
Fixpoint intersperse (new s : string) : string :=
  match s with
  | EmptyString => new
  | String c s' => new ++ String c (intersperse new s')
  end.

Definition replace (old new s : string) : string :=
  match old with
  | EmptyString => intersperse new s
  | String _ _ => replace_from old new 0 s
  end.

(** [s.strip()]. *)
Fixpoint lstrip (s : string) : string :=
  match s with
  | EmptyString => EmptyString
  | String c s' => if is_space c then lstrip s' else s
  end.

Fixpoint all_space (s : string) : bool :=
  match s with
  | EmptyString => true
  | String c s' => is_space c && all_space s'
  end.

Fixpoint rstrip (s : string) : string :=
  match s with
  | EmptyString => EmptyString
  | String c s' => if all_space s then EmptyString else String c (rstrip s')
  end.

Definition strip (s : string) : string := rstrip (lstrip s).

(** [s.split()]: the maximal runs of non-whitespace characters; [word]
    is the run being read. *)
Fixpoint split_from (word : string) (s : string) : list string :=
  match s with
  | EmptyString => match word with EmptyString => [] | _ => [word] end
  | String c s' =>
      if is_space c
      then match word with
           | EmptyString => split_from EmptyString s'
           | _ => word :: split_from EmptyString s'
           end
      else split_from (word ++ String c EmptyString) s'
  end.

Definition split (s : string) : list string := split_from EmptyString s.

(** [sep.join(words)]. *)
Fixpoint join (sep : string) (words : list string) : string :=
  match words with
  | [] => EmptyString
  | [w] => w
  | w :: ws => w ++ sep ++ join sep ws
  end.

(** A character that [str.lower] leaves as it is. *)
Definition lower_fixed (c : ascii) : bool := Ascii.eqb (lower_char c) c.

(** Two strings are compatible when one begins with the other. *)
Definition compatible (a b : string) : bool :=
  starts_with a b || starts_with b a.

(** No non-empty suffix of [l] is compatible with [old] or with [new]:
    a text that begins with such a suffix begins neither with [old] nor
    with [new]. *)
Fixpoint clear_of (old new l : string) : bool :=
  match l with
  | EmptyString => true
  | String _ l' =>
      negb (compatible l old) && negb (compatible l new) && clear_of old new l'
  end.

(** No non-empty suffix of [new] is compatible with [p]: an occurrence
    of [p] cannot begin inside [new]. *)
Fixpoint apart_from (p new : string) : bool :=
  match new with
  | EmptyString => true
  | String _ new' => negb (compatible p new) && apart_from p new'
  end.

Fixpoint all_chars (f : ascii -> bool) (s : string) : bool :=
  match s with
  | EmptyString => true
  | String c s' => f c && all_chars f s'
  end.

Fixpoint filter_chars (f : ascii -> bool) (s : string) : string :=
  match s with
  | EmptyString => EmptyString
  | String c s' => if f c then String c (filter_chars f s')
                   else filter_chars f s'
  end.

(** [s.count(sub)] for a non-empty [sub]: the occurrences met by a scan
    from the left that resumes after each occurrence, so that they do
    not overlap. *)
Fixpoint count_from (sub : string) (skip : nat) (s : string) : nat :=
  match s with
  | EmptyString => 0%nat
  | String c s' =>
      match skip with
      | S k => count_from sub k s'
      | O => if starts_with sub s
             then S (count_from sub (String.length sub - 1)%nat s')
             else count_from sub 0%nat s'
      end
  end.

(** With an empty [sub], Python counts the gaps between the characters
    and the two ends. *)
Definition count (sub s : string) : nat :=
  match sub with
  | EmptyString => S (String.length s)
  | String _ _ => count_from sub 0%nat s
  end.

(** The slice [s[:n]] for [n >= 0]. *)
Fixpoint take (n : nat) (s : string) : string :=
  match n, s with
  | S n', String c s' => String c (take n' s')
  | _, _ => EmptyString
  end.

End PyStr.

(** ** Exceptions and the state monad *)

Module Py.

(** The exception classes that the modelled code raises or names in an
    [except] clause. *)
Inductive exn :=
| OSError
| UnicodeDecodeError
| JSONDecodeError
| KeyError
| AttributeError
| TypeError
| ValueError
| OverflowError
| RuntimeError.

Inductive result (A : Type) :=
| Ok (a : A)
| Raise (e : exn).

Arguments Ok {A} a.
Arguments Raise {A} e.

(** A computation over a mutable object of type [S]; what it wrote
    before raising stays written. *)
Definition M (S A : Type) : Type := S -> result A * S.

Definition ret {S A} (a : A) : M S A := fun s => (Ok a, s).

Definition bind {S A B} (m : M S A) (k : A -> M S B) : M S B :=
  fun s => match m s with
           | (Ok a, s') => k a s'
           | (Raise e, s') => (Raise e, s')
           end.

Definition raise {S A} (e : exn) : M S A := fun s => (Raise e, s).

(** A call of a method that reads its object and either returns or
    raises. *)
Definition call {S A} (r : result A) : M S A := fun s => (r, s).

Definition gets {S A} (f : S -> A) : M S A := fun s => (Ok (f s), s).

Definition modify {S} (f : S -> S) : M S unit := fun s => (Ok tt, f s).

(** [try: m except <classes>: h]; [handler e] is [None] when no clause
    matches [e]. *)
Definition try_except {S A} (m : M S A) (handler : exn -> option (M S A))
  : M S A :=
  fun s => match m s with
           | (Ok a, s') => (Ok a, s')
           | (Raise e, s') =>
               match handler e with
               | Some h => h s'
               | None => (Raise e, s')
               end
           end.

(** [except Exception:] and the bare [except:]. *)
Definition any_exception {S A} (h : M S A) : exn -> option (M S A) :=
  fun _ => Some h.

(** How a block ends: with a [return], or by falling through. *)
Inductive flow (A : Type) :=
| Return (a : A)
| Continue.

Arguments Return {A} a.
Arguments Continue {A}.

(** [triple P m Q]: run from an object that satisfies [P], the
    computation [m] leaves an object that satisfies [P], however it
    ends, and a value that it returns satisfies [Q]. *)
Definition triple {S A} (P : S -> Prop) (m : M S A) (Q : A -> Prop) : Prop :=
  forall s, P s ->
    forall res s', m s = (res, s') ->
      P s' /\ (forall a, res = Ok a -> Q a).

(** Dictionaries in insertion order. *)
Fixpoint dict_get {V} (k : string) (d : list (string * V)) : option V :=
  match d with
  | [] => None
  | (k', v) :: d' => if String.eqb k k' then Some v else dict_get k d'
  end.

(** [d[k] = v]: an existing key keeps its place, a new one goes last. *)
Fixpoint dict_set {V} (k : string) (v : V) (d : list (string * V))
  : list (string * V) :=
  match d with
  | [] => [(k, v)]
  | (k', v') :: d' =>
      if String.eqb k k' then (k', v) :: d' else (k', v') :: dict_set k v d'
  end.

(** [del d[k]]. *)
Fixpoint dict_del {V} (k : string) (d : list (string * V))
  : list (string * V) :=
  match d with
  | [] => []
  | (k', v') :: d' =>
      if String.eqb k k' then dict_del k d' else (k', v') :: dict_del k d'
  end.

(** A stable sort: [sort_by before l] orders [l] so that [before x y]
    holds along the result, and elements that [before] relates both ways
    keep the order they have in [l].  Python's [sorted] and [list.sort]
    are stable, also with [reverse=True], so they compute this list. *)
Fixpoint insert_by {A} (before : A -> A -> bool) (x : A) (l : list A)
  : list A :=
  match l with
  | [] => [x]
  | y :: l' => if before x y then x :: y :: l' else y :: insert_by before x l'
  end.

Definition sort_by {A} (before : A -> A -> bool) (l : list A) : list A :=
  fold_right (insert_by before) [] l.

(** [a] stands before [b] in [l]. *)
Definition before_in {A} (l : list A) (a b : A) : Prop :=
  exists l1 l2 l3, l = l1 ++ a :: l2 ++ b :: l3.

(** A stand-in digest for concrete runs; the properties below hold for
    every digest function. *)
Definition plain_digest (s : string) : string := s.

(** The slice [l[:-k]]: all but the last [k], and nothing when [k] is
    0. *)
Definition all_but_last {A} (k : nat) (l : list A) : list A :=
  match k with
  | O => []
  | _ => firstn (List.length l - k) l
  end.

(** The slice [l[:limit]]; a negative [limit] counts from the end. *)
Definition slice_to {A} (limit : Z) (l : list A) : list A :=
  if (0 <=? limit)%Z then firstn (Z.to_nat limit) l
  else firstn (List.length l - Z.to_nat (- limit))%nat l.

(** The slice [l[start:]]; a negative [start] counts from the end. *)
Definition slice_from {A} (start : Z) (l : list A) : list A :=
  if (0 <=? start)%Z then skipn (Z.to_nat start) l
  else skipn (List.length l - Z.to_nat (- start))%nat l.

(** [d.append(x)] on a [deque] with [maxlen]: when the deque is full the
    oldest element goes. *)
Definition deque_append {A} (maxlen : nat) (x : A) (d : list A) : list A :=
  let d' := (d ++ [x])%list in
  skipn (List.length d' - maxlen)%nat d'.

End Py.

Declare Scope py_scope.
Delimit Scope py_scope with py.
Notation "x <- m ;; k" := (Py.bind m (fun x => k))
  (at level 61, m at next level, right associativity) : py_scope.
Notation "m ;;; k" := (Py.bind m (fun _ => k))
  (at level 61, right associativity) : py_scope.

(** ** Dates and times ([datetime]) *)

Module PyTime.

Local Open Scope string_scope.
Local Open Scope Z_scope.

(** A [datetime] without time zone is kept as the instant it names: the
    microseconds from 0001-01-01T00:00:00, the least [datetime], to it.
    The greatest one is 9999-12-31T23:59:59.999999. *)
Definition microseconds_per_day : Z := 86400000000.

Definition max_ordinal : Z := 3652059.

Definition datetime_max : Z := max_ordinal * microseconds_per_day - 1.

Definition representable (t : Z) : bool := (0 <=? t) && (t <=? datetime_max).

(** [d + timedelta(microseconds=delta)]: [OverflowError] when the sum is
    no [datetime].  A duration that [timedelta] itself refuses, with the
    same exception, takes every [datetime] out of range. *)
Definition shifted (d delta : Z) : Py.result Z :=
  if representable (d + delta) then Py.Ok (d + delta)
  else Py.Raise Py.OverflowError.

(** The calendar, as [_ymd2ord] and [_ord2ymd] of the library have it. *)
Definition _is_leap (year : Z) : bool :=
  (year mod 4 =? 0) && (negb (year mod 100 =? 0) || (year mod 400 =? 0)).

Definition _days_before_year (year : Z) : Z :=
  let y := year - 1 in
  y * 365 + y / 4 - y / 100 + y / 400.

Definition _DAYS_IN_MONTH : list Z :=
  [-1; 31; 28; 31; 30; 31; 30; 31; 31; 30; 31; 30; 31].

Definition _DAYS_BEFORE_MONTH : list Z :=
  [-1; 0; 31; 59; 90; 120; 151; 181; 212; 243; 273; 304; 334].

Definition _days_before_month (year month : Z) : Z :=
  nth (Z.to_nat month) _DAYS_BEFORE_MONTH 0
  + (if (2 <? month) && _is_leap year then 1 else 0).

Definition _days_in_month (year month : Z) : Z :=
  if (month =? 2) && _is_leap year then 29
  else nth (Z.to_nat month) _DAYS_IN_MONTH 0.

Definition _ymd2ord (year month day : Z) : Z :=
  _days_before_year year + _days_before_month year month + day.

(** A date of the calendar. *)
Definition valid_date (year month day : Z) : Prop :=
  1 <= year <= 9999 /\ 1 <= month <= 12
  /\ 1 <= day <= _days_in_month year month.

Definition _ord2ymd (n : Z) : Z * Z * Z :=
  let n := n - 1 in
  let n400 := n / 146097 in
  let n := n mod 146097 in
  let year := n400 * 400 + 1 in
  let n100 := n / 36524 in
  let n := n mod 36524 in
  let n4 := n / 1461 in
  let n := n mod 1461 in
  let n1 := n / 365 in
  let n := n mod 365 in
  let year := year + n100 * 100 + n4 * 4 + n1 in
  if (n1 =? 4) || (n100 =? 4)
  then (year - 1, 12, 31)
  else
    let leapyear := (n1 =? 3) && (negb (n4 =? 24) || (n100 =? 3)) in
    let month := Z.shiftr (n + 50) 5 in
    let preceding :=
      nth (Z.to_nat month) _DAYS_BEFORE_MONTH 0
      + (if (2 <? month) && leapyear then 1 else 0) in
    if n <? preceding
    then
      let month := month - 1 in
      let preceding :=
        preceding
        - (nth (Z.to_nat month) _DAYS_IN_MONTH 0
           + (if (month =? 2) && leapyear then 1 else 0)) in
      (year, month, n - preceding + 1)
    else (year, month, n - preceding + 1).

(** The instant of a date and a time of day. *)
Definition instant (year month day hour minute second microsecond : Z) : Z :=
  (_ymd2ord year month day - 1) * microseconds_per_day
  + ((hour * 60 + minute) * 60 + second) * 1000000 + microsecond.

(** ["%0<width>d" % n]. *)
Definition digit (n : Z) : ascii := ascii_of_N (48 + Z.to_N (n mod 10)).

Fixpoint zero_padded (width : nat) (n : Z) : string :=
  match width with
  | O => ""
  | S w => zero_padded w (n / 10) ++ String (digit n) ""
  end.

(** The microseconds in [_format_time]: left out when they are 0. *)
Definition fraction (microsecond : Z) : string :=
  if microsecond =? 0 then "" else "." ++ zero_padded 6 microsecond.

(** [d.isoformat()]. *)
Definition isoformat (t : Z) : string :=
  let '(year, month, day) := _ord2ymd (t / microseconds_per_day + 1) in
  let time := t mod microseconds_per_day in
  let hour := time / 3600000000 in
  let minute := time / 60000000 mod 60 in
  let second := time / 1000000 mod 60 in
  let microsecond := time mod 1000000 in
  zero_padded 4 year ++ "-" ++ zero_padded 2 month ++ "-"
  ++ zero_padded 2 day ++ "T"
  ++ zero_padded 2 hour ++ ":" ++ zero_padded 2 minute ++ ":"
  ++ zero_padded 2 second ++ fraction microsecond.

(** Comparing by one thing first and by another next. *)
Definition then_by (c1 c2 : comparison) : comparison :=
  match c1 with
  | Eq => c2
  | _ => c1
  end.

(** What [datetime.fromisoformat] makes of a text. *)
Inductive reading :=
| Naive (t : Z)                  (* a datetime without time zone *)
| Aware (t : Z)                  (* one with a time zone, [t] from its
                                    date and time of day *)
| NotIso.                        (* no timestamp: [ValueError] *)

(** A timestamp text, together with what [datetime.fromisoformat] makes
    of it. *)
Record timestamp := {
  timestamp_text : string;
  fromisoformat : reading
}.

(** [datetime.now().isoformat()] at the instant [t]; [fromisoformat]
    reads such a text back as [t]. *)
Definition written (t : Z) : timestamp :=
  {| timestamp_text := isoformat t; fromisoformat := Naive t |}.

End PyTime.

(** ** Floating point ([float]) *)

Module PyFloat.

(** A finite [float] is an IEEE 754 binary64 number and is kept as the
    rational it stands for: an integer of at most 53 bits times a power
    of two whose exponent is at least -1074. *)

(** The integer nearest to [x], a tie going to the even one. *)
Definition round_half_even (x : Q) : Z :=
  let fl := Qfloor x in
  match Qcompare (x - inject_Z fl) (1 # 2) with
  | Lt => fl
  | Gt => (fl + 1)%Z
  | Eq => if Z.even fl then fl else (fl + 1)%Z
  end.

(** For [0 < x]: the [k] with [2 ^ k <= x < 2 ^ (k + 1)]. *)
Definition floor_log2 (x : Q) : Z :=
  let k := (Z.log2 (Qnum x) - Z.log2 (Zpos (Qden x)))%Z in
  if Qle_bool (2 ^ k) x then k else (k - 1)%Z.

(** The exponent of the last bit of the float nearest to [x]. *)
Definition last_bit (x : Q) : Z := Z.max (floor_log2 (Qabs x) - 52) (-1074).

(** The float nearest to [x], a tie going to the even significand:
    what a correctly rounded operation with the exact result [x]
    returns. *)
Definition nearest (x : Q) : Q :=
  if Qeq_bool x 0 then 0
  else let e := last_bit x in
       inject_Z (round_half_even (x / 2 ^ e)) * 2 ^ e.

(** [a / b] on integers, [b] not 0, and [x * y] on floats: both are
    correctly rounded.  No quotient or product here comes near the
    largest float. *)
Definition truediv (a b : Z) : Q := nearest (inject_Z a / inject_Z b).

Definition mul (x y : Q) : Q := nearest (x * y).

(** [round(x, 2)]: the decimal with two places nearest to [x], a tie
    going to the even one, as a float. *)
Definition round2 (x : Q) : Q :=
  nearest (inject_Z (round_half_even (x * 100)) / 100).

End PyFloat.

(** ** The response cache ([cag.py]) *)

Module Cag.

Import PyStr Py PyTime.
Local Open Scope string_scope.
Local Open Scope py_scope.

(** One cached record, as built by [cache_response] and as read back
    from a record file; a key read from a file may be missing. *)
Record cached_item := {
  item_query : option string;
  item_response : option string;
  item_department : option string;
  item_sources : option (list string);
  item_metadata : option (list (string * string));
  item_timestamp : option timestamp;
  item_cache_key : option string
}.

(** What [open] followed by [json.load] finds in a record file. *)
Inductive file_content :=
| Unreadable                     (* [open] or [read] raises [OSError] *)
| BadEncoding                    (* not UTF-8: [UnicodeDecodeError] *)
| BadJson                        (* not JSON: [JSONDecodeError] *)
| JsonOther                      (* JSON, but not an object *)
| JsonObject (it : cached_item).

Record file := {
  st_mtime : Z;
  content : file_content
}.

(** The result of [json.load]. *)
Inductive json_value :=
| JObject (it : cached_item)
| JOther.

Record stats := {
  hits : nat;
  misses : nat;
  total_requests : nat
}.

(** A [CacheModule] object; [cache_dir] lists the [*.json] files of the
    directory by stem, in the order [glob] yields them. *)
Record state := {
  ttl_hours : Z;
  memory_cache : list (string * cached_item);
  cache_stats : stats;
  cache_dir : list (string * file)
}.

(** Outcome of writing a record file. *)
Inductive write_outcome :=
| WriteDone                      (* the record is on disk *)
| WriteRefused                   (* [open] raises, nothing changes *)
| WriteTorn.                     (* raises after the file was truncated *)

(** What the surroundings decide during one call: the clock reading and
    whether [unlink] and the file write succeed. *)
Record env := {
  now : Z;
  unlink_fails : bool;
  write : write_outcome
}.

Definition set_memory (f : list (string * cached_item) ->
                           list (string * cached_item)) (s : state) : state :=
  {| ttl_hours := ttl_hours s; memory_cache := f (memory_cache s);
     cache_stats := cache_stats s; cache_dir := cache_dir s |}.

Definition set_stats (f : stats -> stats) (s : state) : state :=
  {| ttl_hours := ttl_hours s; memory_cache := memory_cache s;
     cache_stats := f (cache_stats s); cache_dir := cache_dir s |}.

Definition set_dir (f : list (string * file) -> list (string * file))
           (s : state) : state :=
  {| ttl_hours := ttl_hours s; memory_cache := memory_cache s;
     cache_stats := cache_stats s; cache_dir := f (cache_dir s) |}.

Definition bump_total_requests : M state unit :=
  modify (set_stats (fun c => {| hits := hits c; misses := misses c;
                                 total_requests := S (total_requests c) |})).

Definition bump_hits : M state unit :=
  modify (set_stats (fun c => {| hits := S (hits c); misses := misses c;
                                 total_requests := total_requests c |})).

Definition bump_misses : M state unit :=
  modify (set_stats (fun c => {| hits := hits c; misses := S (misses c);
                                 total_requests := total_requests c |})).

Definition microseconds_per_hour : Z := 3600000000.

(** [cached_item.get("timestamp", "")]. *)
Definition get_timestamp (it : cached_item) : timestamp :=
  match item_timestamp it with
  | Some timestamp_str => timestamp_str
  | None => {| timestamp_text := ""; fromisoformat := NotIso |}
  end.

(** [_is_cache_valid] on a dictionary.  The [ValueError] of
    [fromisoformat] on a text that is no timestamp, and the [TypeError]
    of comparing [datetime.now()] with a datetime that has a time zone,
    are turned into [False]; the [OverflowError] of
    [cached_time + timedelta(hours=self.ttl_hours)] is not caught and
    leaves the method. *)
Definition _is_cache_valid (ttl : Z) (e : env) (it : cached_item)
  : result bool :=
  let timestamp_str := get_timestamp it in
  match fromisoformat timestamp_str with
  | NotIso => Ok false
  | Naive cached_time =>
      match shifted cached_time (ttl * microseconds_per_hour) with
      | Ok expiry_time => Ok (now e <? expiry_time)%Z
      | Raise ex => Raise ex
      end
  | Aware cached_time =>
      match shifted cached_time (ttl * microseconds_per_hour) with
      | Ok _ => Ok false
      | Raise ex => Raise ex
      end
  end.

(** [cached_item["response"]]. *)
Definition getitem_response (it : cached_item) : M state string :=
  match item_response it with
  | Some r => ret r
  | None => raise KeyError
  end.

(** [with open(cache_file) as f: json.load(f)]. *)
Definition json_load (f : file) : M state json_value :=
  match content f with
  | Unreadable => raise OSError
  | BadEncoding => raise UnicodeDecodeError
  | BadJson => raise JSONDecodeError
  | JsonOther => ret JOther
  | JsonObject it => ret (JObject it)
  end.

(** [cache_file.unlink()]. *)
Definition unlink (e : env) (cache_key : string) : M state unit :=
  if unlink_fails e then raise OSError
  else modify (set_dir (dict_del cache_key)).

Definition chars_to_remove : list string := ["."; ","; "!"; "?"; ";"; ":"].

Definition area_variations : list (string * string) :=
  [ ("t nagar", "t. nagar");
    ("tnagar", "t. nagar");
    ("anna nagar", "anna nagar");
    ("annanagar", "anna nagar");
    ("adyar", "adyar");
    ("velachery", "velachery") ].

Definition _normalize_query (query : string) : string :=
  let normalized := strip (lower query) in
  let normalized := join " " (split normalized) in
  let normalized :=
    fold_left (fun acc char => replace char "" acc) chars_to_remove normalized in
  fold_left (fun acc vs => replace (fst vs) (snd vs) acc)
            area_variations normalized.

(** The parts of [_normalize_query], by name. *)
Definition squeeze (s : string) : string := join " " (split (strip s)).

Definition strip_punctuation (s : string) : string :=
  fold_left (fun acc char => replace char "" acc) chars_to_remove s.

Definition standardize_areas (s : string) : string :=
  fold_left (fun acc vs => replace (fst vs) (snd vs) acc) area_variations s.

Definition is_punct (c : ascii) : bool :=
  existsb (fun p => String.eqb p (String c EmptyString)) chars_to_remove.

(** The characters that the removal of punctuation keeps, and those of
    them that are not a [t]. *)
Definition keep (c : ascii) : bool := negb (is_punct c).

Definition plain (c : ascii) : bool :=
  keep c && negb (Ascii.eqb c "t"%char).

(** Every punctuation character of the text is a full stop that follows
    a [t] and precedes [" nagar"], as in ["t. nagar"]; [prev_t] tells
    whether the character before the text is a [t]. *)
Fixpoint dots_in_place (prev_t : bool) (s : string) : bool :=
  match s with
  | EmptyString => true
  | String c s' =>
      if is_punct c
      then Ascii.eqb c "."%char && prev_t && starts_with " nagar" s'
           && dots_in_place false s'
      else dots_in_place (Ascii.eqb c "t"%char) s'
  end.

Section WithHash.

(** [hashlib.md5(s.encode('utf-8')).hexdigest()]. *)
Variable md5_hexdigest : string -> string.

Definition _generate_cache_key (query : string) : string :=
  let normalized_query := _normalize_query query in
  let query_hash := md5_hexdigest normalized_query in
  "civic_query_" ++ query_hash.

Definition get_cached_response (e : env) (query : string)
  : M state (option string) :=
  bump_total_requests ;;;
  try_except
    (let cache_key := _generate_cache_key query in
     ttl <- gets ttl_hours ;;
     mem <- gets memory_cache ;;
     in_memory <-
       match dict_get cache_key mem with
       | Some cached_item =>
           valid <- call (_is_cache_valid ttl e cached_item) ;;
           if valid
           then bump_hits ;;;
                response <- getitem_response cached_item ;;
                ret (Return response)
           else modify (set_memory (dict_del cache_key)) ;;; ret Continue
       | None => ret Continue
       end ;;
     match in_memory with
     | Return response => ret (Some response)
     | Continue =>
         dir <- gets cache_dir ;;
         on_disk <-
           match dict_get cache_key dir with
           | Some cache_file =>
               try_except
                 (loaded <- json_load cache_file ;;
                  match loaded with
                  | JOther =>
                      (* [cached_item.get] inside [_is_cache_valid] *)
                      raise AttributeError
                  | JObject cached_item =>
                      valid <- call (_is_cache_valid ttl e cached_item) ;;
                      if valid
                      then bump_hits ;;;
                           modify (set_memory
                                     (dict_set cache_key cached_item)) ;;;
                           response <- getitem_response cached_item ;;
                           ret (Return response)
                      else unlink e cache_key ;;; ret Continue
                  end)
                 (fun ex => match ex with
                            | JSONDecodeError | KeyError =>
                                Some (unlink e cache_key ;;; ret Continue)
                            | _ => None
                            end)
           | None => ret Continue
           end ;;
         match on_disk with
         | Return response => ret (Some response)
         | Continue => bump_misses ;;; ret None
         end
     end)
    (any_exception (bump_misses ;;; ret None)).

(** [open(cache_file, 'w')] followed by [json.dump]. *)
Definition write_file (e : env) (cache_key : string) (it : cached_item)
  : M state unit :=
  match write e with
  | WriteDone =>
      modify (set_dir (dict_set cache_key
                         {| st_mtime := now e; content := JsonObject it |}))
  | WriteRefused => raise OSError
  | WriteTorn =>
      modify (set_dir (dict_set cache_key
                         {| st_mtime := now e; content := BadJson |})) ;;;
      raise OSError
  end.

Definition _store_persistent_cache (e : env) (cache_key : string)
           (it : cached_item) : M state unit :=
  try_except (write_file e cache_key it) (any_exception (ret tt)).

Definition or_empty {A} (o : option (list A)) : list A :=
  match o with
  | Some l => l
  | None => []
  end.

Definition cache_response (e : env) (query response department : string)
           (sources : option (list string))
           (metadata : option (list (string * string))) : M state unit :=
  try_except
    (let cache_key := _generate_cache_key query in
     let cached_item :=
       {| item_query := Some query;
          item_response := Some response;
          item_department := Some department;
          item_sources := Some (or_empty sources);
          item_metadata := Some (or_empty metadata);
          item_timestamp := Some (written (now e));
          item_cache_key := Some cache_key |} in
     modify (set_memory (dict_set cache_key cached_item)) ;;;
     _store_persistent_cache e cache_key cached_item)
    (any_exception (ret tt)).

End WithHash.

(** The expiry time of a record is a datetime, so that the validity
    check of the record does not raise. *)
Definition expiry_in_range (ttl : Z) (it : cached_item) : bool :=
  match fromisoformat (get_timestamp it) with
  | Naive t | Aware t => representable (t + ttl * microseconds_per_hour)
  | NotIso => true
  end.

(** A lookup gets as far as the record file: the memory index holds no
    entry under the key, or one that has expired. *)
Definition reads_record (e : env) (cache_key : string) (s : state) : bool :=
  match dict_get cache_key (memory_cache s) with
  | Some it =>
      match _is_cache_valid (ttl_hours s) e it with
      | Ok valid => negb valid
      | Raise _ => false
      end
  | None => true
  end.

Definition is_none {A} (o : option A) : bool :=
  match o with
  | Some _ => false
  | None => true
  end.

(** The timestamp of a record can be compared with the clock: it reads
    as a datetime without time zone. *)
Definition has_clock_time (it : cached_item) : bool :=
  match fromisoformat (get_timestamp it) with
  | Naive _ => true
  | _ => false
  end.

(** The malformed records that [get_cached_response] has a clause for:
    text that is not JSON, and an object without a timestamp that can
    be compared with the clock or without a response. *)
Definition malformed (c : file_content) : bool :=
  match c with
  | BadJson => true
  | JsonObject it => negb (has_clock_time it) || is_none (item_response it)
  | _ => false
  end.

(** The records that [get_cached_response] has no clause for: JSON that
    is not an object, and an object whose expiry time is out of
    range. *)
Definition unhandled (ttl : Z) (c : file_content) : bool :=
  match c with
  | JsonOther => true
  | JsonObject it => negb (expiry_in_range ttl it)
  | _ => false
  end.

(** A read that fails before any JSON is parsed. *)
Definition read_fails (c : file_content) : bool :=
  match c with
  | Unreadable | BadEncoding => true
  | _ => false
  end.

(** Every record, in memory and on disk, has its response. *)
Definition has_response (it : cached_item) : bool :=
  negb (is_none (item_response it)).

Definition file_has_response (f : file) : bool :=
  match content f with
  | JsonObject it => has_response it
  | _ => true
  end.

Definition responses_present (s : state) : bool :=
  forallb (fun kv => has_response (snd kv)) (memory_cache s)
  && forallb (fun kf => file_has_response (snd kf)) (cache_dir s).

(** The sort key [x[1].get("timestamp", "")] of [optimize_cache]: the
    timestamp text.  Python compares texts code point by code point, a
    proper prefix being the smaller, as [String.leb] does. *)
Definition sort_key (x : string * cached_item) : string :=
  timestamp_text (get_timestamp (snd x)).

(** Descending by timestamp text ([reverse=True]). *)
Definition later_text_first (x y : string * cached_item) : bool :=
  String.leb (sort_key y) (sort_key x).

(** The instant at which a record was made, when its timestamp names
    one. *)
Definition created (it : cached_item) : option Z :=
  match fromisoformat (get_timestamp it) with
  | Naive t => Some t
  | _ => None
  end.

(** Every entry has a timestamp that [cache_response] wrote. *)
Definition written_by_cache (mem : list (string * cached_item)) : Prop :=
  forall x, In x mem ->
            exists t, representable t = true
                      /\ item_timestamp (snd x) = Some (written t).

(** The timestamp texts of the entries are ordered as the instants they
    name. *)
Definition ordered_as_created (mem : list (string * cached_item)) : Prop :=
  forall x y tx ty,
    In x mem -> In y mem ->
    created (snd x) = Some tx -> created (snd y) = Some ty ->
    (String.leb (sort_key x) (sort_key y) = true <-> (tx <= ty)%Z).

(** Ascending by modification time. *)
Definition older_first (x y : string * file) : bool :=
  (st_mtime (snd x) <=? st_mtime (snd y))%Z.

(** The loop over [files_to_remove]; an [OSError] of [unlink] is passed
    over, [undeletable] tells for which files it is raised. *)
Fixpoint remove_files (undeletable : string -> bool)
         (files_to_remove : list (string * file))
         (dir : list (string * file)) : list (string * file) :=
  match files_to_remove with
  | [] => dir
  | (k, _) :: rest =>
      remove_files undeletable rest
                   (if undeletable k then dir else dict_del k dir)
  end.

(** A file that cannot be deleted. *)
Definition stuck (undeletable : string -> bool) (x : string * file) : bool :=
  undeletable (fst x).

Definition optimize_cache_with (max_memory_items max_persistent_files : nat)
           (undeletable : string -> bool) : M state unit :=
  try_except
    (mem <- gets memory_cache ;;
     (if (max_memory_items <? List.length mem)%nat
      then let sorted_items := sort_by later_text_first mem in
           modify (set_memory (fun _ => firstn max_memory_items sorted_items))
      else ret tt) ;;;
     cache_files <- gets cache_dir ;;
     if (max_persistent_files <? List.length cache_files)%nat
     then let sorted_files := sort_by older_first cache_files in
          let files_to_remove :=
            all_but_last max_persistent_files sorted_files in
          modify (set_dir (remove_files undeletable files_to_remove))
     else ret tt)
    (any_exception (ret tt)).

Definition optimize_cache : (string -> bool) -> M state unit :=
  optimize_cache_with 1000 5000.

(** The calls that a client makes on a cache, each with what the
    surroundings decide during it, and a run of such calls. *)
Inductive cache_call :=
| Lookup (e : env) (query : string)
| Store (e : env) (query response department : string)
        (sources : option (list string))
        (metadata : option (list (string * string)))
| Optimize (undeletable : string -> bool).

Definition run_call (md5_hexdigest : string -> string) (c : cache_call)
           (s : state) : state :=
  match c with
  | Lookup e q => snd (get_cached_response md5_hexdigest e q s)
  | Store e q r d src meta =>
      snd (cache_response md5_hexdigest e q r d src meta s)
  | Optimize undeletable => snd (optimize_cache undeletable s)
  end.

Definition run_calls (md5_hexdigest : string -> string)
           (calls : list cache_call) (s : state) : state :=
  fold_left (fun st c => run_call md5_hexdigest c st) calls s.

Definition is_lookup (c : cache_call) : bool :=
  match c with
  | Lookup _ _ => true
  | _ => false
  end.

Definition count_lookups (calls : list cache_call) : nat :=
  List.length (filter is_lookup calls).

Record cache_stats_report := {
  report_total_requests : nat;
  report_cache_hits : nat;
  report_cache_misses : nat;
  hit_rate_percentage : Q;
  memory_cache_size : nat;
  persistent_cache_files : nat
}.

(** The rate before rounding: a float, or the integer 0. *)
Definition hit_rate (c : stats) : Q :=
  if (0 <? total_requests c)%nat
  then PyFloat.mul (PyFloat.truediv (Z.of_nat (hits c))
                                    (Z.of_nat (total_requests c)))
                   100
  else 0%Q.

(** [get_cache_stats], but for the directory size in megabytes. *)
Definition get_cache_stats (s : state) : cache_stats_report :=
  let c := cache_stats s in
  {| report_total_requests := total_requests c;
     report_cache_hits := hits c;
     report_cache_misses := misses c;
     hit_rate_percentage := PyFloat.round2 (hit_rate c);
     memory_cache_size := List.length (memory_cache s);
     persistent_cache_files := List.length (cache_dir s) |}.

(** *** Search, clearing and loading *)

(** [item.get(key, default)] on a text field. *)
Definition item_get (field : option string) (default : string) : string :=
  match field with
  | Some text => text
  | None => default
  end.

(** [_calculate_relevance].  The score is a float that holds a whole
    number, on which float arithmetic is exact; it is kept as a natural
    number. *)
Definition _calculate_relevance (search_term query response : string) : nat :=
  let score := 0%nat in
  let query_matches := count search_term query in
  let score := (score + query_matches * 2)%nat in
  let response_matches := count search_term response in
  (score + response_matches * 1)%nat.

Record search_result := {
  result_query : string;
  result_response : string;
  result_department : string;
  relevance_score : nat
}.

(** The loop of [search_cache] over [self.memory_cache.items()]. *)
Fixpoint search_items (search_term_lower : string)
         (items : list (string * cached_item)) : list search_result :=
  match items with
  | [] => []
  | (cache_key, item) :: rest =>
      let query := lower (item_get (item_query item) "") in
      let response := lower (item_get (item_response item) "") in
      if contains search_term_lower query
         || contains search_term_lower response
      then {| result_query := take 100 (item_get (item_query item) "");
              result_response := take 200 (item_get (item_response item) "");
              result_department := item_get (item_department item) "Unknown";
              relevance_score :=
                _calculate_relevance search_term_lower query response |}
           :: search_items search_term_lower rest
      else search_items search_term_lower rest
  end.

(** Descending by score ([reverse=True]). *)
Definition higher_score_first (x y : search_result) : bool :=
  (relevance_score y <=? relevance_score x)%nat.

(** [search_cache]; on records whose fields have the types that
    [cache_response] writes nothing in the body raises. *)
Definition search_cache (search_term : string) (s : state)
  : list search_result :=
  let search_term_lower := lower search_term in
  let search_results := search_items search_term_lower (memory_cache s) in
  let search_results := sort_by higher_score_first search_results in
  firstn 10 search_results.

Record popular_query := {
  popular_query_text : string;
  popular_department : string;
  cached_at : string;
  popular_cache_key : string
}.

(** [get_popular_queries]; [cached_at] is the timestamp text as the
    record has it. *)
Definition get_popular_queries (limit : Z) (s : state) : list popular_query :=
  map (fun kv =>
         let cache_key := fst kv in
         let item := snd kv in
         {| popular_query_text := take 100 (item_get (item_query item) "");
            popular_department := item_get (item_department item) "Unknown";
            cached_at := timestamp_text (get_timestamp item);
            popular_cache_key := cache_key |})
      (slice_to limit (memory_cache s)).

(** [cache_file.unlink()] inside a loop over the directory;
    [undeletable] tells for which files it raises [OSError]. *)
Definition unlink_file (undeletable : string -> bool) (cache_key : string)
  : M state unit :=
  if undeletable cache_key then raise OSError
  else modify (set_dir (dict_del cache_key)).

(** The loop of [clear_cache] that deletes every record file; it has no
    [try] of its own. *)
Fixpoint unlink_each (undeletable : string -> bool)
         (files : list (string * file)) : M state unit :=
  match files with
  | [] => ret tt
  | (cache_key, _) :: rest =>
      unlink_file undeletable cache_key ;;;
      unlink_each undeletable rest
  end.

(** The test of the loop over the memory index in [clear_cache]: older
    than the cutoff, or with a timestamp that raises [ValueError] when
    it is read or [TypeError] when it is compared. *)
Definition stale (cutoff_time : Z) (item : cached_item) : bool :=
  match fromisoformat (get_timestamp item) with
  | Naive cached_time => (cached_time <? cutoff_time)%Z
  | Aware _ => true
  | NotIso => true
  end.

Definition file_older (cutoff_time : Z) (kf : string * file) : bool :=
  (st_mtime (snd kf) <? cutoff_time)%Z.

(** [clear_cache]; [current_time] is the reading of [datetime.now()].
    The count of cleared items is only logged.  The difference
    [datetime.now() - timedelta(hours=older_than_hours)] raises
    [OverflowError] when it is no datetime. *)
Definition clear_cache (current_time : Z) (undeletable : string -> bool)
           (older_than_hours : option Z) : M state unit :=
  try_except
    (match older_than_hours with
     | None =>
         modify (set_memory (fun _ => [])) ;;;
         cache_files <- gets cache_dir ;;
         unlink_each undeletable cache_files
     | Some hours =>
         cutoff_time <-
           call (shifted current_time (- (hours * microseconds_per_hour))) ;;
         mem <- gets memory_cache ;;
         let keys_to_remove :=
           map fst (filter (fun kv => stale cutoff_time (snd kv)) mem) in
         modify (set_memory
                   (fun m => fold_left (fun m key => dict_del key m)
                                       keys_to_remove m)) ;;;
         cache_files <- gets cache_dir ;;
         modify (set_dir (remove_files undeletable
                            (filter (file_older cutoff_time) cache_files)))
     end)
    (any_exception (ret tt)).

(** Descending by modification time ([reverse=True]). *)
Definition newest_first (x y : string * file) : bool :=
  (st_mtime (snd y) <=? st_mtime (snd x))%Z.

(** The body of the loop of [_load_persistent_cache] for one file.
    [surroundings] gives the clock reading and the outcome of [unlink]
    while the file is handled, [cleanup_fails] the outcome of the
    [unlink] in the [except] clause. *)
Definition load_file (surroundings : string -> env)
           (cleanup_fails : string -> bool) (kf : string * file)
  : M state unit :=
  let cache_key := fst kf in
  let cache_file := snd kf in
  try_except
    (loaded <- json_load cache_file ;;
     match loaded with
     | JOther =>
         (* [cached_item.get] inside [_is_cache_valid] *)
         raise AttributeError
     | JObject cached_item =>
         ttl <- gets ttl_hours ;;
         valid <- call (_is_cache_valid ttl (surroundings cache_key)
                                        cached_item) ;;
         if valid
         then modify (set_memory (dict_set cache_key cached_item))
         else unlink (surroundings cache_key) cache_key
     end)
    (fun ex => match ex with
               | JSONDecodeError | KeyError | OSError =>
                   Some (try_except (unlink_file cleanup_fails cache_key)
                                    (any_exception (ret tt)))
               | _ => None
               end).

Fixpoint load_files (surroundings : string -> env)
         (cleanup_fails : string -> bool) (files : list (string * file))
  : M state unit :=
  match files with
  | [] => ret tt
  | kf :: rest =>
      load_file surroundings cleanup_fails kf ;;;
      load_files surroundings cleanup_fails rest
  end.

Definition _load_persistent_cache (surroundings : string -> env)
           (cleanup_fails : string -> bool) : M state unit :=
  try_except
    (cache_files <- gets cache_dir ;;
     let cache_files := sort_by newest_first cache_files in
     load_files surroundings cleanup_fails (firstn 100 cache_files))
    (any_exception (ret tt)).

(** [CacheModule.__init__] over a directory that holds [dir]. *)
Definition __init__ (dir : list (string * file)) (ttl : Z)
           (surroundings : string -> env) (cleanup_fails : string -> bool)
  : state :=
  snd (_load_persistent_cache surroundings cleanup_fails
         {| ttl_hours := ttl;
            memory_cache := [];
            cache_stats := {| hits := 0%nat; misses := 0%nat;
                             total_requests := 0%nat |};
            cache_dir := dir |}).

(** A file that makes the loading of the cache stop: its content is
    JSON but not an object, or it is not UTF-8. *)
Definition stray (c : file_content) : bool :=
  match c with
  | JsonOther | BadEncoding => true
  | _ => false
  end.

(** A record file that the loading removes: one that cannot be read or
    parsed, or an object that the validity check turns down. *)
Definition outdated (ttl : Z) (e : env) (c : file_content) : bool :=
  match c with
  | Unreadable | BadJson => true
  | JsonObject it =>
      match _is_cache_valid ttl e it with
      | Ok valid => negb valid
      | Raise _ => false
      end
  | _ => false
  end.

(** A file at which the loading of the cache stops: a stray one, or a
    record whose expiry time is out of range. *)
Definition halting (ttl : Z) (c : file_content) : bool :=
  stray c || unhandled ttl c.

End Cag.

(** ** The application ([app.py]): knowledge store and query classifier *)

Module App.

Import PyStr Py.
Local Open Scope string_scope.
Local Open Scope py_scope.

(** *** Civic knowledge store *)

(** One entry of ["zones_complete"]; a missing ["wards"] or
    ["ward_names"] key reads as the empty list. *)
Record zone_data := {
  wards : list Z;
  ward_names : list string
}.

(** One entry of ["departments_complete"]. *)
Record dept_data := {
  main_contact : option string;
  services : option (list string)
}.

(** [self.civic_data] and [self.pincode_mapping], in file order. *)
Record civic_store := {
  zones_complete : list (string * zone_data);
  departments_complete : list (string * dept_data);
  pincode_mapping : list (string * string)
}.

(** The value returned by [identify_area_from_query]: a dictionary whose
    ["type"] is one of four tags. *)
Inductive area_info :=
| AreaZone (name zone_number : string) (zwards : list Z) (znames : list string)
| AreaPincode (name pincode : string)
| AreaNamed (name : string)
| AreaGeneral.

Definition area_type (a : area_info) : string :=
  match a with
  | AreaZone _ _ _ _ => "zone"
  | AreaPincode _ _ => "pincode_area"
  | AreaNamed _ => "area"
  | AreaGeneral => "general"
  end.

Definition area_name (a : area_info) : string :=
  match a with
  | AreaZone n _ _ _ => n
  | AreaPincode n _ => n
  | AreaNamed n => n
  | AreaGeneral => "Chennai"
  end.

(** [zone_name.replace("_", " ").replace("Zone ", "")]. *)
Definition zone_display (zone_name : string) : string :=
  replace "Zone " "" (replace "_" " " zone_name).

Definition common_areas : list string :=
  [ "adyar"; "t nagar"; "anna nagar"; "velachery"; "mylapore";
    "kodambakkam"; "nungambakkam"; "guindy"; "chrompet"; "tambaram";
    "perambur"; "royapuram"; "egmore"; "kilpauk"; "saidapet" ].

(** The three loops of [identify_area_from_query]; each returns at its
    first hit. *)
Fixpoint check_zones (query_lower : string) (zones : list (string * zone_data))
  : option area_info :=
  match zones with
  | [] => None
  | (zone_name, zd) :: rest =>
      let zd_display := zone_display zone_name in
      if contains (lower zd_display) query_lower
      then Some (AreaZone zd_display zone_name (wards zd) (ward_names zd))
      else check_zones query_lower rest
  end.

Fixpoint check_pincodes (query query_lower : string)
         (pins : list (string * string)) : option area_info :=
  match pins with
  | [] => None
  | (pincode, area) :: rest =>
      if contains pincode query || contains (lower area) query_lower
      then Some (AreaPincode area pincode)
      else check_pincodes query query_lower rest
  end.

Fixpoint check_common (query_lower : string) (areas : list string)
  : option area_info :=
  match areas with
  | [] => None
  | area :: rest =>
      if contains area query_lower
      then Some (AreaNamed (title area))
      else check_common query_lower rest
  end.

Definition identify_area_from_query (cs : civic_store) (query : string)
  : area_info :=
  let query_lower := lower query in
  match check_zones query_lower (zones_complete cs) with
  | Some a => a
  | None =>
      match check_pincodes query query_lower (pincode_mapping cs) with
      | Some a => a
      | None =>
          match check_common query_lower common_areas with
          | Some a => a
          | None => AreaGeneral
          end
      end
  end.

(** The keyword table of [identify_issue_type], in source order. *)
Definition issue_keywords : list (string * list string) :=
  [ ("water_supply",
     ["water"; "supply"; "shortage"; "leak"; "pipe"; "connection"; "pressure"]);
    ("electricity",
     ["power"; "electricity"; "outage"; "billing"; "meter"; "connection"]);
    ("garbage_collection",
     ["garbage"; "waste"; "collection"; "bin"; "sweeping"; "cleaning"]);
    ("roads", ["road"; "pothole"; "street"; "repair"; "maintenance"]);
    ("transport", ["bus"; "transport"; "route"; "fare"; "conductor"; "driver"]) ].

Fixpoint first_issue (query_lower : string)
         (table : list (string * list string)) : string :=
  match table with
  | [] => "general"
  | (issue_type, keywords) :: rest =>
      if existsb (fun keyword => contains keyword query_lower) keywords
      then issue_type
      else first_issue query_lower rest
  end.

Definition identify_issue_type (query : string) : string :=
  first_issue (lower query) issue_keywords.

(** Whether some keyword of a table entry occurs in the query. *)
Definition keyword_hit (query_lower : string) (entry : string * list string)
  : bool :=
  existsb (fun keyword => contains keyword query_lower) (snd entry).

(** Whether a word begins with a non-blank character. *)
Definition begins_nonblank (w : string) : bool :=
  match w with
  | EmptyString => false
  | String c _ => negb (is_space c)
  end.

(** The tests of the three loops of [identify_area_from_query], for
    stating which entry is the first to pass. *)
Definition zone_hit (query : string) (z : string * zone_data) : bool :=
  contains (lower (zone_display (fst z))) (lower query).

Definition pincode_hit (query : string) (p : string * string) : bool :=
  contains (fst p) query || contains (lower (snd p)) (lower query).

Definition common_hit (query : string) (a : string) : bool :=
  contains a (lower query).

(** [get_fallback_civic_data] and [get_fallback_pincode_data]. *)
Definition fallback_store : civic_store :=
  {| zones_complete := [];
     departments_complete :=
       [ ("Greater_Chennai_Corporation",
          {| main_contact := Some "1913";
             services := Some ["Garbage collection"; "Road maintenance";
                               "Building approvals"] |});
         ("Chennai_Metro_Water",
          {| main_contact := Some "044-4567-4567";
             services := Some ["Water supply"; "Sewerage"; "New connections"] |});
         ("TANGEDCO",
          {| main_contact := Some "94987-94987";
             services := Some ["Electricity supply"; "Power failures";
                               "Billing"] |});
         ("TNSTC",
          {| main_contact := Some "1800-599-1500";
             services := Some ["Bus transport"; "Route complaints"] |}) ];
     pincode_mapping :=
       [ ("600001", "Parrys Corner"); ("600004", "Mylapore");
         ("600020", "Adyar"); ("600017", "T. Nagar");
         ("600040", "Anna Nagar") ] |}.

(** *** Retrieval, reasoning and composition *)

(** The dictionary that the retrieval step hands on; only these keys are
    read afterwards. *)
Record civic_info := {
  info_department : string;
  info_contact : string;
  info_services : list string;
  info_sources : list string
}.

Definition get_or {A} (o : option A) (default : A) : A :=
  match o with
  | Some a => a
  | None => default
  end.

Definition dept_contact (d : option dept_data) (default : string) : string :=
  match d with
  | Some dd => get_or (main_contact dd) default
  | None => default
  end.

Definition dept_services (d : option dept_data) : list string :=
  match d with
  | Some dd => get_or (services dd) []
  | None => []
  end.

(** [get_fallback_civic_info]. *)
Definition get_fallback_civic_info (cs : civic_store) (issue_type : string)
  : civic_info :=
  let departments := departments_complete cs in
  if issue_type =? "water_supply" then
    let dept_info := dict_get "Chennai_Metro_Water" departments in
    {| info_department := "Chennai Metro Water";
       info_contact := dept_contact dept_info "044-4567-4567";
       info_services := dept_services dept_info;
       info_sources := ["Chennai Metro Water Official Data"] |}
  else if issue_type =? "electricity" then
    let dept_info := dict_get "TANGEDCO" departments in
    {| info_department := "TANGEDCO";
       info_contact := dept_contact dept_info "94987-94987";
       info_services := dept_services dept_info;
       info_sources := ["TANGEDCO Official Data"] |}
  else if issue_type =? "garbage_collection" then
    let dept_info := dict_get "Greater_Chennai_Corporation" departments in
    {| info_department := "Greater Chennai Corporation";
       info_contact := dept_contact dept_info "1913";
       info_services := dept_services dept_info;
       info_sources := ["GCC Official Data"] |}
  else if issue_type =? "transport" then
    let dept_info := dict_get "TNSTC" departments in
    {| info_department := "TNSTC";
       info_contact := dept_contact dept_info "1800-599-1500";
       info_services := dept_services dept_info;
       info_sources := ["TNSTC Official Data"] |}
  else
    {| info_department := "Greater Chennai Corporation";
       info_contact := "1913";
       info_services := ["General civic services"];
       info_sources := ["General civic information"] |}.

(** [RAGModule._get_department_info] with [_get_sources] ([rag.py]). *)
Definition department_mapping : list (string * string) :=
  [ ("water_supply", "Chennai_Metro_Water");
    ("electricity", "TANGEDCO");
    ("garbage_collection", "Greater_Chennai_Corporation");
    ("roads", "Greater_Chennai_Corporation");
    ("transport", "TNSTC") ].

Definition rag_department_info (cs : civic_store) (issue_type : string)
  : civic_info :=
  let dept_key :=
    get_or (dict_get issue_type department_mapping)
           "Greater_Chennai_Corporation" in
  let dept_data := dict_get dept_key (departments_complete cs) in
  {| info_department := replace "_" " " dept_key;
     info_contact := dept_contact dept_data "1913";
     info_services := dept_services dept_data;
     info_sources := [ "Live data from Chennai civic portals";
                       "Official department websites";
                       "Government notification systems" ] |}.

(** [RAGModule._get_fallback_info] ([rag.py]). *)
Definition rag_fallback_info (issue_type : string) : civic_info :=
  let sources := ["Fallback civic information"] in
  if issue_type =? "water_supply" then
    {| info_department := "Chennai Metro Water";
       info_contact := "044-4567-4567";
       info_services := ["Water supply"; "Sewerage"; "New connections"];
       info_sources := sources |}
  else if issue_type =? "electricity" then
    {| info_department := "TANGEDCO";
       info_contact := "94987-94987";
       info_services := ["Power supply"; "Billing"; "Complaints"];
       info_sources := sources |}
  else
    {| info_department := "Greater Chennai Corporation";
       info_contact := "1913";
       info_services := ["Waste collection"; "Street cleaning"];
       info_sources := sources |}.

(** How a call into an engine module ends, as far as the pipeline can
    tell: normally, by the module's own fallback after an internal
    failure, or by an exception that leaves the module. *)
Inductive engine_outcome :=
| EngineOk
| EngineDegraded
| EngineRaises.

(** The places of [process_civic_query] where an exception not foreseen
    by the model (a malformed knowledge store, a missing session key,
    exhausted memory) may be raised. *)
Inductive stage :=
| CacheCheck
| Classify
| Retrieve
| Reason
| Compose
| CacheWrite
| Record_.

(** What the surroundings decide during one pipeline run.  [generate]
    is [openai.ChatCompletion.create] followed by reading the message
    content: [None] when any of it raises. *)
Record pipeline_env := {
  start_clock : Z;
  end_clock : Z;
  lookup_env : Cag.env;
  store_env : Cag.env;
  rag_outcome : engine_outcome;
  kag_outcome : engine_outcome;
  generate : string -> string -> string -> option string;
  fault : stage -> option exn
}.

(** The entry that the dictionary stand-in of the cache holds. *)
Record dict_entry := {
  entry_response : string;
  entry_department : string;
  entry_timestamp : Z;
  entry_sources : list string
}.

(** [self.cache_module]: a [CacheModule], or the plain dictionary that
    [setup_basic_modules] installs. *)
Inductive cache_backend :=
| CacheObject (c : Cag.state)
| BasicDict (d : list (string * dict_entry)).

(** The application object with the parts of the session it writes. *)
Record app := {
  civic_data : civic_store;
  rag_module : bool;
  kag_module : bool;
  cache_module : cache_backend;
  fl_manager : option nat;
  api_key : bool;
  response_times : list Z
}.

Definition set_cache_module (f : cache_backend -> cache_backend) (a : app)
  : app :=
  {| civic_data := civic_data a; rag_module := rag_module a;
     kag_module := kag_module a; cache_module := f (cache_module a);
     fl_manager := fl_manager a; api_key := api_key a;
     response_times := response_times a |}.

Definition set_fl_manager (f : option nat -> option nat) (a : app) : app :=
  {| civic_data := civic_data a; rag_module := rag_module a;
     kag_module := kag_module a; cache_module := cache_module a;
     fl_manager := f (fl_manager a); api_key := api_key a;
     response_times := response_times a |}.

Definition set_response_times (f : list Z -> list Z) (a : app) : app :=
  {| civic_data := civic_data a; rag_module := rag_module a;
     kag_module := kag_module a; cache_module := cache_module a;
     fl_manager := fl_manager a; api_key := api_key a;
     response_times := f (response_times a) |}.

(** What [check_cache] returns. *)
Inductive cached :=
| CachedEntry (d : dict_entry)
| CachedText (s : string).

(** The dictionary returned by [process_civic_query]. *)
Record pipeline_result := {
  response : string;
  sources : list string;
  processing_time : Z;
  cache_hit : bool;
  department : string;
  area : option string;
  issue : option string;
  error : option exn
}.

Definition checkpoint (e : pipeline_env) (st : stage) : M app unit :=
  match fault e st with
  | Some ex => raise ex
  | None => ret tt
  end.

(** Run a computation of the cache object inside the application. *)
Definition on_cache_object {A} (c : Cag.state) (m : M Cag.state A) : M app A :=
  fun a => match m c with
           | (r, c') => (r, set_cache_module (fun _ => CacheObject c') a)
           end.

Definition retrieve_civic_information (e : pipeline_env)
           (issue_type : string) : M app civic_info :=
  cs <- gets civic_data ;;
  rag <- gets rag_module ;;
  from_rag <-
    (if rag
     then try_except
            (match rag_outcome e with
             | EngineOk => ret (Return (rag_department_info cs issue_type))
             | EngineDegraded => ret (Return (rag_fallback_info issue_type))
             | EngineRaises => raise RuntimeError
             end)
            (any_exception (ret Continue))
     else ret Continue) ;;
  match from_rag with
  | Return info => ret info
  | Continue => ret (get_fallback_civic_info cs issue_type)
  end.

(** [KnowledgeGraphModule._generate_recommendations] ([kag.py]). *)
Definition issue_recommendations : list (string * list string) :=
  [ ("water_supply",
     [ "Contact Chennai Metro Water at 044-4567-4567";
       "Check if area has scheduled maintenance";
       "Request tanker service if emergency";
       "Escalate to Superintending Engineer if no response" ]);
    ("electricity",
     [ "Call TANGEDCO at 94987-94987 for power failures";
       "Report via WhatsApp at 94458508111 with photo";
       "Check estimated restoration time";
       "Claim compensation for delays over 1 hour" ]);
    ("garbage_collection",
     [ "Contact GCC at 1913 or use Namma Chennai app";
       "Ensure waste segregation at source";
       "Note down complaint number";
       "Follow up with zone office if needed" ]) ].

Definition kag_recommendations (area_info : area_info) (issue_type : string)
  : list string :=
  let recommendations :=
    get_or (dict_get issue_type issue_recommendations)
           [ "Contact relevant department for assistance";
             "Provide exact location and issue description";
             "Keep complaint number for tracking" ] in
  let name := area_name area_info in
  let recommendations :=
    if name =? "" then recommendations
    else
      let mention := "Mention " ++ name ++ " location clearly when reporting" in
      let with_area := List.app recommendations [mention] in
      if area_type area_info =? "zone"
      then List.app with_area ["Contact zone office for faster resolution"]
      else with_area in
  firstn 6 recommendations.

(** [apply_knowledge_graph_reasoning]; of the dictionary it returns only
    ["recommendations"] is kept here, nothing later reads it. *)
Definition apply_knowledge_graph_reasoning (e : pipeline_env)
           (area_info : area_info) (issue_type : string)
  : M app (list string) :=
  kag <- gets kag_module ;;
  from_kag <-
    (if kag
     then try_except
            (match kag_outcome e with
             | EngineOk =>
                 ret (Return (kag_recommendations area_info issue_type))
             | EngineDegraded =>
                 ret (Return
                        [ "Contact appropriate department for " ++ issue_type
                          ++ " issues";
                          "Provide detailed location information";
                          "Keep complaint reference number";
                          "Follow up if no response within expected timeframe" ])
             | EngineRaises => raise RuntimeError
             end)
            (any_exception (ret Continue))
     else ret Continue) ;;
  match from_kag with
  | Return rs => ret rs
  | Continue =>
      ret [ "Contact the relevant department for " ++ issue_type ++ " issues";
            "Provide your exact address in " ++ area_name area_info;
            "Note down complaint number for tracking" ]
  end.

Definition nl : string := String (ascii_of_nat 10) EmptyString.

Definition indent8 : string := "        ".

Definition indent12 : string := "            ".

(** The template of [generate_fallback_response]; [area_info] is [None]
    for the empty dictionary. *)
Definition generate_fallback_response (area_info : option area_info)
           (issue_type : string) (ci : civic_info) : string :=
  let department := info_department ci in
  let contact := info_contact ci in
  let area_name :=
    match area_info with
    | Some a => area_name a
    | None => "your area"
    end in
  nl ++ indent8 ++ "For " ++ replace "_" " " issue_type ++ " issues in "
     ++ area_name ++ ", please contact " ++ department ++ " at " ++ contact
     ++ "." ++ nl
  ++ indent8 ++ nl
  ++ indent8 ++ "**Immediate Steps:**" ++ nl
  ++ indent8 ++ "1. Call " ++ contact ++ " to register your complaint" ++ nl
  ++ indent8 ++ "2. Note down the complaint number for tracking" ++ nl
  ++ indent8 ++ "3. Provide exact address and description of issue" ++ nl
  ++ indent8 ++ nl
  ++ indent8 ++ "**Expected Response Time:** 24-48 hours for most issues" ++ nl
  ++ indent8 ++ nl
  ++ indent8 ++ "**Escalation:** If no response within expected time, contact the zone office or visit the department in person."
  ++ nl
  ++ indent8 ++ nl
  ++ indent8 ++ "For emergency issues, call immediately. Non-emergency issues can also be reported through official mobile apps or online portals."
  ++ nl
  ++ indent8.

Definition system_prompt (ci : civic_info) : string :=
  nl ++ indent12 ++ "You are CivicMindAI, an expert Chennai civic assistant AI. Provide helpful, accurate, and actionable responses about civic issues in Chennai."
  ++ nl
  ++ indent12 ++ nl
  ++ indent12 ++ "Current civic information:" ++ nl
  ++ indent12 ++ "- Department: " ++ info_department ci ++ nl
  ++ indent12 ++ "- Contact: " ++ info_contact ci ++ nl
  ++ indent12 ++ "- Services: " ++ join ", " (info_services ci) ++ nl
  ++ indent12 ++ nl
  ++ indent12 ++ "Guidelines:" ++ nl
  ++ indent12 ++ "1. Be specific and actionable" ++ nl
  ++ indent12 ++ "2. Include contact numbers and procedures" ++ nl
  ++ indent12 ++ "3. Mention estimated timeframes" ++ nl
  ++ indent12 ++ "4. Provide escalation steps if needed" ++ nl
  ++ indent12 ++ "5. Keep response under 200 words" ++ nl
  ++ indent12.

(** [generate_ai_response]: the generated text, stripped; the template
    with an empty area and issue when the call fails. *)
Definition generate_ai_response (e : pipeline_env) (query : string)
           (ci : civic_info) (model : string) : string :=
  match generate e model (system_prompt ci) query with
  | Some text => strip text
  | None => generate_fallback_response None "" ci
  end.

Section WithHash.

Variable md5_hexdigest : string -> string.

Definition check_cache (e : pipeline_env) (query : string)
  : M app (option cached) :=
  backend <- gets cache_module ;;
  match backend with
  | BasicDict d =>
      let query_hash := md5_hexdigest (lower query) in
      ret (option_map CachedEntry (dict_get query_hash d))
  | CacheObject c =>
      text <- on_cache_object c
                (Cag.get_cached_response md5_hexdigest (lookup_env e) query) ;;
      ret (option_map CachedText text)
  end.

Definition cache_response (e : pipeline_env)
           (query response department : string) : M app unit :=
  backend <- gets cache_module ;;
  match backend with
  | BasicDict d =>
      let query_hash := md5_hexdigest (lower query) in
      modify (set_cache_module
                (fun _ => BasicDict
                            (dict_set query_hash
                               {| entry_response := response;
                                  entry_department := department;
                                  entry_timestamp := Cag.now (store_env e);
                                  entry_sources := [] |} d)))
  | CacheObject c =>
      on_cache_object c
        (Cag.cache_response md5_hexdigest (store_env e)
                            query response department None None)
  end.

(** [if cached_response:]. *)
Definition truthy (c : option cached) : bool :=
  match c with
  | None => false
  | Some (CachedEntry _) => true
  | Some (CachedText s) => negb (s =? "")
  end.

(** [cached_response["response"]]: a string cannot be indexed by a
    string. *)
Definition subscript_response (c : option cached) : M app string :=
  match c with
  | Some (CachedEntry d) => ret (entry_response d)
  | _ => raise TypeError
  end.

Definition get_sources (c : option cached) : M app (list string) :=
  match c with
  | Some (CachedEntry d) => ret (entry_sources d)
  | _ => raise AttributeError
  end.

Definition get_department (c : option cached) : M app string :=
  match c with
  | Some (CachedEntry d) => ret (entry_department d)
  | _ => raise AttributeError
  end.

Definition apology : string :=
  "I apologize, but I encountered an error processing your query. Please try again or contact support.".

(** The [try] block of [process_civic_query]. *)
Definition pipeline_steps (e : pipeline_env) (query model : string)
  : M app pipeline_result :=
  let start_time := start_clock e in
  (* Step 1: check cache *)
  checkpoint e CacheCheck ;;;
  cached_response <- check_cache e query ;;
  if truthy cached_response
  then
    r <- subscript_response cached_response ;;
    s <- get_sources cached_response ;;
    d <- get_department cached_response ;;
    ret {| response := r;
           sources := s;
           processing_time := (end_clock e - start_time)%Z;
           cache_hit := true;
           department := d;
           area := None; issue := None; error := None |}
  else
    (* Step 2: area and issue type *)
    checkpoint e Classify ;;;
    cs <- gets civic_data ;;
    let area_info := identify_area_from_query cs query in
    let issue_type := identify_issue_type query in
    (* Step 3: retrieval *)
    checkpoint e Retrieve ;;;
    civic_info <- retrieve_civic_information e issue_type ;;
    (* Step 4: knowledge graph reasoning *)
    checkpoint e Reason ;;;
    contextual_info <-
      apply_knowledge_graph_reasoning e area_info issue_type ;;
    (* Step 5: response text *)
    checkpoint e Compose ;;;
    key <- gets api_key ;;
    let response :=
      if key
      then generate_ai_response e query civic_info model
      else generate_fallback_response (Some area_info) issue_type
                                      civic_info in
    (* Step 6: cache the response *)
    checkpoint e CacheWrite ;;;
    cache_response e query response (info_department civic_info) ;;;
    (* Step 7: record the interaction *)
    checkpoint e Record_ ;;;
    modify (set_fl_manager (option_map S)) ;;;
    let processing_time := (end_clock e - start_time)%Z in
    modify (set_response_times
              (fun ts => (ts ++ [processing_time])%list)) ;;;
    ret {| response := response;
           sources := info_sources civic_info;
           processing_time := processing_time;
           cache_hit := false;
           department := info_department civic_info;
           area := Some (area_name area_info);
           issue := Some issue_type;
           error := None |}.

(** The dictionary built by the [except Exception] clause. *)
Definition fault_result (e : pipeline_env) (ex : exn) : pipeline_result :=
  {| response := apology;
     sources := [];
     processing_time := (end_clock e - start_clock e)%Z;
     cache_hit := false;
     department := "System";
     area := None; issue := None;
     error := Some ex |}.

Definition process_civic_query (e : pipeline_env) (query model : string)
  : M app pipeline_result :=
  try_except (pipeline_steps e query model)
             (fun ex => Some (ret (fault_result e ex))).

End WithHash.

(** Postconditions: no condition, and a cache hit with text in it. *)
Definition anything {A} (_ : A) : Prop := True.

Definition hit_nonempty (c : option cached) : Prop :=
  forall en, c = Some (CachedEntry en) -> entry_response en <> "".

Definition response_nonempty (r : pipeline_result) : Prop :=
  response r <> "".

(** The application runs on a [CacheModule]. *)
Definition uses_cache_object (a : app) : Prop :=
  match cache_module a with
  | CacheObject _ => True
  | BasicDict _ => False
  end.

(** What a [CacheModule] hands back is never an entry. *)
Definition not_an_entry (c : option cached) : Prop :=
  forall en, c <> Some (CachedEntry en).

Definition reports_miss (r : pipeline_result) : Prop :=
  cache_hit r = false.

(** The generated text, when there is one, is not blank. *)
Definition generation_nonblank (e : pipeline_env) : Prop :=
  forall model prompt query text,
    generate e model prompt query = Some text -> strip text <> "".

(** The dictionary stand-in of the cache holds no empty response. *)
Definition cached_responses_nonempty (a : app) : Prop :=
  match cache_module a with
  | BasicDict d => forall k en, In (k, en) d -> entry_response en <> ""
  | CacheObject _ => True
  end.

End App.

(** ** The learning manager ([fl_manager.py]) *)

Module Fl.

Import PyStr Py.
Local Open Scope string_scope.
Local Open Scope py_scope.

Record interaction := {
  interaction_timestamp : Z;
  interaction_query : string;
  interaction_response : string;
  interaction_issue_type : string;
  interaction_department : string;
  interaction_area : string;
  response_length : nat;
  query_complexity : string
}.

Record feedback := {
  feedback_timestamp : Z;
  feedback_query : string;
  is_helpful : bool;
  feedback_issue_type : string;
  feedback_department : string;
  feedback_score : Q
}.

(** One value of [department_performance] and [issue_type_accuracy]. *)
Record performance := {
  correct : nat;
  total : nat
}.

Record learning_metrics := {
  total_interactions : nat;
  total_feedback : nat;
  positive_feedback_rate : Q;
  model_updates : nat;
  last_update : option Z
}.

(** A [FederatedLearningManager]; the two deques are lists with the
    oldest element first. *)
Record manager := {
  feedback_window : Z;
  interactions : list interaction;
  feedback_data : list feedback;
  response_quality_scores : list (string * list Q);
  department_performance : list (string * performance);
  issue_type_accuracy : list (string * performance);
  metrics : learning_metrics
}.

(** [FederatedLearningManager(feedback_window=...)]. *)
Definition __init__ (feedback_window : Z) : manager :=
  {| feedback_window := feedback_window;
     interactions := [];
     feedback_data := [];
     response_quality_scores := [];
     department_performance := [];
     issue_type_accuracy := [];
     metrics := {| total_interactions := 0%nat;
                   total_feedback := 0%nat;
                   positive_feedback_rate := 0%Q;
                   model_updates := 0%nat;
                   last_update := None |} |}.

Definition entities : list string :=
  ["water"; "electricity"; "garbage"; "road"; "transport"; "zone"; "ward"].

Definition complex_indicators : list string :=
  ["how"; "why"; "when"; "multiple"; "various"; "different"; "compare"].

(** [_assess_query_complexity]; on a [str] nothing in it raises. *)
Definition _assess_query_complexity (query : string) : string :=
  let word_count := List.length (split query) in
  let complexity_score := 0%nat in
  let complexity_score :=
    if (20 <? word_count)%nat then (complexity_score + 2)%nat
    else if (10 <? word_count)%nat then (complexity_score + 1)%nat
    else complexity_score in
  let entity_mentions :=
    List.length (filter (fun entity => contains entity (lower query))
                        entities) in
  let complexity_score :=
    if (2 <? entity_mentions)%nat then (complexity_score + 2)%nat
    else if (1 <? entity_mentions)%nat then (complexity_score + 1)%nat
    else complexity_score in
  let complexity_score :=
    if existsb (fun indicator => contains indicator (lower query))
               complex_indicators
    then (complexity_score + 1)%nat
    else complexity_score in
  if (4 <=? complexity_score)%nat then "high"
  else if (2 <=? complexity_score)%nat then "medium"
  else "low".

(** [record_interaction]; [clock] is the reading of [datetime.now()] and
    [area] the name in [area_info], when one is given. *)
Definition record_interaction (clock : Z) (query response issue_type : string)
           (area : option string) (department : string) (m : manager)
  : manager :=
  let interaction :=
    {| interaction_timestamp := clock;
       interaction_query := take 200 query;
       interaction_response := take 500 response;
       interaction_issue_type := issue_type;
       interaction_department := department;
       interaction_area := match area with
                           | Some name => name
                           | None => "Unknown"
                           end;
       response_length := String.length response;
       query_complexity := _assess_query_complexity query |} in
  let lm := metrics m in
  {| feedback_window := feedback_window m;
     interactions := deque_append 1000 interaction (interactions m);
     feedback_data := feedback_data m;
     response_quality_scores := response_quality_scores m;
     department_performance := department_performance m;
     issue_type_accuracy := issue_type_accuracy m;
     metrics := {| total_interactions := S (total_interactions lm);
                   total_feedback := total_feedback lm;
                   positive_feedback_rate := positive_feedback_rate lm;
                   model_updates := model_updates lm;
                   last_update := last_update lm |} |}.

(** [_update_model_parameters]; the strategy adjustment that follows the
    new rate only writes to the log. *)
Definition _update_model_parameters (clock : Z) (m : manager) : manager :=
  match feedback_data m with
  | [] => m
  | _ =>
      let recent_feedback :=
        slice_from (- feedback_window m) (feedback_data m) in
      let positive_feedback :=
        List.length (filter is_helpful recent_feedback) in
      let total_feedback_ := List.length recent_feedback in
      let lm := metrics m in
      let rate :=
        if (0 <? total_feedback_)%nat
        then (inject_Z (Z.of_nat positive_feedback)
              / inject_Z (Z.of_nat total_feedback_))%Q
        else positive_feedback_rate lm in
      {| feedback_window := feedback_window m;
         interactions := interactions m;
         feedback_data := feedback_data m;
         response_quality_scores := response_quality_scores m;
         department_performance := department_performance m;
         issue_type_accuracy := issue_type_accuracy m;
         metrics := {| total_interactions := total_interactions lm;
                       total_feedback := total_feedback lm;
                       positive_feedback_rate := rate;
                       model_updates := S (model_updates lm);
                       last_update := Some clock |} |}
  end.

(** [table[key]["total"] += 1] and, for helpful feedback,
    [table[key]["correct"] += 1] on a [defaultdict]. *)
Definition tally (key : string) (helpful : bool)
           (table : list (string * performance))
  : list (string * performance) :=
  let p := match dict_get key table with
           | Some p => p
           | None => {| correct := 0%nat; total := 0%nat |}
           end in
  dict_set key
           {| correct := if helpful then S (correct p) else correct p;
              total := S (total p) |}
           table.

(** [scores[key].append(x)] on a [defaultdict(list)]. *)
Definition append_score (key : string) (x : Q)
           (scores : list (string * list Q)) : list (string * list Q) :=
  let l := match dict_get key scores with
           | Some l => l
           | None => []
           end in
  dict_set key (l ++ [x])%list scores.

(** [record_feedback]. *)
Definition record_feedback (clock update_clock : Z) (query : string)
           (helpful : bool) (issue_type department : string) (m : manager)
  : manager :=
  let score := if helpful then 1%Q else 0%Q in
  let entry :=
    {| feedback_timestamp := clock;
       feedback_query := take 200 query;
       is_helpful := helpful;
       feedback_issue_type := issue_type;
       feedback_department := department;
       feedback_score := score |} in
  let lm := metrics m in
  let m' :=
    {| feedback_window := feedback_window m;
       interactions := interactions m;
       feedback_data := deque_append 500 entry (feedback_data m);
       response_quality_scores :=
         append_score issue_type score (response_quality_scores m);
       department_performance :=
         tally department helpful (department_performance m);
       issue_type_accuracy :=
         tally issue_type helpful (issue_type_accuracy m);
       metrics := {| total_interactions := total_interactions lm;
                     total_feedback := S (total_feedback lm);
                     positive_feedback_rate := positive_feedback_rate lm;
                     model_updates := model_updates lm;
                     last_update := last_update lm |} |} in
  if (List.length (feedback_data m') mod 10 =? 0)%nat
  then _update_model_parameters update_clock m'
  else m'.

(** A run of feedback, each with its clock readings. *)
Record feedback_call := {
  call_clock : Z;
  call_update_clock : Z;
  call_query : string;
  call_helpful : bool;
  call_issue_type : string;
  call_department : string
}.

Definition run_feedback (calls : list feedback_call) (m : manager)
  : manager :=
  fold_left (fun m c =>
               record_feedback (call_clock c) (call_update_clock c)
                               (call_query c) (call_helpful c)
                               (call_issue_type c) (call_department c) m)
            calls m.

Record interaction_call := {
  seen_clock : Z;
  seen_query : string;
  seen_response : string;
  seen_issue_type : string;
  seen_area : option string;
  seen_department : string
}.

Definition run_interactions (calls : list interaction_call) (m : manager)
  : manager :=
  fold_left (fun m c =>
               record_interaction (seen_clock c) (seen_query c)
                                  (seen_response c) (seen_issue_type c)
                                  (seen_area c) (seen_department c) m)
            calls m.

End Fl.

(** ** The session of the application ([app.py]) *)

Module Session.

Import PyStr Py App.
Local Open Scope string_scope.
Local Open Scope py_scope.

(** One entry of [st.session_state.chat_history]; the timestamp is the
    clock reading that the entry shows as hours and minutes. *)
Record chat_entry := {
  chat_query : string;
  chat_response : string;
  chat_timestamp : Z;
  chat_processing_time : Z;
  chat_department : string;
  chat_cache_hit : bool;
  chat_sources : list string
}.

Record feedback_entry := {
  chat_index : nat;
  feedback : string;
  feedback_timestamp : Z;
  feedback_query : string
}.

(** The part of [st.session_state] that the chat writes, but for the
    response times, which the application object carries. *)
Record session := {
  chat_history : list chat_entry;
  query_count : nat;
  user_feedback : list feedback_entry;
  category_stats : list (string * nat)
}.

Definition category_names : list string :=
  [ "Water Supply"; "Garbage Collection"; "Electricity"; "Roads";
    "Transport"; "Other" ].

(** [initialize_session_state] on a new session. *)
Definition initialize_session_state : session :=
  {| chat_history := [];
     query_count := 0%nat;
     user_feedback := [];
     category_stats := map (fun name => (name, 0%nat)) category_names |}.

Definition set_category_stats (f : list (string * nat) -> list (string * nat))
           (ss : session) : session :=
  {| chat_history := chat_history ss; query_count := query_count ss;
     user_feedback := user_feedback ss;
     category_stats := f (category_stats ss) |}.

(** [st.session_state.category_stats[key] += 1]. *)
Definition increment (key : string) : M (app * session) unit :=
  stats <- gets (fun st : app * session => category_stats (snd st)) ;;
  match dict_get key stats with
  | Some n =>
      modify (fun st : app * session =>
                (fst st, set_category_stats (dict_set key (S n)) (snd st)))
  | None => raise KeyError
  end.

(** Run a computation of the application object beside the session. *)
Definition on_app {A} (m : M app A) : M (app * session) A :=
  fun st => match m (fst st) with
            | (r, a') => (r, (a', snd st))
            end.

(** [sidebar_controls]: a key typed into the sidebar becomes the key of
    the generative model; the key and the selected model are handed
    back.  The widgets themselves are left out. *)
Definition sidebar_controls (typed_key : bool) (selected_model : string)
  : M (app * session) (bool * string) :=
  (if typed_key
   then modify (fun st : app * session =>
                  ({| civic_data := civic_data (fst st);
                      rag_module := rag_module (fst st);
                      kag_module := kag_module (fst st);
                      cache_module := cache_module (fst st);
                      fl_manager := fl_manager (fst st);
                      api_key := true;
                      response_times := response_times (fst st) |},
                   snd st))
   else ret tt) ;;;
  ret (typed_key, selected_model).

Section WithHash.

Variable md5_hexdigest : string -> string.

(** [process_and_display_query]; [clock] is the reading of
    [datetime.now()] for the chat entry.  The calls that only draw are
    left out. *)
Definition process_and_display_query (e : pipeline_env) (clock : Z)
           (typed_key : bool) (selected_model query : string)
  : M (app * session) unit :=
  controls <- sidebar_controls typed_key selected_model ;;
  let model := snd controls in
  let issue_type := identify_issue_type query in
  stats <- gets (fun st : app * session => category_stats (snd st)) ;;
  (match dict_get issue_type stats with
   | Some _ => increment (title (replace "_" " " issue_type))
   | None => increment "Other"
   end) ;;;
  result <- on_app (process_civic_query md5_hexdigest e query model) ;;
  let chat_entry :=
    {| chat_query := query;
       chat_response := response result;
       chat_timestamp := clock;
       chat_processing_time := processing_time result;
       chat_department := department result;
       chat_cache_hit := cache_hit result;
       chat_sources := sources result |} in
  modify (fun st : app * session =>
            (fst st,
             {| chat_history := (chat_history (snd st) ++ [chat_entry])%list;
                query_count := S (query_count (snd st));
                user_feedback := user_feedback (snd st);
                category_stats := category_stats (snd st) |})).

(** The object and the session after a run of submitted queries;
    a submission that raises leaves what it wrote. *)
Record submission := {
  submitted_env : pipeline_env;
  submitted_clock : Z;
  submitted_key : bool;
  submitted_model : string;
  submitted_query : string
}.

Definition run_submissions (subs : list submission) (st : app * session)
  : app * session :=
  fold_left (fun st sub =>
               snd (process_and_display_query
                      (submitted_env sub) (submitted_clock sub)
                      (submitted_key sub) (submitted_model sub)
                      (submitted_query sub) st))
            subs st.

End WithHash.

(** The application object once the sidebar has taken a key. *)
Definition with_key (typed_key : bool) (a : app) : app :=
  if typed_key
  then {| civic_data := civic_data a; rag_module := rag_module a;
          kag_module := kag_module a; cache_module := cache_module a;
          fl_manager := fl_manager a; api_key := true;
          response_times := response_times a |}
  else a.

(** The chat entry made of a result. *)
Definition entry_of (clock : Z) (query : string) (r : pipeline_result)
  : chat_entry :=
  {| chat_query := query;
     chat_response := response r;
     chat_timestamp := clock;
     chat_processing_time := processing_time r;
     chat_department := department r;
     chat_cache_hit := cache_hit r;
     chat_sources := sources r |}.

(** The category that a submission counts under. *)
Definition counted_under (query : string) (stats : list (string * nat))
  : string :=
  match dict_get (identify_issue_type query) stats with
  | Some _ => title (replace "_" " " (identify_issue_type query))
  | None => "Other"
  end.

(** The cache hits that [insights_dashboard] counts, and the rate it
    shows before formatting. *)
Definition cache_hits (ss : session) : nat :=
  List.length (filter chat_cache_hit (chat_history ss)).

Definition cache_rate (ss : session) : Q :=
  match chat_history ss with
  | [] => 0%Q
  | _ => (inject_Z (Z.of_nat (cache_hits ss))
          / inject_Z (Z.of_nat (List.length (chat_history ss))) * 100)%Q
  end.

(** [record_feedback]: the feedback entry, and its report to the
    learning manager, which gets neither the issue type nor the
    department. *)
Definition record_feedback (clock manager_clock update_clock : Z)
           (chat_index : nat) (feedback_type : string)
           (st : session * option Fl.manager) : session * option Fl.manager :=
  let ss := fst st in
  match nth_error (chat_history ss) chat_index with
  | Some chat =>
      let feedback_entry :=
        {| chat_index := chat_index;
           feedback := feedback_type;
           feedback_timestamp := clock;
           feedback_query := chat_query chat |} in
      ({| chat_history := chat_history ss;
          query_count := query_count ss;
          user_feedback := (user_feedback ss ++ [feedback_entry])%list;
          category_stats := category_stats ss |},
       option_map (Fl.record_feedback manager_clock update_clock
                     (chat_query chat) (feedback_type =? "helpful")
                     "unknown" "Unknown")
                  (snd st))
  | None => st
  end.

(** A run of clicks on the feedback buttons. *)
Record click := {
  click_clock : Z;
  click_manager_clock : Z;
  click_update_clock : Z;
  click_index : nat;
  click_type : string
}.

Definition run_clicks (clicks : list click)
           (st : session * option Fl.manager) : session * option Fl.manager :=
  fold_left (fun st c =>
               record_feedback (click_clock c) (click_manager_clock c)
                               (click_update_clock c) (click_index c)
                               (click_type c) st)
            clicks st.

End Session.

(** ** Sample objects for concrete runs *)

Module Samples.

Import Py.
Local Open Scope string_scope.

(** Surroundings in which every file operation goes through. *)
Definition env_at (t : Z) : Cag.env :=
  {| Cag.now := t; Cag.unlink_fails := false; Cag.write := Cag.WriteDone |}.

(** Surroundings in which the record file is left torn by the write. *)
Definition torn_at (t : Z) : Cag.env :=
  {| Cag.now := t; Cag.unlink_fails := false; Cag.write := Cag.WriteTorn |}.

(** Surroundings in which no file can be deleted. *)
Definition stuck_at (t : Z) : Cag.env :=
  {| Cag.now := t; Cag.unlink_fails := true; Cag.write := Cag.WriteDone |}.

Definition no_stats : Cag.stats :=
  {| Cag.hits := 0; Cag.misses := 0; Cag.total_requests := 0 |}.

(** A [CacheModule] over an empty directory. *)
Definition empty_cache (ttl : Z) : Cag.state :=
  {| Cag.ttl_hours := ttl; Cag.memory_cache := [];
     Cag.cache_stats := no_stats; Cag.cache_dir := [] |}.

Definition water_query : string := "Water supply issue in Adyar".

Definition water_response : string :=
  "Call 044-4567-4567 to register your complaint".

Definition water_key : string :=
  Cag._generate_cache_key plain_digest water_query.

(** The cache after [cache_response] at instant 0. *)
Definition water_cached : Cag.state :=
  snd (Cag.cache_response plain_digest (env_at 0) water_query water_response
         "Chennai Metro Water" (Some ["Chennai Metro Water portal"]) None
         (empty_cache 24)).

(** The same store in a cache with another time to live. *)
Definition water_cached_for (ttl : Z) : Cag.state :=
  snd (Cag.cache_response plain_digest (env_at 0) water_query water_response
         "Chennai Metro Water" (Some ["Chennai Metro Water portal"]) None
         (empty_cache ttl)).

(** The same store when the write tears the record file. *)
Definition water_cached_torn : Cag.state :=
  snd (Cag.cache_response plain_digest (torn_at 0) water_query water_response
         "Chennai Metro Water" (Some ["Chennai Metro Water portal"]) None
         (empty_cache 24)).

(** A record file with a timestamp and no response. *)
Definition record_without_response : Cag.cached_item :=
  {| Cag.item_query := Some water_query;
     Cag.item_response := None;
     Cag.item_department := Some "Chennai Metro Water";
     Cag.item_sources := Some [];
     Cag.item_metadata := Some [];
     Cag.item_timestamp := Some (PyTime.written 0);
     Cag.item_cache_key := Some water_key |}.

(** A record file with a response and a timestamp and nothing else. *)
Definition record_without_department : Cag.cached_item :=
  {| Cag.item_query := None;
     Cag.item_response := Some water_response;
     Cag.item_department := None;
     Cag.item_sources := None;
     Cag.item_metadata := None;
     Cag.item_timestamp := Some (PyTime.written 0);
     Cag.item_cache_key := None |}.

Definition cache_with_file (c : Cag.file_content) : Cag.state :=
  {| Cag.ttl_hours := 24; Cag.memory_cache := [];
     Cag.cache_stats := no_stats;
     Cag.cache_dir := [(water_key, {| Cag.st_mtime := 0; Cag.content := c |})] |}.

Definition one_hit_in_three : Cag.state :=
  {| Cag.ttl_hours := 24; Cag.memory_cache := [];
     Cag.cache_stats := {| Cag.hits := 1; Cag.misses := 2;
                           Cag.total_requests := 3 |};
     Cag.cache_dir := [] |}.

Definition hits_23_in_160 : Cag.state :=
  {| Cag.ttl_hours := 24; Cag.memory_cache := [];
     Cag.cache_stats := {| Cag.hits := 23; Cag.misses := 137;
                           Cag.total_requests := 160 |};
     Cag.cache_dir := [] |}.

Definition one_day : Z := 24 * Cag.microseconds_per_hour.

(** A record made at instant [t] for the query [q]. *)
Definition stamped (q : string) (t : Z) : Cag.cached_item :=
  {| Cag.item_query := Some q;
     Cag.item_response := Some water_response;
     Cag.item_department := Some "Chennai Metro Water";
     Cag.item_sources := Some [];
     Cag.item_metadata := Some [];
     Cag.item_timestamp := Some (PyTime.written t);
     Cag.item_cache_key := Some q |}.

(** Three entries, in memory and on disk, made at instants 10, 30, 20. *)
Definition crowded_cache : Cag.state :=
  {| Cag.ttl_hours := 24;
     Cag.memory_cache :=
       [ ("q1", stamped "q1" 10); ("q2", stamped "q2" 30);
         ("q3", stamped "q3" 20) ];
     Cag.cache_stats := no_stats;
     Cag.cache_dir :=
       [ ("q1", {| Cag.st_mtime := 10;
                   Cag.content := Cag.JsonObject (stamped "q1" 10) |});
         ("q2", {| Cag.st_mtime := 30;
                   Cag.content := Cag.JsonObject (stamped "q2" 30) |});
         ("q3", {| Cag.st_mtime := 20;
                   Cag.content := Cag.JsonObject (stamped "q3" 20) |}) ] |}.

Definition deletable (k : string) : bool := false.

(** Names for the entries of large samples: [q0001], [q0002] and so
    on. *)
Definition numbered (prefix : string) (n : nat) : string :=
  prefix ++ PyTime.zero_padded 4 (Z.of_nat n).

(** Midnight before the first day of 2024. *)
Definition new_year : Z := PyTime.instant 2024 1 1 0 0 0 0.

(** A record made in the last minute of that day whose timestamp was
    written by [str(datetime.now())], with a space where [isoformat]
    has a [T]; [fromisoformat] reads both forms. *)
Definition spaced_record : Cag.cached_item :=
  {| Cag.item_query := Some water_query;
     Cag.item_response := Some water_response;
     Cag.item_department := Some "Chennai Metro Water";
     Cag.item_sources := Some [];
     Cag.item_metadata := Some [];
     Cag.item_timestamp :=
       Some {| PyTime.timestamp_text := "2024-01-01 23:59:59";
               PyTime.fromisoformat :=
                 PyTime.Naive (PyTime.instant 2024 1 1 23 59 59 0) |};
     Cag.item_cache_key := Some "latest" |}.

(** A memory index with one entry more than its bound: a thousand
    records written by the cache in the first second of that day, and
    the record above. *)
Definition full_memory : Cag.state :=
  {| Cag.ttl_hours := 24;
     Cag.memory_cache :=
       (map (fun i => (numbered "q" i,
                       stamped (numbered "q" i) (new_year + Z.of_nat i)))
            (rev (seq 1 1000))
        ++ [("latest", spaced_record)])%list;
     Cag.cache_stats := no_stats;
     Cag.cache_dir := [] |}.

(** A directory with one record file more than its bound, the file
    modified first standing first. *)
Definition full_directory : Cag.state :=
  {| Cag.ttl_hours := 24;
     Cag.memory_cache := [];
     Cag.cache_stats := no_stats;
     Cag.cache_dir :=
       map (fun i => (numbered "f" i,
                      {| Cag.st_mtime := new_year + Z.of_nat i;
                         Cag.content :=
                           Cag.JsonObject
                             (stamped (numbered "f" i)
                                      (new_year + Z.of_nat i)) |}))
           (seq 1 (5 * 1000 + 1)) |}.

(** Only the file modified first cannot be deleted. *)
Definition oldest_stuck (k : string) : bool := k =? "f0001".

(** The fallback store with two zones of the complete data file. *)
Definition zoned_store : App.civic_store :=
  {| App.zones_complete :=
       [ ("Zone_12_Alandur",
          {| App.wards := [156; 157]%Z;
             App.ward_names := ["Raja Annamalai Puram"; "Adyar (West)"] |});
         ("Zone_13_Adyar",
          {| App.wards := [170; 171]%Z;
             App.ward_names := ["Avvai Nagar (South)"; "Adyar (East)"] |}) ];
     App.departments_complete := App.departments_complete App.fallback_store;
     App.pincode_mapping := App.pincode_mapping App.fallback_store |}.

Definition zone_query : string := "Garbage near Zone 13 Adyar, 600020".

(** A run in which nothing fails and no text is generated. *)
Definition quiet_run : App.pipeline_env :=
  {| App.start_clock := 100;
     App.end_clock := 350;
     App.lookup_env := env_at 200;
     App.store_env := env_at 300;
     App.rag_outcome := App.EngineOk;
     App.kag_outcome := App.EngineOk;
     App.generate := fun _ _ _ => None;
     App.fault := fun _ => None |}.

(** A run in which the generative call answers with blanks. *)
Definition blank_generation : App.pipeline_env :=
  {| App.start_clock := 100;
     App.end_clock := 350;
     App.lookup_env := env_at 200;
     App.store_env := env_at 300;
     App.rag_outcome := App.EngineOk;
     App.kag_outcome := App.EngineOk;
     App.generate := fun _ _ _ => Some "   ";
     App.fault := fun _ => None |}.

(** A run in which the generative call answers with a sentence. *)
Definition worded_generation : App.pipeline_env :=
  {| App.start_clock := 100;
     App.end_clock := 350;
     App.lookup_env := env_at 200;
     App.store_env := env_at 300;
     App.rag_outcome := App.EngineOk;
     App.kag_outcome := App.EngineOk;
     App.generate := fun _ _ _ => Some " Please call 1913. ";
     App.fault := fun _ => None |}.

(** A run in which the classifier raises. *)
Definition classify_fault : App.pipeline_env :=
  {| App.start_clock := 100;
     App.end_clock := 350;
     App.lookup_env := env_at 200;
     App.store_env := env_at 300;
     App.rag_outcome := App.EngineOk;
     App.kag_outcome := App.EngineOk;
     App.generate := fun _ _ _ => None;
     App.fault := fun st => match st with
                            | App.Classify => Some AttributeError
                            | _ => None
                            end |}.

(** The application as [setup_ai_modules] leaves it, over the fallback
    knowledge store and an empty cache directory. *)
Definition full_app (key : bool) : App.app :=
  {| App.civic_data := App.fallback_store;
     App.rag_module := true;
     App.kag_module := true;
     App.cache_module := App.CacheObject (empty_cache 24);
     App.fl_manager := Some 0%nat;
     App.api_key := key;
     App.response_times := [] |}.

(** The application as [setup_basic_modules] leaves it. *)
Definition basic_app (key : bool) : App.app :=
  {| App.civic_data := App.fallback_store;
     App.rag_module := false;
     App.kag_module := false;
     App.cache_module := App.BasicDict [];
     App.fl_manager := None;
     App.api_key := key;
     App.response_times := [] |}.

(** A record of query [q] with response [r] for department [d], made at
    instant [t]. *)
Definition record (q r d : string) (t : Z) : Cag.cached_item :=
  {| Cag.item_query := Some q;
     Cag.item_response := Some r;
     Cag.item_department := Some d;
     Cag.item_sources := Some [];
     Cag.item_metadata := Some [];
     Cag.item_timestamp := Some (PyTime.written t);
     Cag.item_cache_key := Some q |}.

(** Three entries in the memory index, two of which speak of water. *)
Definition searchable_cache : Cag.state :=
  {| Cag.ttl_hours := 24;
     Cag.memory_cache :=
       [ ("k1", record "Water supply in Adyar"
                       "Call Metro Water at 044-4567-4567"
                       "Chennai Metro Water" 10);
         ("k2", record "Power cut in Velachery"
                       "Call TANGEDCO, water pumps may stop"
                       "TANGEDCO" 20);
         ("k3", record "Garbage in T Nagar" "Call GCC at 1913"
                       "Greater Chennai Corporation" 30) ];
     Cag.cache_stats := no_stats;
     Cag.cache_dir := [] |}.

(** Only the file of [q2] cannot be deleted. *)
Definition q2_stuck (k : string) : bool := k =? "q2".

(** The directory of [crowded_cache] with a newer file that holds a
    JSON list. *)
Definition stray_dir : list (string * Cag.file) :=
  (Cag.cache_dir crowded_cache
   ++ [("notes", {| Cag.st_mtime := 99; Cag.content := Cag.JsonOther |})])%list.

(** A directory with a record made on the third day, a record made two
    days earlier and a file that is not JSON. *)
Definition mixed_dir : list (string * Cag.file) :=
  [ ("q1", {| Cag.st_mtime := 2 * one_day + 10;
              Cag.content := Cag.JsonObject (stamped "q1" (2 * one_day)) |});
    ("q0", {| Cag.st_mtime := 5;
              Cag.content := Cag.JsonObject (stamped "q0" 0) |});
    ("q9", {| Cag.st_mtime := 7; Cag.content := Cag.BadJson |}) ].

Definition water_query_respelled : string :=
  "  water   SUPPLY issue in adyar ".

(** Two submissions in a session. *)
Definition two_submissions : list Session.submission :=
  [ {| Session.submitted_env := quiet_run;
       Session.submitted_clock := 400;
       Session.submitted_key := false;
       Session.submitted_model := "gpt-3.5-turbo";
       Session.submitted_query := water_query |};
    {| Session.submitted_env := quiet_run;
       Session.submitted_clock := 800;
       Session.submitted_key := false;
       Session.submitted_model := "gpt-3.5-turbo";
       Session.submitted_query := water_query |} ].

Definition two_interactions : list Fl.interaction_call :=
  [ {| Fl.seen_clock := 1; Fl.seen_query := water_query;
       Fl.seen_response := water_response;
       Fl.seen_issue_type := "water_supply";
       Fl.seen_area := None; Fl.seen_department := "Unknown" |};
    {| Fl.seen_clock := 2; Fl.seen_query := zone_query;
       Fl.seen_response := water_response;
       Fl.seen_issue_type := "garbage_collection";
       Fl.seen_area := None; Fl.seen_department := "Unknown" |} ].

(** A chat with one entry, and two clicks on its feedback buttons. *)
Definition one_chat : Session.session :=
  {| Session.chat_history :=
       [ {| Session.chat_query := water_query;
            Session.chat_response := water_response;
            Session.chat_timestamp := 400;
            Session.chat_processing_time := 250;
            Session.chat_department := "Chennai Metro Water";
            Session.chat_cache_hit := false;
            Session.chat_sources := [] |} ];
     Session.query_count := 1;
     Session.user_feedback := [];
     Session.category_stats :=
       Session.category_stats Session.initialize_session_state |}.

Definition two_clicks : list Session.click :=
  [ {| Session.click_clock := 500; Session.click_manager_clock := 501;
       Session.click_update_clock := 502; Session.click_index := 0;
       Session.click_type := "helpful" |};
    {| Session.click_clock := 600; Session.click_manager_clock := 601;
       Session.click_update_clock := 602; Session.click_index := 0;
       Session.click_type := "not_helpful" |} ].

End Samples.

(** * Properties *)

(** ** Facts about lists and the string primitives *)

Module PyStrFacts.

Import PyStr.
Local Open Scope string_scope.

(** A list with a hit has a first hit. *)
Lemma first_hit_split {A} (f : A -> bool) (l : list A) (x : A) :
  In x l -> f x = true ->
  exists pre y post,
    l = (pre ++ y :: post)%list /\ f y = true /\
    (forall z, In z pre -> f z = false).
Proof.
  induction l as [|a l IH]; intros Hin Hf; [contradiction|].
  destruct (f a) eqn:Ha.
  - exists [], a, l. repeat split; auto. intros z [].
  - destruct Hin as [->|Hin]; [congruence|].
    destruct (IH Hin Hf) as (pre & y & post & -> & Hy & Hpre).
    exists (a :: pre), y, post. repeat split; auto.
    intros z [<-|Hz]; auto.
Qed.

Lemma lower_char_space c : is_space c = true -> lower_char c = c.
Proof.
  destruct c as [[] [] [] [] [] [] [] []]; vm_compute; congruence.
Qed.

Lemma lower_all_space s : all_space s = true -> lower s = s.
Proof.
  induction s as [|c s IH]; simpl; auto.
  intros H. apply andb_prop in H as [Hc Hs].
  now rewrite lower_char_space, IH.
Qed.

Lemma starts_with_empty p : starts_with p "" = true -> p = "".
Proof. destruct p; simpl; congruence. Qed.

(** A word that begins with a non-blank character does not occur in a
    blank string. *)
Lemma contains_all_space c p s :
  is_space c = false -> all_space s = true -> contains (String c p) s = false.
Proof.
  intros Hc. induction s as [|b s IH]; simpl; auto.
  intros H. apply andb_prop in H as [Hb Hs].
  rewrite (IH Hs), orb_false_r.
  destruct (Ascii.eqb_spec c b) as [->|]; simpl; congruence.
Qed.

End PyStrFacts.

(** ** Replacement of one text by another *)

Module ReplaceFacts.

Import PyStr.
Local Open Scope string_scope.

Lemma drop_empty n : drop n "" = "".
Proof. now destruct n. Qed.

Lemma drop_length_le n s : (String.length (drop n s) <= String.length s)%nat.
Proof.
  revert s. induction n as [|n IH]; intros s; simpl; [lia|].
  destruct s as [|c s]; simpl; [lia|]. specialize (IH s). lia.
Qed.

Lemma starts_with_refl s : starts_with s s = true.
Proof. induction s; simpl; auto. now rewrite Ascii.eqb_refl. Qed.

Lemma starts_with_app p x : starts_with p (p ++ x) = true.
Proof. induction p; simpl; auto. now rewrite Ascii.eqb_refl. Qed.

(** A text that begins with [p] is [p] followed by the rest. *)
Lemma starts_with_drop p s :
  starts_with p s = true -> s = p ++ drop (String.length p) s.
Proof.
  revert s. induction p as [|a p IH]; intros s; simpl; auto.
  destruct s as [|b s]; [discriminate|].
  intros H. apply andb_prop in H as [Hab Hp].
  apply Ascii.eqb_eq in Hab as ->. f_equal. auto.
Qed.

Lemma contains_tail p c s : contains p (String c s) = false -> contains p s = false.
Proof. simpl. intros H. now apply orb_false_elim in H. Qed.

Lemma contains_head p s : contains p s = false -> starts_with p s = false.
Proof. destruct s; simpl; intros H; now apply orb_false_elim in H. Qed.

Lemma contains_drop p n s : contains p s = false -> contains p (drop n s) = false.
Proof.
  revert s. induction n as [|n IH]; intros s; simpl; auto.
  destruct s as [|c s]; auto. intros H. apply IH. eapply contains_tail; eauto.
Qed.

(** Two strings that are not compatible part ways within both. *)
Lemma incompatible_app a b x :
  compatible a b = false -> starts_with a (b ++ x) = false.
Proof.
  unfold compatible. revert b. induction a as [|c a IH]; intros b H.
  - simpl in H. discriminate.
  - destruct b as [|d b].
    + simpl in H. discriminate.
    + simpl in *. destruct (Ascii.eqb_spec c d) as [->|Hne]; simpl; auto.
      rewrite Ascii.eqb_refl in H. simpl in H. auto.
Qed.

Lemma incompatible_starts a b s :
  compatible a b = false -> starts_with b s = true -> starts_with a s = false.
Proof.
  intros Hc Hb. rewrite (starts_with_drop _ _ Hb). now apply incompatible_app.
Qed.

Lemma all_chars_app f a b :
  all_chars f (a ++ b) = all_chars f a && all_chars f b.
Proof. induction a as [|c a IH]; simpl; auto. now rewrite IH, andb_assoc. Qed.

Lemma all_chars_drop f n s : all_chars f s = true -> all_chars f (drop n s) = true.
Proof.
  revert s. induction n as [|n IH]; intros s; simpl; auto.
  destruct s as [|c s]; auto. simpl. intros H.
  apply andb_prop in H as [_ H]. auto.
Qed.

Section Replace.

Variables (o : ascii) (old' new : string).

Let old := String o old'.
Let r := replace_from old new 0.

Lemma replace_from_drop k : forall s,
  replace_from old new k s = r (drop k s).
Proof.
  unfold r. induction k as [|k IH]; intros s; [reflexivity|].
  destruct s as [|c s]; [reflexivity|]. simpl. apply IH.
Qed.

(** One step of the scan. *)
Lemma replace_step c s :
  r (String c s)
  = if starts_with old (String c s)
    then new ++ r (drop (String.length old) (String c s))
    else String c (r s).
Proof.
  unfold r at 1.
  change (replace_from old new 0 (String c s))
    with (if starts_with old (String c s)
          then new ++ replace_from old new (String.length old - 1) s
          else String c (replace_from old new 0 s)).
  destruct (starts_with old (String c s)); [|reflexivity].
  f_equal. rewrite replace_from_drop. unfold old. simpl.
  now rewrite Nat.sub_0_r.
Qed.

Lemma replace_empty : r "" = "".
Proof. reflexivity. Qed.

(** Induction on the text along the scan. *)
Lemma scan_ind (P : string -> Prop) :
  P "" ->
  (forall c s, starts_with old (String c s) = true ->
               P (drop (String.length old) (String c s)) -> P (String c s)) ->
  (forall c s, starts_with old (String c s) = false -> P s -> P (String c s)) ->
  forall s, P s.
Proof.
  intros H0 Hm Hn s.
  assert (H : forall n s, (String.length s <= n)%nat -> P s).
  { induction n as [|n IH]; intros [|c t] Hl; simpl in Hl; auto; try lia.
    destruct (starts_with old (String c t)) eqn:E.
    - apply Hm; auto. apply IH. unfold old. simpl.
      pose proof (drop_length_le (String.length old') t). lia.
    - apply Hn; auto. apply IH. lia. }
  eapply H. reflexivity.
Qed.

(** Without an occurrence nothing is replaced. *)
Lemma replace_absent s : contains old s = false -> r s = s.
Proof.
  induction s as [|c s IH]; intros H; [reflexivity|].
  rewrite replace_step, (contains_head _ _ H).
  f_equal. apply IH. eapply contains_tail; eauto.
Qed.

(** What the result begins with, for a text [l] clear of [old] and
    [new]. *)
Lemma replace_starts l :
  clear_of old new l = true ->
  forall s, starts_with l (r s) = starts_with l s.
Proof.
  induction l as [|x l IH]; intros Hl s; [reflexivity|].
  simpl clear_of in Hl.
  apply andb_prop in Hl as [Hl Hl']. apply andb_prop in Hl as [Ho Hn].
  apply negb_true_iff in Ho, Hn.
  destruct s as [|c s]; [reflexivity|].
  rewrite replace_step. destruct (starts_with old (String c s)) eqn:E.
  - rewrite (incompatible_app _ _ _ Hn).
    symmetry. exact (incompatible_starts _ _ _ Ho E).
  - simpl. now rewrite IH.
Qed.

Lemma contains_past_new p x :
  apart_from p new = true -> contains p (new ++ x) = contains p x.
Proof.
  induction new as [|c n IH]; intros H; [reflexivity|].
  simpl apart_from in H. apply andb_prop in H as [Hc Hn].
  apply negb_true_iff in Hc.
  change (contains p (String c n ++ x))
    with (starts_with p (String c n ++ x) || contains p (n ++ x)).
  rewrite (incompatible_app _ _ _ Hc). simpl. auto.
Qed.

(** A pattern that is absent stays absent. *)
Lemma replace_keeps_absent p0 p' :
  clear_of old new p' = true ->
  apart_from (String p0 p') new = true ->
  forall s, contains (String p0 p') s = false ->
            contains (String p0 p') (r s) = false.
Proof.
  intros Hclear Hapart. apply (scan_ind (fun s => contains (String p0 p') s = false -> contains (String p0 p') (r s) = false)).
  - auto.
  - intros c s E IH H. rewrite replace_step, E, contains_past_new; auto.
    apply IH. now apply contains_drop.
  - intros c s E IH H. rewrite replace_step, E.
    change (contains (String p0 p') (String c (r s)))
      with (starts_with (String p0 p') (String c (r s))
            || contains (String p0 p') (r s)).
    rewrite IH by (eapply contains_tail; eauto).
    rewrite orb_false_r. simpl. rewrite replace_starts by assumption.
    apply contains_head in H. exact H.
Qed.

(** After the replacement [old] is gone. *)
Lemma replace_removes_old :
  clear_of old new old' = true ->
  apart_from old new = true ->
  forall s, contains old (r s) = false.
Proof.
  intros Hclear Hapart. apply scan_ind.
  - reflexivity.
  - intros c s E IH. rewrite replace_step, E, contains_past_new; auto.
  - intros c s E IH. rewrite replace_step, E.
    change (contains old (String c (r s)))
      with (starts_with old (String c (r s)) || contains old (r s)).
    rewrite IH, orb_false_r. unfold old. simpl.
    rewrite replace_starts by assumption. exact E.
Qed.

Lemma replace_all_chars f :
  all_chars f new = true ->
  forall s, all_chars f s = true -> all_chars f (r s) = true.
Proof.
  intros Hn.
  apply (scan_ind (fun s => all_chars f s = true -> all_chars f (r s) = true)).
  - auto.
  - intros c s E IH H. rewrite replace_step, E, all_chars_app, Hn.
    apply IH. now apply all_chars_drop.
  - intros c s E IH H. rewrite replace_step, E. simpl in *.
    apply andb_prop in H as [-> H]. auto.
Qed.

End Replace.

(** Replacing a text by itself changes nothing. *)
Lemma replace_same o old' s :
  replace_from (String o old') (String o old') 0 s = s.
Proof.
  revert s. apply scan_ind with (o := o) (old' := old').
  - reflexivity.
  - intros c s E IH. rewrite replace_step, E, IH.
    symmetry. now apply starts_with_drop.
  - intros c s E IH. rewrite replace_step, E. now rewrite IH.
Qed.

(** Replacing one character by nothing filters it out. *)
Lemma replace_char_filter c s :
  replace_from (String c "") "" 0 s
  = filter_chars (fun x => negb (Ascii.eqb c x)) s.
Proof.
  induction s as [|x s IH]; [reflexivity|].
  rewrite replace_step. simpl.
  destruct (Ascii.eqb c x); simpl; now rewrite IH.
Qed.

Lemma filter_chars_twice f g s :
  filter_chars f (filter_chars g s) = filter_chars (fun x => g x && f x) s.
Proof.
  induction s as [|x s IH]; [reflexivity|]. simpl.
  destruct (g x); simpl; [destruct (f x)|]; now rewrite IH.
Qed.

Lemma filter_chars_ext f g s :
  (forall x, f x = g x) -> filter_chars f s = filter_chars g s.
Proof.
  intros H. induction s as [|x s IH]; [reflexivity|]. simpl.
  now rewrite H, IH.
Qed.

Lemma filter_chars_all f s : all_chars f (filter_chars f s) = true.
Proof.
  induction s as [|x s IH]; [reflexivity|]. simpl.
  destruct (f x) eqn:E; simpl; [now rewrite E|assumption].
Qed.

Lemma filter_chars_id f s : all_chars f s = true -> filter_chars f s = s.
Proof.
  induction s as [|x s IH]; [reflexivity|]. simpl. intros H.
  apply andb_prop in H as [-> H]. now rewrite IH.
Qed.

End ReplaceFacts.

(** ** The query classifier *)

Module ClassifierFacts.

Import PyStr PyStrFacts App.
Local Open Scope string_scope.

Lemma first_issue_first ql table pre entry post :
  table = (pre ++ entry :: post)%list ->
  keyword_hit ql entry = true ->
  (forall e, In e pre -> keyword_hit ql e = false) ->
  first_issue ql table = fst entry.
Proof.
  intros -> Hhit. induction pre as [|[it kws] pre IH]; intros Hpre; simpl.
  - destruct entry as [it kws]. unfold keyword_hit in Hhit. simpl in *.
    now rewrite Hhit.
  - pose proof (Hpre (it, kws) (or_introl eq_refl)) as H0.
    unfold keyword_hit in H0. simpl in H0. rewrite H0.
    apply IH. intros e He. apply Hpre. now right.
Qed.

Lemma first_issue_none ql table :
  (forall e, In e table -> keyword_hit ql e = false) ->
  first_issue ql table = "general".
Proof.
  induction table as [|[it kws] table IH]; intros H; simpl; auto.
  pose proof (H (it, kws) (or_introl eq_refl)) as H0.
  unfold keyword_hit in H0. simpl in H0. rewrite H0.
  apply IH. intros e He. apply H. now right.
Qed.

Lemma first_issue_range ql table :
  first_issue ql table = "general" \/ In (first_issue ql table) (map fst table).
Proof.
  induction table as [|[it kws] table IH]; simpl; auto.
  destruct (existsb _ kws); simpl; auto.
  destruct IH; auto.
Qed.

Lemma issue_keywords_nonblank :
  forallb (fun e => forallb begins_nonblank (snd e)) issue_keywords = true.
Proof. reflexivity. Qed.

Lemma keyword_hit_blank ql e :
  all_space ql = true ->
  forallb begins_nonblank (snd e) = true ->
  keyword_hit ql e = false.
Proof.
  intros Hs. unfold keyword_hit. induction (snd e) as [|w ws IH]; simpl; auto.
  intros H. apply andb_prop in H as [Hw Hws].
  rewrite (IH Hws), orb_false_r.
  destruct w as [|c w]; simpl in Hw; [discriminate|].
  apply contains_all_space; auto.
  now destruct (is_space c).
Qed.

(** C7.  Issue classification returns one category for every query: the
    first entry of the ordered keyword table one of whose keywords
    occurs in the lower-cased query, whatever later entries match as
    well; ["general"] when no keyword occurs; the result is always one
    of the five categories or ["general"]; and a query made of
    whitespace only (the empty query included) is ["general"]. *)
Theorem identify_issue_type_first_match (query : string) :
  (forall pre entry post,
      issue_keywords = (pre ++ entry :: post)%list ->
      (exists keyword, In keyword (snd entry) /\
                       contains keyword (lower query) = true) ->
      (forall e keyword, In e pre -> In keyword (snd e) ->
                         contains keyword (lower query) = false) ->
      identify_issue_type query = fst entry)
  /\ ((forall e keyword, In e issue_keywords -> In keyword (snd e) ->
                         contains keyword (lower query) = false) ->
      identify_issue_type query = "general")
  /\ In (identify_issue_type query)
        ["water_supply"; "electricity"; "garbage_collection"; "roads";
         "transport"; "general"]
  /\ (all_space query = true -> identify_issue_type query = "general").
Proof.
  unfold identify_issue_type. repeat split.
  - intros pre entry post Htab (kw & Hin & Hkw) Hpre.
    apply first_issue_first with (pre := pre) (post := post); auto.
    + unfold keyword_hit. apply existsb_exists. eauto.
    + intros e He. unfold keyword_hit.
      destruct (existsb _ (snd e)) eqn:Hex; auto.
      apply existsb_exists in Hex as (kw' & Hin' & Hkw').
      rewrite (Hpre e kw' He Hin') in Hkw'. discriminate.
  - intros Hnone. apply first_issue_none. intros e He. unfold keyword_hit.
    destruct (existsb _ (snd e)) eqn:Hex; auto.
    apply existsb_exists in Hex as (kw' & Hin' & Hkw').
    rewrite (Hnone e kw' He Hin') in Hkw'. discriminate.
  - destruct (first_issue_range (lower query) issue_keywords) as [->|H].
    + simpl. tauto.
    + simpl in H. simpl. tauto.
  - intros Hs. apply first_issue_none. intros e He.
    apply keyword_hit_blank.
    + now rewrite lower_all_space.
    + pose proof issue_keywords_nonblank as Hall.
      rewrite forallb_forall in Hall. now apply Hall.
Qed.

Lemma check_zones_first ql zones pre zn zd post :
  zones = (pre ++ (zn, zd) :: post)%list ->
  contains (lower (zone_display zn)) ql = true ->
  (forall z, In z pre -> contains (lower (zone_display (fst z))) ql = false) ->
  check_zones ql zones
  = Some (AreaZone (zone_display zn) zn (wards zd) (ward_names zd)).
Proof.
  intros -> Hhit. induction pre as [|[zn' zd'] pre IH]; intros Hpre; simpl.
  - now rewrite Hhit.
  - pose proof (Hpre (zn', zd') (or_introl eq_refl)) as H0. simpl in H0. rewrite H0.
    apply IH. intros z Hz. apply Hpre. now right.
Qed.

Lemma check_zones_none ql zones :
  (forall z, In z zones -> contains (lower (zone_display (fst z))) ql = false) ->
  check_zones ql zones = None.
Proof.
  induction zones as [|[zn zd] zones IH]; intros H; simpl; auto.
  pose proof (H (zn, zd) (or_introl eq_refl)) as H0. simpl in H0. rewrite H0.
  apply IH. intros z Hz. apply H. now right.
Qed.

Lemma check_pincodes_first q ql pins pre pc ar post :
  pins = (pre ++ (pc, ar) :: post)%list ->
  contains pc q || contains (lower ar) ql = true ->
  (forall p, In p pre ->
             contains (fst p) q || contains (lower (snd p)) ql = false) ->
  check_pincodes q ql pins = Some (AreaPincode ar pc).
Proof.
  intros -> Hhit. induction pre as [|[pc' ar'] pre IH]; intros Hpre; simpl.
  - now rewrite Hhit.
  - pose proof (Hpre (pc', ar') (or_introl eq_refl)) as H0. simpl in H0. rewrite H0.
    apply IH. intros z Hz. apply Hpre. now right.
Qed.

Lemma check_pincodes_none q ql pins :
  (forall p, In p pins ->
             contains (fst p) q || contains (lower (snd p)) ql = false) ->
  check_pincodes q ql pins = None.
Proof.
  induction pins as [|[pc ar] pins IH]; intros H; simpl; auto.
  pose proof (H (pc, ar) (or_introl eq_refl)) as H0. simpl in H0. rewrite H0.
  apply IH. intros z Hz. apply H. now right.
Qed.

Lemma check_common_first ql areas pre a post :
  areas = (pre ++ a :: post)%list ->
  contains a ql = true ->
  (forall b, In b pre -> contains b ql = false) ->
  check_common ql areas = Some (AreaNamed (title a)).
Proof.
  intros -> Hhit. induction pre as [|a' pre IH]; intros Hpre; simpl.
  - now rewrite Hhit.
  - rewrite (Hpre a' (or_introl eq_refl)).
    apply IH. intros z Hz. apply Hpre. now right.
Qed.

Lemma check_common_none ql areas :
  (forall b, In b areas -> contains b ql = false) ->
  check_common ql areas = None.
Proof.
  induction areas as [|a areas IH]; intros H; simpl; auto.
  rewrite (H a (or_introl eq_refl)).
  apply IH. intros z Hz. apply H. now right.
Qed.

(** C6.  Area classification takes the first match in a fixed order,
    comparing in lower case: (a) the first zone of the table whose
    display name occurs in the query wins over everything else; (b) with
    no zone, the first pincode entry whose digits occur in the query as
    written or whose area name occurs in it; (c) with neither, the first
    of the well-known area names that occurs, in title case; (d)
    otherwise the general answer named Chennai.  In particular a query
    in which a zone's display name occurs is classified as a zone, under
    the display name of the first such zone, whatever pincode or area
    name it holds besides. *)
Theorem identify_area_first_match (cs : civic_store) (query : string) :
  let result := identify_area_from_query cs query in
  (forall pre z post,
      zones_complete cs = (pre ++ z :: post)%list ->
      zone_hit query z = true ->
      (forall z', In z' pre -> zone_hit query z' = false) ->
      result = AreaZone (zone_display (fst z)) (fst z)
                        (wards (snd z)) (ward_names (snd z)))
  /\ ((forall z, In z (zones_complete cs) -> zone_hit query z = false) ->
      forall pre p post,
        pincode_mapping cs = (pre ++ p :: post)%list ->
        pincode_hit query p = true ->
        (forall p', In p' pre -> pincode_hit query p' = false) ->
        result = AreaPincode (snd p) (fst p))
  /\ ((forall z, In z (zones_complete cs) -> zone_hit query z = false) ->
      (forall p, In p (pincode_mapping cs) -> pincode_hit query p = false) ->
      forall pre a post,
        common_areas = (pre ++ a :: post)%list ->
        common_hit query a = true ->
        (forall a', In a' pre -> common_hit query a' = false) ->
        result = AreaNamed (title a))
  /\ ((forall z, In z (zones_complete cs) -> zone_hit query z = false) ->
      (forall p, In p (pincode_mapping cs) -> pincode_hit query p = false) ->
      (forall a, In a common_areas -> common_hit query a = false) ->
      result = AreaGeneral /\ area_type result = "general"
      /\ area_name result = "Chennai")
  /\ (forall z, In z (zones_complete cs) -> zone_hit query z = true ->
      area_type result = "zone" /\
      exists pre z' post,
        zones_complete cs = (pre ++ z' :: post)%list /\
        zone_hit query z' = true /\
        (forall y, In y pre -> zone_hit query y = false) /\
        area_name result = zone_display (fst z')).
Proof.
  assert (Hzone : forall pre z post,
      zones_complete cs = (pre ++ z :: post)%list ->
      zone_hit query z = true ->
      (forall z', In z' pre -> zone_hit query z' = false) ->
      identify_area_from_query cs query
      = AreaZone (zone_display (fst z)) (fst z)
                 (wards (snd z)) (ward_names (snd z))).
  { intros pre [zn zd] post Hz Hhit Hpre. unfold identify_area_from_query.
    rewrite check_zones_first
      with (pre := pre) (zn := zn) (zd := zd) (post := post); auto. }
  assert (Hnoz : (forall z, In z (zones_complete cs) ->
                            zone_hit query z = false) ->
                 check_zones (lower query) (zones_complete cs) = None).
  { intros Hz. now apply check_zones_none. }
  assert (Hnop : (forall p, In p (pincode_mapping cs) ->
                            pincode_hit query p = false) ->
                 check_pincodes query (lower query) (pincode_mapping cs)
                 = None).
  { intros Hp. now apply check_pincodes_none. }
  assert (Hgen : (forall z, In z (zones_complete cs) ->
                            zone_hit query z = false) ->
                 (forall p, In p (pincode_mapping cs) ->
                            pincode_hit query p = false) ->
                 (forall a, In a common_areas -> common_hit query a = false) ->
                 identify_area_from_query cs query = AreaGeneral).
  { intros Hz Hp Ha. unfold identify_area_from_query.
    rewrite (Hnoz Hz), (Hnop Hp).
    now rewrite check_common_none. }
  cbv zeta. split; [exact Hzone|]. split; [|split; [|split]].
  - intros Hz pre [pc ar] post Hp Hhit Hpre. unfold identify_area_from_query.
    rewrite (Hnoz Hz).
    rewrite check_pincodes_first
      with (pre := pre) (pc := pc) (ar := ar) (post := post); auto.
  - intros Hz Hp pre a post Ha Hhit Hpre. unfold identify_area_from_query.
    rewrite (Hnoz Hz), (Hnop Hp).
    rewrite check_common_first with (pre := pre) (a := a) (post := post); auto.
  - intros Hz Hp Ha. rewrite (Hgen Hz Hp Ha). auto.
  - intros z Hin Hhit.
    destruct (first_hit_split (zone_hit query) _ _ Hin Hhit)
      as (pre & z' & post & Hs & Hhit' & Hpre).
    rewrite (Hzone _ _ _ Hs Hhit' Hpre). split; [reflexivity|].
    exists pre, z', post. auto.
Qed.

Lemma identify_issue_type_first_match_witness :
  identify_issue_type "Bus route complaint" = "transport"
  /\ identify_issue_type "   " = "general".
Proof.
  destruct (identify_issue_type_first_match "Bus route complaint")
    as (Hfirst & _).
  destruct (identify_issue_type_first_match "   ") as (_ & _ & _ & Hblank).
  split; [|exact (Hblank eq_refl)].
  apply (Hfirst (firstn 4 issue_keywords)
                ("transport", ["bus"; "transport"; "route"; "fare";
                               "conductor"; "driver"]) []).
  - reflexivity.
  - exists "bus". split; [now left|reflexivity].
  - intros e keyword He Hk. simpl in He.
    repeat (destruct He as [<-|He]); try contradiction;
      simpl in Hk; repeat (destruct Hk as [<-|Hk]); try contradiction;
      reflexivity.
Defined.

Lemma identify_area_first_match_witness :
  identify_area_from_query Samples.zoned_store Samples.zone_query
  = AreaZone "13 Adyar" "Zone_13_Adyar" [170; 171]%Z
             ["Avvai Nagar (South)"; "Adyar (East)"]
  /\ identify_area_from_query fallback_store "Water supply issue in Adyar"
     = AreaPincode "Adyar" "600020".
Proof.
  destruct (identify_area_first_match Samples.zoned_store Samples.zone_query)
    as (Hzone & _).
  destruct (identify_area_first_match fallback_store
              "Water supply issue in Adyar") as (_ & Hpin & _).
  split.
  - apply (Hzone (firstn 1 (zones_complete Samples.zoned_store))
                 ("Zone_13_Adyar",
                  {| wards := [170; 171]%Z;
                     ward_names := ["Avvai Nagar (South)"; "Adyar (East)"] |})
                 []).
    + reflexivity.
    + reflexivity.
    + intros z' Hz. simpl in Hz. destruct Hz as [<-|[]]. reflexivity.
  - apply (Hpin (fun z Hz => match Hz with end)
                (firstn 2 (pincode_mapping fallback_store))
                ("600020", "Adyar")
                [("600017", "T. Nagar"); ("600040", "Anna Nagar")]).
    + reflexivity.
    + reflexivity.
    + intros p' Hp. simpl in Hp.
      repeat (destruct Hp as [<-|Hp]); try contradiction; reflexivity.
Defined.

(** The zone table of the complete data file gives the display name
    ["13 Adyar"] to zone 13, so that a bare "Adyar" is matched by the
    pincode table, as in the packaged scenario. *)
Example adyar_scenario :
  zone_display "Zone_13_Adyar" = "13 Adyar"
  /\ identify_area_from_query fallback_store "Water supply issue in Adyar"
     = AreaPincode "Adyar" "600020"
  /\ identify_issue_type "Water supply issue in Adyar" = "water_supply"
  /\ identify_area_from_query fallback_store "Bus route complaint"
     = AreaGeneral
  /\ identify_issue_type "Bus route complaint" = "transport".
Proof. repeat split; reflexivity. Qed.

End ClassifierFacts.

(** ** Stable sorting *)

Module SortFacts.

Import Py.

Lemma before_in_cons {A} (c : A) l a b :
  before_in (c :: l) a b <-> (a = c /\ In b l) \/ before_in l a b.
Proof.
  unfold before_in. split.
  - intros (l1 & l2 & l3 & H). destruct l1 as [|x l1]; simpl in H.
    + injection H as <- ->. left. split; auto.
      apply in_or_app. right. now left.
    + injection H as <- ->. right. now exists l1, l2, l3.
  - intros [[-> Hb]|(l1 & l2 & l3 & ->)].
    + apply in_split in Hb as (l2 & l3 & ->). now exists [], l2, l3.
    + now exists (c :: l1), l2, l3.
Qed.

Lemma before_in_app {A} (l r : list A) a b :
  In a l -> In b r -> before_in (l ++ r) a b.
Proof.
  intros Ha Hb. apply in_split in Ha as (l1 & l2 & ->).
  apply in_split in Hb as (r1 & r2 & ->).
  exists l1, (l2 ++ r1), r2. now rewrite <- !app_assoc.
Qed.

Section Sorting.

Variable A : Type.
Variable before : A -> A -> bool.

Lemma insert_by_perm x l : Permutation (insert_by before x l) (x :: l).
Proof.
  induction l as [|y l IH]; simpl; auto.
  destruct (before x y); auto.
  rewrite IH. apply perm_swap.
Qed.

Lemma sort_by_perm l : Permutation (sort_by before l) l.
Proof.
  induction l as [|x l IH]; [constructor|].
  change (sort_by before (x :: l))
    with (insert_by before x (sort_by before l)).
  rewrite insert_by_perm. now constructor.
Qed.

Lemma sort_by_length l : List.length (sort_by before l) = List.length l.
Proof. apply Permutation_length, sort_by_perm. Qed.

Lemma sort_by_in x l : In x (sort_by before l) <-> In x l.
Proof.
  split; apply Permutation_in; [|symmetry]; apply sort_by_perm.
Qed.

(** Where the inserted element ends up. *)
Lemma insert_by_before x s a b :
  before_in (insert_by before x s) a b ->
  (a = x /\ In b s) \/ (b = x /\ In a s /\ before x a = false)
  \/ before_in s a b.
Proof.
  induction s as [|y s IH]; simpl.
  - intros (l1 & l2 & l3 & H). exfalso.
    destruct l1 as [|? [|? ?]]; simpl in H; try discriminate.
    + injection H as _ H. destruct l2; discriminate.
  - destruct (before x y) eqn:Hxy.
    + intros H. apply before_in_cons in H as [[-> Hb]|H]; auto.
    + intros H. apply before_in_cons in H as [[-> Hb]|H].
      * apply (Permutation_in _ (insert_by_perm x s)) in Hb as [<-|Hb].
        -- right. left. simpl. auto.
        -- right. right. apply before_in_cons. auto.
      * destruct (IH H) as [[-> Hb]|[(-> & Ha & Hf)|Hs]].
        -- left. simpl. auto.
        -- right. left. simpl. auto.
        -- right. right. apply before_in_cons. auto.
Qed.

(** Stability: two elements that the order does not tell apart keep
    the order they had. *)
Lemma sort_by_stable l a b :
  before_in (sort_by before l) a b -> before b a = true -> before_in l a b.
Proof.
  induction l as [|x l IH]; intros H Hba.
  - destruct H as (l1 & l2 & l3 & H). destruct l1; discriminate.
  - change (sort_by before (x :: l))
      with (insert_by before x (sort_by before l)) in H.
    apply insert_by_before in H as [[-> Hb]|[(-> & Ha & Hf)|Hs]].
    + apply before_in_cons. left. split; auto. apply sort_by_in. exact Hb.
    + congruence.
    + apply before_in_cons. right. auto.
Qed.

Hypothesis before_total : forall x y, before x y = true \/ before y x = true.
Hypothesis before_trans :
  forall x y z, before x y = true -> before y z = true -> before x z = true.

Lemma insert_by_sorted x s :
  StronglySorted (fun a b => before a b = true) s ->
  StronglySorted (fun a b => before a b = true) (insert_by before x s).
Proof.
  induction 1 as [|y s Hs IH Hy]; simpl.
  - repeat constructor.
  - destruct (before x y) eqn:Hxy.
    + constructor; [constructor; auto|].
      constructor; auto.
      rewrite Forall_forall in *. intros z Hz. eauto.
    + constructor; auto.
      rewrite Forall_forall in *. intros z Hz.
      apply (Permutation_in _ (insert_by_perm x s)) in Hz as [<-|Hz]; auto.
      destruct (before_total x y); congruence.
Qed.

Lemma sort_by_sorted l :
  StronglySorted (fun a b => before a b = true) (sort_by before l).
Proof.
  induction l as [|x l IH]; [constructor|].
  change (sort_by before (x :: l))
    with (insert_by before x (sort_by before l)).
  now apply insert_by_sorted.
Qed.

Lemma sorted_app_order (l r : list A) a b :
  StronglySorted (fun a b => before a b = true) (l ++ r) ->
  In a l -> In b r -> before a b = true.
Proof.
  induction l as [|x l IH]; simpl; [contradiction|].
  intros Hs [->|Ha] Hb.
  - apply StronglySorted_inv in Hs as [_ Hall].
    rewrite Forall_forall in Hall. apply Hall, in_or_app. auto.
  - apply StronglySorted_inv in Hs as [Hs _]. auto.
Qed.

(** What the first [n] of the sorted list keep and what they leave:
    anything left is not before anything kept, and on a tie the kept
    one stood first. *)
Lemma firstn_sort_by n l kept left :
  In kept (firstn n (sort_by before l)) ->
  In left (skipn n (sort_by before l)) ->
  before kept left = true
  /\ (before left kept = true -> before_in l kept left).
Proof.
  intros Hk Hl.
  pose proof (sort_by_sorted l) as Hs.
  rewrite <- (firstn_skipn n (sort_by before l)) in Hs.
  split.
  - eapply sorted_app_order; eauto.
  - intros Htie. apply sort_by_stable; auto.
    rewrite <- (firstn_skipn n (sort_by before l)).
    now apply before_in_app.
Qed.

End Sorting.
End SortFacts.

(** ** The text of a timestamp *)

Module TimeFacts.

Import PyTime.
Local Open Scope string_scope.
Local Open Scope Z_scope.

Lemma compare_app (u1 u2 s1 s2 : string) :
  String.length u1 = String.length u2 ->
  String.compare (u1 ++ s1) (u2 ++ s2)
  = then_by (String.compare u1 u2) (String.compare s1 s2).
Proof.
  revert u2. induction u1 as [|c1 u1 IH]; intros [|c2 u2]; simpl;
    try discriminate; auto.
  intros [= Hlen]. destruct (Ascii.compare c1 c2); simpl; auto.
Qed.

Lemma compare_refl (s : string) : String.compare s s = Eq.
Proof.
  induction s as [|c s IH]; simpl; auto.
  unfold Ascii.compare. now rewrite N.compare_refl.
Qed.

Lemma length_app (u v : string) :
  String.length (u ++ v) = (String.length u + String.length v)%nat.
Proof. induction u; simpl; auto. Qed.

Lemma zero_padded_length w : forall n, String.length (zero_padded w n) = w.
Proof.
  induction w as [|w IH]; intros n; simpl; auto.
  rewrite length_app, IH. simpl. lia.
Qed.

Lemma digit_compare a b :
  Ascii.compare (digit a) (digit b) = (a mod 10 ?= b mod 10).
Proof.
  unfold Ascii.compare, digit.
  pose proof (Z.mod_pos_bound a 10 ltac:(lia)) as Ha.
  pose proof (Z.mod_pos_bound b 10 ltac:(lia)) as Hb.
  rewrite !N_ascii_embedding by lia.
  rewrite <- N2Z.inj_compare, !N2Z.inj_add, !Z2N.id by lia.
  apply Z.add_compare_mono_l.
Qed.

Lemma zero_padded_compare w : forall a b,
  0 <= a < 10 ^ Z.of_nat w -> 0 <= b < 10 ^ Z.of_nat w ->
  String.compare (zero_padded w a) (zero_padded w b) = (a ?= b).
Proof.
  induction w as [|w IH]; intros a b Ha Hb.
  - simpl in *. assert (a = 0) by lia. assert (b = 0) by lia. now subst.
  - cbn [zero_padded].
    rewrite Nat2Z.inj_succ, Z.pow_succ_r in Ha, Hb by lia.
    rewrite compare_app by now rewrite !zero_padded_length.
    rewrite IH by (split; [apply Z.div_pos|apply Z.div_lt_upper_bound]; lia).
    simpl. rewrite digit_compare.
    pose proof (Z.div_mod a 10 ltac:(lia)) as Ea.
    pose proof (Z.div_mod b 10 ltac:(lia)) as Eb.
    pose proof (Z.mod_pos_bound a 10 ltac:(lia)) as Ma.
    pose proof (Z.mod_pos_bound b 10 ltac:(lia)) as Mb.
    destruct (Z.compare_spec (a / 10) (b / 10)) as [E|L|G]; simpl.
    + destruct (Z.compare_spec (a mod 10) (b mod 10)) as [E'|L'|G'];
        symmetry; [apply Z.compare_eq_iff|apply Z.compare_lt_iff
                   |apply Z.compare_gt_iff]; lia.
    + symmetry. apply Z.compare_lt_iff. lia.
    + symmetry. apply Z.compare_gt_iff. lia.
Qed.

(** *** The calendar *)

Ltac booleans :=
  repeat match goal with
         | |- context [(?a =? ?b)] =>
             destruct (Z.eqb_spec a b)
         | |- context [(?a <? ?b)] =>
             destruct (Z.ltb_spec a b)
         | H : context [(?a =? ?b)] |- _ =>
             destruct (Z.eqb_spec a b)
         | H : context [(?a <? ?b)] |- _ =>
             destruct (Z.ltb_spec a b)
         end; cbn [andb orb negb] in *.

Ltac tables :=
  repeat match goal with
         | |- context [nth (Z.to_nat ?k) ?t 0] =>
             let v := eval vm_compute in (nth (Z.to_nat k) t 0) in
             change (nth (Z.to_nat k) t 0) with v
         | H : context [nth (Z.to_nat ?k) ?t 0] |- _ =>
             let v := eval vm_compute in (nth (Z.to_nat k) t 0) in
             change (nth (Z.to_nat k) t 0) with v in H
         end.

Lemma leap_rule year :
  _is_leap year = true
  <-> year mod 4 = 0 /\ (year mod 100 <> 0 \/ year mod 400 = 0).
Proof.
  unfold _is_leap. booleans; intuition (try discriminate; try lia).
Qed.

Lemma days_before_next_year year :
  _days_before_year (year + 1)
  = _days_before_year year + (if _is_leap year then 366 else 365).
Proof.
  unfold _days_before_year, _is_leap. cbv zeta.
  booleans; Z.div_mod_to_equations; lia.
Qed.

Lemma days_before_year_mono y y' :
  y <= y' -> _days_before_year y <= _days_before_year y'.
Proof.
  unfold _days_before_year. cbv zeta. intros H.
  Z.div_mod_to_equations. lia.
Qed.

Ltac each_month m :=
  let H := fresh "Hmonth" in
  assert (H : m = 1 \/ m = 2 \/ m = 3 \/ m = 4 \/ m = 5 \/ m = 6 \/ m = 7
              \/ m = 8 \/ m = 9 \/ m = 10 \/ m = 11 \/ m = 12) by lia;
  repeat (destruct H as [H|H]; [subst m|]); [..|subst m].

Lemma day_of_year_bound year month day :
  valid_date year month day ->
  1 <= _days_before_month year month + day
    <= (if _is_leap year then 366 else 365).
Proof.
  unfold valid_date, _days_before_month, _days_in_month.
  intros (_ & Hm & Hd). each_month month; tables;
    destruct (_is_leap year); booleans; lia.
Qed.

Lemma month_order year month month' day :
  1 <= month < month' -> month' <= 12 ->
  1 <= day <= _days_in_month year month ->
  _days_before_month year month + day <= _days_before_month year month'.
Proof.
  unfold _days_before_month, _days_in_month. intros Hm Hm' Hd.
  each_month month; try lia;
    each_month month'; try lia; tables;
    destruct (_is_leap year); booleans; lia.
Qed.

(** [_ymd2ord] grows with the date. *)
Lemma ymd2ord_lt y m d y' m' d' :
  valid_date y m d -> valid_date y' m' d' ->
  y < y' \/ (y = y' /\ (m < m' \/ (m = m' /\ d < d'))) ->
  _ymd2ord y m d < _ymd2ord y' m' d'.
Proof.
  intros Hv Hv' Hlt. unfold _ymd2ord.
  pose proof (day_of_year_bound Hv) as Hb.
  pose proof (day_of_year_bound Hv') as Hb'.
  destruct Hv as (Hy & Hm & Hd). destruct Hv' as (Hy' & Hm' & Hd').
  destruct Hlt as [Hlt|[-> [Hlt|[-> Hlt]]]].
  - pose proof (days_before_next_year y) as Hn.
    pose proof (@days_before_year_mono (y + 1) y' ltac:(lia)). lia.
  - pose proof (@month_order y' m m' d ltac:(lia) ltac:(lia) Hd). lia.
  - lia.
Qed.

(** [_ord2ymd] finds the date of a day, of which [_ymd2ord] is the
    number. *)
Lemma ord2ymd_spec n :
  1 <= n <= max_ordinal ->
  let '(year, month, day) := _ord2ymd n in
  valid_date year month day /\ _ymd2ord year month day = n.
Proof.
  unfold max_ordinal. intros Hn. unfold _ord2ymd. cbv zeta.
  set (r1 := (n - 1) mod 146097).
  set (n400 := (n - 1) / 146097).
  set (n100 := r1 / 36524). set (r2 := r1 mod 36524).
  set (n4 := r2 / 1461). set (r3 := r2 mod 1461).
  set (n1 := r3 / 365). set (r4 := r3 mod 365).
  assert (E1 : n - 1 = 146097 * n400 + r1 /\ 0 <= r1 < 146097)
    by (unfold n400, r1; Z.div_mod_to_equations; lia).
  assert (E2 : r1 = 36524 * n100 + r2 /\ 0 <= r2 < 36524)
    by (unfold n100, r2; Z.div_mod_to_equations; lia).
  assert (E3 : r2 = 1461 * n4 + r3 /\ 0 <= r3 < 1461)
    by (unfold n4, r3; Z.div_mod_to_equations; lia).
  assert (E4 : r3 = 365 * n1 + r4 /\ 0 <= r4 < 365)
    by (unfold n1, r4; Z.div_mod_to_equations; lia).
  clearbody r1 n400 n100 r2 n4 r3 n1 r4.
  set (year := n400 * 400 + 1 + n100 * 100 + n4 * 4 + n1).
  assert (B : 0 <= n400 <= 24 /\ 0 <= n100 <= 4 /\ 0 <= n4 <= 24
              /\ 0 <= n1 <= 4) by lia.
  destruct ((n1 =? 4) || (n100 =? 4)) eqn:Hlast.
  - (* the last day of a leap year *)
    assert (Hcase : n1 = 4 \/ n100 = 4).
    { apply orb_true_iff in Hlast as [H|H]; apply Z.eqb_eq in H; auto. }
    clear Hlast.
    assert (Hleap : _is_leap (year - 1) = true).
    { apply leap_rule. unfold year.
      destruct Hcase; Z.div_mod_to_equations; lia. }
    unfold valid_date, _ymd2ord, _days_before_month, _days_in_month,
      _days_before_year.
    rewrite Hleap. tables.
    booleans; try lia; cbv zeta; destruct Hcase;
      unfold year; (split; [lia|]); Z.div_mod_to_equations; lia.
  - apply orb_false_iff in Hlast as [H1 H100].
    apply Z.eqb_neq in H1, H100.
    set (leapyear := (n1 =? 3) && (negb (n4 =? 24) || (n100 =? 3))).
    assert (Hleap : _is_leap year = leapyear).
    { unfold leapyear.
      destruct (_is_leap year) eqn:L.
      - apply leap_rule in L. symmetry. unfold year in L.
        booleans; auto; exfalso; Z.div_mod_to_equations; lia.
      - symmetry. apply not_true_iff_false. intros T.
        apply not_true_iff_false in L. apply L. apply leap_rule.
        unfold year. revert T.
        booleans; try discriminate; intros _;
          Z.div_mod_to_equations; lia. }
    assert (Hr4 : leapyear = false -> r4 < 365) by lia.
    assert (Hyear : _days_before_year year + r4 + 1 = n).
    { unfold _days_before_year, year. cbv zeta.
      Z.div_mod_to_equations. lia. }
    rewrite Z.shiftr_div_pow2 by lia. change (2 ^ 5) with 32.
    set (month := (r4 + 50) / 32).
    assert (Hmonth : 1 <= month <= 12)
      by (unfold month; Z.div_mod_to_equations; lia).
    assert (Hest : 32 * month <= r4 + 50 < 32 * month + 32)
      by (unfold month; Z.div_mod_to_equations; lia).
    clearbody month leapyear.
    each_month month; tables; destruct leapyear; booleans; try lia;
      unfold valid_date, _ymd2ord, _days_before_month, _days_in_month;
      rewrite Hleap; tables; booleans; try lia; (split; lia).
Qed.

(** *** Texts and instants *)

Lemma then_by_compare (k a b a' b' : Z) :
  0 <= b < k -> 0 <= b' < k ->
  then_by (a ?= a') (b ?= b') = (a * k + b ?= a' * k + b').
Proof.
  intros Hb Hb'.
  destruct (Z.compare_spec a a') as [E|L|G]; simpl.
  - subst. destruct (Z.compare_spec b b'); symmetry;
      [apply Z.compare_eq_iff|apply Z.compare_lt_iff|apply Z.compare_gt_iff];
      nia.
  - symmetry. apply Z.compare_lt_iff. nia.
  - symmetry. apply Z.compare_gt_iff. nia.
Qed.

(** Dates are ordered as the numbers of their days. *)
Lemma date_compare y m d y' m' d' :
  valid_date y m d -> valid_date y' m' d' ->
  then_by (y ?= y') (then_by (m ?= m') (d ?= d'))
  = (_ymd2ord y m d ?= _ymd2ord y' m' d').
Proof.
  intros Hv Hv'.
  destruct (Z.compare_spec y y') as [Ey|Ly|Gy]; simpl;
    [destruct (Z.compare_spec m m') as [Em|Lm|Gm]; simpl;
     [destruct (Z.compare_spec d d') as [Ed|Ld|Gd]|..]|..];
    symmetry.
  - apply Z.compare_eq_iff. now subst.
  - apply Z.compare_lt_iff. apply ymd2ord_lt; auto; lia.
  - apply Z.compare_gt_iff. apply ymd2ord_lt; auto; lia.
  - apply Z.compare_lt_iff. apply ymd2ord_lt; auto; lia.
  - apply Z.compare_gt_iff. apply ymd2ord_lt; auto; lia.
  - apply Z.compare_lt_iff. apply ymd2ord_lt; auto; lia.
  - apply Z.compare_gt_iff. apply ymd2ord_lt; auto; lia.
Qed.

Lemma fraction_compare u u' :
  0 <= u < 1000000 -> 0 <= u' < 1000000 ->
  String.compare (fraction u) (fraction u') = (u ?= u').
Proof.
  intros Hu Hu'. unfold fraction.
  destruct (Z.eqb_spec u 0) as [->|N]; destruct (Z.eqb_spec u' 0) as [->|N'].
  - reflexivity.
  - symmetry. apply Z.compare_lt_iff. lia.
  - symmetry. apply Z.compare_gt_iff. lia.
  - change ("." ++ zero_padded 6 u) with (String "." (zero_padded 6 u)).
    change ("." ++ zero_padded 6 u') with (String "." (zero_padded 6 u')).
    cbn [String.compare]. change (Ascii.compare "." ".") with Eq.
    apply zero_padded_compare; simpl; lia.
Qed.

Lemma separator_compare c s s' :
  String.compare (String c "" ++ s) (String c "" ++ s') = String.compare s s'.
Proof.
  simpl. unfold Ascii.compare. now rewrite N.compare_refl.
Qed.

(** The texts that [isoformat] writes are ordered as the instants. *)
Theorem isoformat_compare a b :
  representable a = true -> representable b = true ->
  String.compare (isoformat a) (isoformat b) = (a ?= b).
Proof.
  unfold representable, datetime_max, max_ordinal, microseconds_per_day.
  intros Ha Hb.
  apply andb_prop in Ha as [Ha0 Ha1]. apply andb_prop in Hb as [Hb0 Hb1].
  apply Z.leb_le in Ha0, Ha1, Hb0, Hb1.
  unfold isoformat, microseconds_per_day.
  pose proof (@ord2ymd_spec (a / 86400000000 + 1)) as Sa.
  pose proof (@ord2ymd_spec (b / 86400000000 + 1)) as Sb.
  unfold max_ordinal in Sa, Sb.
  destruct (_ord2ymd (a / 86400000000 + 1)) as [[ya ma] da].
  destruct (_ord2ymd (b / 86400000000 + 1)) as [[yb mb] db].
  destruct Sa as [Va Oa]; [Z.div_mod_to_equations; lia|].
  destruct Sb as [Vb Ob]; [Z.div_mod_to_equations; lia|].
  cbv zeta.
  set (ta := a mod 86400000000). set (tb := b mod 86400000000).
  assert (Hta : 0 <= ta < 86400000000)
    by (unfold ta; Z.div_mod_to_equations; lia).
  assert (Htb : 0 <= tb < 86400000000)
    by (unfold tb; Z.div_mod_to_equations; lia).
  assert (Ea : a = (a / 86400000000) * 86400000000 + ta)
    by (unfold ta; Z.div_mod_to_equations; lia).
  assert (Eb : b = (b / 86400000000) * 86400000000 + tb)
    by (unfold tb; Z.div_mod_to_equations; lia).
  pose proof Va as (Hya & Hma & Hda). pose proof Vb as (Hyb & Hmb & Hdb).
  assert (Hda' : da <= 31).
  { unfold _days_in_month in Hda. clear - Hda Hma.
    each_month ma; tables; destruct (_is_leap ya); booleans; lia. }
  assert (Hdb' : db <= 31).
  { unfold _days_in_month in Hdb. clear - Hdb Hmb.
    each_month mb; tables; destruct (_is_leap yb); booleans; lia. }
  repeat first
    [ rewrite separator_compare
    | rewrite compare_app by (now rewrite !zero_padded_length);
      rewrite zero_padded_compare by (simpl; Z.div_mod_to_equations; lia) ].
  rewrite fraction_compare by (Z.div_mod_to_equations; lia).
  (* the time of day *)
  assert (Htime :
            then_by (ta / 3600000000 ?= tb / 3600000000)
              (then_by (ta / 60000000 mod 60 ?= tb / 60000000 mod 60)
                 (then_by (ta / 1000000 mod 60 ?= tb / 1000000 mod 60)
                    (ta mod 1000000 ?= tb mod 1000000)))
            = (ta ?= tb)).
  { rewrite (@then_by_compare 1000000) by (Z.div_mod_to_equations; lia).
    rewrite (@then_by_compare 60000000) by (Z.div_mod_to_equations; lia).
    rewrite (@then_by_compare 3600000000) by (Z.div_mod_to_equations; lia).
    f_equal; Z.div_mod_to_equations; lia. }
  assert (Hdate :
            then_by (ya ?= yb) (then_by (ma ?= mb) (da ?= db))
            = (a / 86400000000 ?= b / 86400000000)).
  { rewrite (date_compare Va Vb), Oa, Ob.
    rewrite !(Z.add_comm _ 1). apply Z.add_compare_mono_l. }
  transitivity (then_by (then_by (ya ?= yb) (then_by (ma ?= mb) (da ?= db)))
                        (ta ?= tb)).
  - rewrite <- Htime.
    destruct (ya ?= yb); simpl; auto.
    destruct (ma ?= mb); simpl; auto.
  - rewrite Hdate, (@then_by_compare 86400000000) by lia.
    now rewrite <- Ea, <- Eb.
Qed.

Corollary isoformat_order a b :
  representable a = true -> representable b = true ->
  (String.leb (isoformat a) (isoformat b) = true <-> a <= b).
Proof.
  intros Ha Hb. unfold String.leb. rewrite isoformat_compare by assumption.
  destruct (Z.compare_spec a b); split; intros; auto; try lia;
    discriminate.
Qed.

End TimeFacts.

(** ** The response cache *)

Module CagFacts.

Import PyStr Py PyTime Cag.
Local Open Scope string_scope.

(** *** Dictionaries *)

Lemma dict_get_set_same {V} k (v : V) d : dict_get k (dict_set k v d) = Some v.
Proof.
  induction d as [|[k' v'] d IH]; simpl.
  - now rewrite String.eqb_refl.
  - destruct (String.eqb_spec k k') as [->|Hne]; simpl.
    + now rewrite String.eqb_refl.
    + destruct (String.eqb_spec k k'); [contradiction|assumption].
Qed.

Lemma dict_get_del_same {V} k (d : list (string * V)) :
  dict_get k (dict_del k d) = None.
Proof.
  induction d as [|[k' v'] d IH]; simpl; auto.
  destruct (String.eqb_spec k k') as [->|Hne]; simpl; auto.
  destruct (String.eqb_spec k k'); [contradiction|assumption].
Qed.

Lemma dict_get_in {V} k (v : V) d : dict_get k d = Some v -> In (k, v) d.
Proof.
  induction d as [|[k' v'] d IH]; simpl; [discriminate|].
  destruct (String.eqb_spec k k') as [->|Hne].
  - intros [= ->]. now left.
  - intros H. right. auto.
Qed.

Lemma in_dict_set {V} k (v : V) d x :
  In x (dict_set k v d) -> x = (k, v) \/ In x d.
Proof.
  induction d as [|[k' v'] d IH]; simpl.
  - intros [<-|[]]. now left.
  - destruct (String.eqb_spec k k') as [->|Hne]; simpl.
    + intros [<-|H]; auto.
    + intros [<-|H]; auto. destruct (IH H); auto.
Qed.

Lemma in_dict_del {V} k (d : list (string * V)) x :
  In x (dict_del k d) -> In x d.
Proof.
  induction d as [|[k' v'] d IH]; simpl; auto.
  destruct (String.eqb_spec k k') as [->|Hne]; simpl.
  - auto.
  - intros [<-|H]; auto.
Qed.

(** *** The validity check *)

(** The only exception that leaves the validity check is the
    [OverflowError] of the expiry time. *)
Lemma validity_cases ttl e it :
  (exists valid, _is_cache_valid ttl e it = Ok valid)
  \/ _is_cache_valid ttl e it = Raise OverflowError.
Proof.
  unfold _is_cache_valid, shifted.
  destruct (fromisoformat (get_timestamp it)) as [t|t|]; eauto;
    destruct (representable (t + ttl * microseconds_per_hour)); eauto.
Qed.

Lemma validity_in_range ttl e it :
  expiry_in_range ttl it = true ->
  exists valid, _is_cache_valid ttl e it = Ok valid.
Proof.
  unfold _is_cache_valid, expiry_in_range, shifted.
  destruct (fromisoformat (get_timestamp it)) as [t|t|]; eauto;
    intros ->; eauto.
Qed.

Lemma validity_out_of_range ttl e it :
  expiry_in_range ttl it = false ->
  _is_cache_valid ttl e it = Raise OverflowError.
Proof.
  unfold _is_cache_valid, expiry_in_range, shifted.
  destruct (fromisoformat (get_timestamp it)) as [t|t|];
    try discriminate; intros ->; reflexivity.
Qed.

(** A record with a timestamp that does not read as a clock time is
    never valid. *)
Lemma validity_without_clock_time ttl e it :
  has_clock_time it = false -> _is_cache_valid ttl e it <> Ok true.
Proof.
  unfold _is_cache_valid, has_clock_time, shifted.
  destruct (fromisoformat (get_timestamp it)) as [t|t|];
    try discriminate; intros _;
    try destruct (representable (t + ttl * microseconds_per_hour));
    discriminate.
Qed.

(** The check on a record made at [t0]. *)
Lemma validity_of_clock_time ttl e it t0 :
  fromisoformat (get_timestamp it) = Naive t0 ->
  representable (t0 + ttl * microseconds_per_hour) = true ->
  _is_cache_valid ttl e it
  = Ok (now e <? t0 + ttl * microseconds_per_hour)%Z.
Proof.
  intros Hts Hin. unfold _is_cache_valid, shifted. now rewrite Hts, Hin.
Qed.

(** *** Walking through a lookup *)

Ltac run :=
  cbv [get_cached_response cache_response _store_persistent_cache write_file
       unlink json_load getitem_response bump_hits bump_misses
       bump_total_requests bind ret raise call gets modify try_except
       any_exception].

Ltac split_lookup :=
  repeat (simpl;
          match goal with
          | |- context [match dict_get ?k ?d with _ => _ end] =>
              destruct (dict_get k d) eqn:?
          | |- context [match _is_cache_valid ?a ?b ?c with _ => _ end] =>
              let H := fresh "Hvalid" in
              destruct (validity_cases a b c) as [[[|] H]|H]; rewrite H
          | |- context [match item_response ?i with _ => _ end] =>
              destruct (item_response i) eqn:?
          | |- context [match content ?f with _ => _ end] =>
              destruct (content f) eqn:?
          | |- context [if unlink_fails ?e then _ else _] =>
              destruct (unlink_fails e) eqn:?
          end).

Section WithHash.

Variable md5 : string -> string.

Lemma lookup_returns e q s :
  exists r, fst (get_cached_response md5 e q s) = Ok r.
Proof. run. split_lookup; simpl; eauto. Qed.

Lemma store_returns e q r d src meta s :
  fst (cache_response md5 e q r d src meta s) = Ok tt.
Proof. run. destruct (write e); reflexivity. Qed.

Lemma store_memory e q r d src meta s :
  dict_get (_generate_cache_key md5 q)
           (memory_cache (snd (cache_response md5 e q r d src meta s)))
  = Some {| item_query := Some q;
            item_response := Some r;
            item_department := Some d;
            item_sources := Some (or_empty src);
            item_metadata := Some (or_empty meta);
            item_timestamp := Some (written (now e));
            item_cache_key := Some (_generate_cache_key md5 q) |}.
Proof.
  run. destruct (write e); simpl; apply dict_get_set_same.
Qed.

Lemma store_keeps_ttl e q r d src meta s :
  ttl_hours (snd (cache_response md5 e q r d src meta s)) = ttl_hours s.
Proof. run. destruct (write e); reflexivity. Qed.

Lemma store_keeps_stats e q r d src meta s :
  cache_stats (snd (cache_response md5 e q r d src meta s)) = cache_stats s.
Proof. run. destruct (write e); reflexivity. Qed.

(** A lookup served from the memory index. *)
Lemma lookup_memory_hit e q s it r :
  dict_get (_generate_cache_key md5 q) (memory_cache s) = Some it ->
  _is_cache_valid (ttl_hours s) e it = Ok true ->
  item_response it = Some r ->
  get_cached_response md5 e q s
  = (Ok (Some r),
     set_stats (fun c => {| hits := S (hits c); misses := misses c;
                            total_requests := S (total_requests c) |}) s).
Proof.
  intros Hm Hv Hr. run. simpl. rewrite Hm, Hv. simpl. rewrite Hr. reflexivity.
Qed.

(** Storing and looking up at once: the lookup answers with the response
    text. *)
Lemma lookup_after_store e_store e_lookup q r d src meta s :
  representable (now e_store + ttl_hours s * microseconds_per_hour) = true ->
  (now e_lookup < now e_store + ttl_hours s * microseconds_per_hour)%Z ->
  fst (get_cached_response md5 e_lookup q
         (snd (cache_response md5 e_store q r d src meta s)))
  = Ok (Some r).
Proof.
  intros Hin Hlt.
  erewrite lookup_memory_hit.
  - reflexivity.
  - apply store_memory.
  - rewrite store_keeps_ttl.
    rewrite (@validity_of_clock_time _ _ _ (now e_store)) by auto.
    f_equal. now apply Z.ltb_lt.
  - reflexivity.
Qed.


Lemma forallb_dict_del {V} (P : string * V -> bool) k d :
  forallb P d = true -> forallb P (dict_del k d) = true.
Proof.
  induction d as [|[k' v'] d IH]; simpl; auto.
  intros H. apply andb_prop in H as [H1 H2].
  destruct (String.eqb k k'); simpl; auto.
  now rewrite H1, IH.
Qed.

Lemma forallb_dict_set {V} (P : V -> bool) k v (d : list (string * V)) :
  P v = true ->
  forallb (fun kv => P (snd kv)) d = true ->
  forallb (fun kv => P (snd kv)) (dict_set k v d) = true.
Proof.
  intros Hv. induction d as [|[k' v'] d IH]; simpl.
  - now rewrite Hv.
  - intros H. apply andb_prop in H as [H1 H2].
    destruct (String.eqb k k'); simpl.
    + now rewrite Hv, H2.
    + now rewrite H1, IH.
Qed.

Lemma forallb_dict_get {V} (P : V -> bool) k v (d : list (string * V)) :
  forallb (fun kv => P (snd kv)) d = true ->
  dict_get k d = Some v -> P v = true.
Proof.
  intros H Hg. apply dict_get_in in Hg.
  rewrite forallb_forall in H. exact (H _ Hg).
Qed.

(** One lookup, in a cache all of whose records have their response:
    the request counter and exactly one of the two others go up by
    one. *)
Lemma lookup_step e q s :
  responses_present s = true ->
  let s' := snd (get_cached_response md5 e q s) in
  responses_present s' = true
  /\ total_requests (cache_stats s') = S (total_requests (cache_stats s))
  /\ ((hits (cache_stats s') = S (hits (cache_stats s))
       /\ misses (cache_stats s') = misses (cache_stats s))
      \/ (hits (cache_stats s') = hits (cache_stats s)
          /\ misses (cache_stats s') = S (misses (cache_stats s)))).
Proof.
  unfold responses_present. intros H. apply andb_prop in H as [Hm Hd].
  assert (Hmem : forall k it, dict_get k (memory_cache s) = Some it ->
                              item_response it <> None).
  { intros k it Hg. pose proof (forallb_dict_get has_response _ _ Hm Hg) as Hr.
    unfold has_response in Hr. destruct (item_response it); [congruence|discriminate]. }
  assert (Hdir : forall k f it, dict_get k (cache_dir s) = Some f ->
                                content f = JsonObject it ->
                                has_response it = true).
  { intros k f it Hg Hc.
    pose proof (forallb_dict_get file_has_response _ _ Hd Hg) as Hr.
    unfold file_has_response in Hr. now rewrite Hc in Hr. }
  assert (Hdir' : forall k f it, dict_get k (cache_dir s) = Some f ->
                                 content f = JsonObject it ->
                                 item_response it <> None).
  { intros k f it Hg Hc. pose proof (Hdir _ _ _ Hg Hc) as Hr.
    unfold has_response in Hr. destruct (item_response it); [congruence|discriminate]. }
  run. split_lookup; simpl;
    try (exfalso; eapply Hmem; eassumption);
    try (exfalso; eapply Hdir'; eassumption);
    (split; [|split; [reflexivity|auto]]);
    apply andb_true_intro; split;
    auto using forallb_dict_del, forallb_dict_set.
  all: try (apply forallb_dict_set; [eapply Hdir; eassumption|]);
    auto using forallb_dict_del.
Qed.

(** C5, as the code has it.  An entry whose timestamp reads as the
    instant [t0], in a cache for which [t0 + ttl] is a datetime, is not
    served from [t0 + ttl] on: the lookup of its query answers absent
    and counts a miss, whether the entry sits in the memory index, in a
    record file, or in both.  After the lookup the memory index has no
    entry under the key; the directory has none either when [unlink]
    goes through, and is as it was when [unlink] fails. *)
Theorem expired_entry_not_served (e : env) (q : string) (s : state)
        (it : cached_item) (t0 : Z) :
  fromisoformat (get_timestamp it) = Naive t0 ->
  representable (t0 + ttl_hours s * microseconds_per_hour) = true ->
  (t0 + ttl_hours s * microseconds_per_hour <= now e)%Z ->
  (dict_get (_generate_cache_key md5 q) (memory_cache s) = None \/
   dict_get (_generate_cache_key md5 q) (memory_cache s) = Some it) ->
  (dict_get (_generate_cache_key md5 q) (cache_dir s) = None \/
   exists f, dict_get (_generate_cache_key md5 q) (cache_dir s) = Some f /\
             content f = JsonObject it) ->
  let out := get_cached_response md5 e q s in
  fst out = Ok None
  /\ misses (cache_stats (snd out)) = S (misses (cache_stats s))
  /\ hits (cache_stats (snd out)) = hits (cache_stats s)
  /\ total_requests (cache_stats (snd out)) = S (total_requests (cache_stats s))
  /\ dict_get (_generate_cache_key md5 q) (memory_cache (snd out)) = None
  /\ (unlink_fails e = false ->
      dict_get (_generate_cache_key md5 q) (cache_dir (snd out)) = None)
  /\ (unlink_fails e = true -> cache_dir (snd out) = cache_dir s).
Proof.
  intros Hts Hin Hexp Hmem Hdir.
  assert (Hinv : _is_cache_valid (ttl_hours s) e it = Ok false).
  { rewrite (validity_of_clock_time _ _ _ Hts Hin). f_equal.
    apply Z.ltb_ge. lia. }
  run. simpl.
  destruct Hmem as [Hm|Hm]; rewrite Hm; simpl;
    try rewrite Hinv; simpl;
    (destruct Hdir as [Hd|(f & Hd & Hc)]; rewrite Hd; simpl;
     [|rewrite Hc; simpl; rewrite Hinv; simpl;
       destruct (unlink_fails e) eqn:Hu; simpl]);
    repeat split; auto using dict_get_del_same; try congruence.
Qed.

(** With a time to live of zero hours or more, the expiry time of an
    entry that has expired by the clock is a datetime. *)
Lemma expiry_of_expired_entry ttl t0 clock :
  (0 <= ttl)%Z -> representable t0 = true -> representable clock = true ->
  (t0 + ttl * microseconds_per_hour <= clock)%Z ->
  representable (t0 + ttl * microseconds_per_hour) = true.
Proof.
  unfold representable, microseconds_per_hour. intros Httl Ht Hc Hle.
  apply andb_prop in Ht as [Ht _]. apply andb_prop in Hc as [_ Hc].
  apply Z.leb_le in Ht, Hc.
  apply andb_true_intro. split; apply Z.leb_le; lia.
Qed.

(** C9, as the code has it.  A lookup and a store return normally
    whatever the record files do; a store leaves its entry in the memory
    index whether or not the write goes through.  When the lookup gets
    as far as the record file (the memory index has no entry under the
    key, or an expired one): a failed read counts as a miss; a malformed
    record (text that is not JSON, or an object without a response or
    without a timestamp that reads as a clock time) whose expiry time,
    if it has one, is a datetime makes the lookup answer absent and is
    deleted, provided [unlink] itself goes through; and a record for
    which the lookup has no clause is answered as absent and stays. *)
Theorem storage_failures_absorbed (e : env) (q : string) (s : state) :
  let cache_key := _generate_cache_key md5 q in
  let out := get_cached_response md5 e q s in
  (exists r, fst out = Ok r)
  /\ (forall r d src meta,
         let stored := cache_response md5 e q r d src meta s in
         fst stored = Ok tt
         /\ exists it, dict_get cache_key (memory_cache (snd stored)) = Some it
                       /\ item_response it = Some r
                       /\ item_department it = Some d
                       /\ item_sources it = Some (or_empty src))
  /\ (reads_record e cache_key s = true ->
      forall f, dict_get cache_key (cache_dir s) = Some f ->
                read_fails (content f) = true ->
                fst out = Ok None
                /\ misses (cache_stats (snd out)) = S (misses (cache_stats s))
                /\ hits (cache_stats (snd out)) = hits (cache_stats s))
  /\ (reads_record e cache_key s = true ->
      forall f, dict_get cache_key (cache_dir s) = Some f ->
                malformed (content f) = true ->
                unhandled (ttl_hours s) (content f) = false ->
                fst out = Ok None
                /\ (unlink_fails e = false ->
                    dict_get cache_key (cache_dir (snd out)) = None))
  /\ (reads_record e cache_key s = true ->
      forall f, dict_get cache_key (cache_dir s) = Some f ->
                unhandled (ttl_hours s) (content f) = true ->
                fst out = Ok None
                /\ cache_dir (snd out) = cache_dir s).
Proof.
  cbv zeta. split; [apply lookup_returns|]. split; [|split; [|split]].
  - intros r d src meta. split; [apply store_returns|].
    eexists. split; [apply store_memory|]. simpl. auto.
  - unfold reads_record. intros Hreads f Hf Hread.
    run. simpl.
    destruct (dict_get (_generate_cache_key md5 q) (memory_cache s))
      as [it|]; simpl;
      [destruct (_is_cache_valid (ttl_hours s) e it) as [[|]|];
       try discriminate; simpl|];
      rewrite Hf; simpl;
      destruct (content f); simpl in *; try discriminate; auto.
  - unfold reads_record. intros Hreads f Hf Hmal Hun.
    run. simpl.
    destruct (dict_get (_generate_cache_key md5 q) (memory_cache s))
      as [it|]; simpl;
      [destruct (_is_cache_valid (ttl_hours s) e it) as [[|]|];
       try discriminate; simpl|];
      rewrite Hf; simpl;
      destruct (content f) as [| | | |it']; simpl in *;
      try discriminate;
      try (apply negb_false_iff in Hun;
           destruct (validity_in_range (ttl_hours s) e it' Hun)
             as [[|] Hv]; rewrite Hv; simpl;
           [destruct (item_response it') eqn:Hr; simpl;
            [exfalso; rewrite orb_false_r in Hmal;
             apply negb_true_iff in Hmal;
             exact (validity_without_clock_time _ _ _ Hmal Hv)|]|]);
      destruct (unlink_fails e); simpl; split; auto using dict_get_del_same;
      try discriminate.
  - unfold reads_record. intros Hreads f Hf Hun.
    run. simpl.
    destruct (dict_get (_generate_cache_key md5 q) (memory_cache s))
      as [it|]; simpl;
      [destruct (_is_cache_valid (ttl_hours s) e it) as [[|]|];
       try discriminate; simpl|];
      rewrite Hf; simpl;
      destruct (content f) as [| | | |it']; simpl in *;
      try discriminate; auto;
      apply negb_true_iff in Hun;
      rewrite (validity_out_of_range _ e _ Hun); simpl; auto.
Qed.

End WithHash.

(** C3 at a concrete store: the lookup that follows the store answers
    with the response text alone, while the entry kept in the memory
    index carries the department and the sources as well. *)
Theorem lookup_after_store_yields_text_only :
  fst (get_cached_response plain_digest (Samples.env_at 0)
         Samples.water_query Samples.water_cached)
  = Ok (Some Samples.water_response)
  /\ exists it,
       dict_get Samples.water_key (memory_cache Samples.water_cached) = Some it
       /\ item_response it = Some Samples.water_response
       /\ item_department it = Some "Chennai Metro Water"
       /\ item_sources it = Some ["Chennai Metro Water portal"].
Proof.
  split; [reflexivity|]. eexists. split; [reflexivity|]. repeat split.
Qed.

Lemma expired_entry_not_served_witness :
  let out := get_cached_response plain_digest (Samples.env_at Samples.one_day)
               Samples.water_query Samples.water_cached in
  fst out = Ok None
  /\ misses (cache_stats (snd out)) = 1%nat
  /\ memory_cache (snd out) = []
  /\ cache_dir (snd out) = [].
Proof.
  destruct (@expired_entry_not_served plain_digest
              (Samples.env_at Samples.one_day) Samples.water_query
              Samples.water_cached
              {| item_query := Some Samples.water_query;
                 item_response := Some Samples.water_response;
                 item_department := Some "Chennai Metro Water";
                 item_sources := Some ["Chennai Metro Water portal"];
                 item_metadata := Some [];
                 item_timestamp := Some (written 0);
                 item_cache_key := Some Samples.water_key |} 0%Z
              eq_refl
              eq_refl
              ltac:(vm_compute; discriminate)
              (or_intror eq_refl)
              (or_intror (ex_intro _ _ (conj eq_refl eq_refl))))
    as (Hr & Hm & _ & _ & _ & _).
  split; [exact Hr|]. split; [exact Hm|]. split; reflexivity.
Defined.

(** C5, counterexample.  A day after the store, in surroundings in which
    the record file cannot be deleted, the lookup answers absent and the
    file is still there; and in a cache whose time to live is so far
    below zero that the expiry time is no datetime, the lookup answers
    absent and the entry stays in the memory index and on disk. *)
Lemma expired_entry_outlives_lookup :
  (let s := Samples.water_cached in
   let out := get_cached_response plain_digest
                (Samples.stuck_at Samples.one_day) Samples.water_query s in
   fst out = Ok None
   /\ dict_get Samples.water_key (cache_dir s) <> None
   /\ cache_dir (snd out) = cache_dir s)
  /\ (let s := Samples.water_cached_for (-100000000) in
      let out := get_cached_response plain_digest (Samples.env_at 1)
                   Samples.water_query s in
      fst out = Ok None
      /\ dict_get Samples.water_key (memory_cache s) <> None
      /\ memory_cache (snd out) = memory_cache s
      /\ cache_dir (snd out) = cache_dir s).
Proof.
  split; cbv zeta.
  - split; [reflexivity|]. split; [discriminate|reflexivity].
  - split; [reflexivity|]. split; [discriminate|]. split; reflexivity.
Qed.

(** C9, counterexample: a record file that is not JSON is read by the
    lookup, which answers absent; in surroundings in which the file
    cannot be deleted it is still there afterwards. *)
Lemma malformed_record_outlives_lookup :
  let s := Samples.cache_with_file BadJson in
  let out := get_cached_response plain_digest (Samples.stuck_at 0)
               Samples.water_query s in
  (exists f, dict_get Samples.water_key (cache_dir s) = Some f
             /\ malformed (content f) = true)
  /\ reads_record (Samples.stuck_at 0) Samples.water_key s = true
  /\ fst out = Ok None
  /\ cache_dir (snd out) = cache_dir s.
Proof.
  cbv zeta. split; [eexists; split; reflexivity|].
  split; [reflexivity|]. split; reflexivity.
Qed.

(** The memory index is consulted first: after a store whose write tore
    the record file, the record is malformed, yet the lookup answers
    from the memory index, reads no file, and the file stays. *)
Example malformed_record_behind_fresh_entry :
  let s := Samples.water_cached_torn in
  let out := get_cached_response plain_digest (Samples.env_at 0)
               Samples.water_query s in
  (exists f, dict_get Samples.water_key (cache_dir s) = Some f
             /\ malformed (content f) = true)
  /\ reads_record (Samples.env_at 0) Samples.water_key s = false
  /\ fst out = Ok (Some Samples.water_response)
  /\ cache_dir (snd out) = cache_dir s.
Proof.
  cbv zeta. split; [eexists; split; reflexivity|].
  split; [reflexivity|]. split; reflexivity.
Qed.

(** A record that is JSON but not an object, or that is not UTF-8, is
    answered as absent and stays on disk: [get_cached_response] has no
    clause for the exception it meets. *)
Example unhandled_record_stays :
  (let s := Samples.cache_with_file JsonOther in
   let out := get_cached_response plain_digest (Samples.env_at 0)
                Samples.water_query s in
   fst out = Ok None /\ cache_dir (snd out) = cache_dir s)
  /\ (let s := Samples.cache_with_file BadEncoding in
      let out := get_cached_response plain_digest (Samples.env_at 0)
                   Samples.water_query s in
      fst out = Ok None /\ cache_dir (snd out) = cache_dir s).
Proof. repeat split. Qed.

(** A record with a response and a timestamp is served and kept even
    when every other key is missing: the lookup reads no other key. *)
Example record_without_department_is_served :
  let s := Samples.cache_with_file
             (JsonObject Samples.record_without_department) in
  let out := get_cached_response plain_digest (Samples.env_at 0)
               Samples.water_query s in
  fst out = Ok (Some Samples.water_response)
  /\ cache_dir (snd out) = cache_dir s.
Proof. split; reflexivity. Qed.

Lemma storage_failures_absorbed_witness :
  let s := Samples.cache_with_file BadJson in
  let out := get_cached_response plain_digest (Samples.env_at 0)
               Samples.water_query s in
  fst out = Ok None /\ cache_dir (snd out) = [].
Proof.
  destruct (@storage_failures_absorbed plain_digest (Samples.env_at 0)
              Samples.water_query (Samples.cache_with_file BadJson))
    as (_ & _ & _ & Hmal & _).
  destruct (Hmal eq_refl _ eq_refl eq_refl eq_refl) as (Hr & _).
  split; [exact Hr|reflexivity].
Defined.

End CagFacts.

(** ** Normalization of queries *)

Module NormalizeFacts.

Import PyStr Cag ReplaceFacts.
Local Open Scope string_scope.

Lemma strip_punctuation_filter s :
  strip_punctuation s = filter_chars keep s.
Proof.
  unfold strip_punctuation, chars_to_remove. simpl. unfold replace.
  rewrite !replace_char_filter, !filter_chars_twice.
  apply filter_chars_ext. intros x.
  destruct x as [[] [] [] [] [] [] [] []]; reflexivity.
Qed.

Lemma standardize_areas_three s :
  standardize_areas s
  = replace_from "annanagar" "anna nagar" 0
      (replace_from "tnagar" "t. nagar" 0
         (replace_from "t nagar" "t. nagar" 0 s)).
Proof.
  unfold standardize_areas, area_variations. simpl. unfold replace.
  now rewrite !replace_same.
Qed.

(** *** Lower case *)

Lemma lower_char_idem c : lower_char (lower_char c) = lower_char c.
Proof. destruct c as [[] [] [] [] [] [] [] []]; reflexivity. Qed.

Lemma lower_is_fixed s : all_chars lower_fixed (lower s) = true.
Proof.
  induction s as [|c s IH]; [reflexivity|]. simpl.
  unfold lower_fixed at 1. now rewrite lower_char_idem, Ascii.eqb_refl.
Qed.

Lemma lower_of_fixed s : all_chars lower_fixed s = true -> lower s = s.
Proof.
  induction s as [|c s IH]; [reflexivity|]. simpl. intros H.
  apply andb_prop in H as [Hc H]. apply Ascii.eqb_eq in Hc.
  now rewrite Hc, IH.
Qed.

Section Kept.

Variable f : ascii -> bool.

Lemma all_chars_lstrip s : all_chars f s = true -> all_chars f (lstrip s) = true.
Proof.
  induction s as [|c s IH]; simpl; auto. intros H.
  destruct (is_space c); [|exact H].
  apply andb_prop in H as [_ H]. auto.
Qed.

Lemma all_chars_rstrip s : all_chars f s = true -> all_chars f (rstrip s) = true.
Proof.
  induction s as [|c s IH]; auto. intros H.
  change (rstrip (String c s))
    with (if all_space (String c s) then "" else String c (rstrip s)).
  destruct (all_space (String c s)); [reflexivity|].
  simpl in *. apply andb_prop in H as [-> H]. auto.
Qed.

Lemma all_chars_strip s : all_chars f s = true -> all_chars f (strip s) = true.
Proof. intros H. now apply all_chars_rstrip, all_chars_lstrip. Qed.

Lemma all_chars_split s : forall word,
  all_chars f word = true -> all_chars f s = true ->
  Forall (fun w => all_chars f w = true) (split_from word s).
Proof.
  induction s as [|c s IH]; intros word Hw Hs; simpl.
  - destruct word; auto.
  - simpl in Hs. apply andb_prop in Hs as [Hc Hs].
    destruct (is_space c).
    + destruct word; auto.
    + apply IH; auto. rewrite all_chars_app, Hw. simpl. now rewrite Hc.
Qed.

Lemma all_chars_join sep ws :
  all_chars f sep = true ->
  Forall (fun w => all_chars f w = true) ws ->
  all_chars f (join sep ws) = true.
Proof.
  intros Hsep. induction 1 as [|w ws Hw Hws IH]; [reflexivity|].
  destruct ws as [|w' ws]; [exact Hw|].
  change (join sep (w :: w' :: ws)) with (w ++ sep ++ join sep (w' :: ws)).
  now rewrite !all_chars_app, Hw, Hsep, IH.
Qed.

Lemma all_chars_filter g s :
  all_chars f s = true -> all_chars f (filter_chars g s) = true.
Proof.
  induction s as [|c s IH]; auto. simpl. intros H.
  apply andb_prop in H as [Hc H].
  destruct (g c); simpl; [rewrite Hc|]; auto.
Qed.

Lemma all_chars_areas s :
  all_chars f "t. nagar" = true -> all_chars f "anna nagar" = true ->
  all_chars f s = true -> all_chars f (standardize_areas s) = true.
Proof.
  intros H1 H2 H. rewrite standardize_areas_three.
  repeat apply replace_all_chars; auto.
Qed.

End Kept.

Lemma normalize_unfold q :
  _normalize_query q
  = standardize_areas (strip_punctuation (squeeze (lower q))).
Proof. reflexivity. Qed.

Lemma normalize_lower q : lower (_normalize_query q) = _normalize_query q.
Proof.
  apply lower_of_fixed. rewrite normalize_unfold.
  apply all_chars_areas; try reflexivity.
  rewrite strip_punctuation_filter. apply all_chars_filter.
  unfold squeeze. apply all_chars_join; [reflexivity|].
  apply all_chars_split; [reflexivity|].
  apply all_chars_strip, lower_is_fixed.
Qed.


(** *** Full stops *)

Lemma keep_not_punct c : keep c = true -> is_punct c = false.
Proof. unfold keep. now destruct (is_punct c). Qed.

Lemma dots_after_t_nagar p :
  all_chars keep p = true ->
  forall b, dots_in_place b (replace_from "t nagar" "t. nagar" 0 p) = true.
Proof.
  revert p.
  apply (scan_ind "t"%char " nagar"
           (fun p => all_chars keep p = true ->
                     forall b, dots_in_place b
                                 (replace_from "t nagar" "t. nagar" 0 p)
                               = true)).
  - reflexivity.
  - intros c s E IH H b. rewrite replace_step, E.
    change (dots_in_place b ("t. nagar" ++ ?x)) with (dots_in_place false x).
    apply IH. now apply all_chars_drop.
  - intros c s E IH H b. rewrite replace_step, E.
    simpl in H. apply andb_prop in H as [Hc H].
    simpl. rewrite (keep_not_punct _ Hc). auto.
Qed.

Section DotsKept.

Variables (o : ascii) (old' new : string).

Hypothesis past_new :
  forall b x, dots_in_place b (new ++ x) = dots_in_place false x.
Hypothesis past_old :
  forall b x, dots_in_place b (String o old' ++ x) = dots_in_place false x.
Hypothesis nagar_clear : clear_of (String o old') new " nagar" = true.

Lemma dots_kept s :
  forall b, dots_in_place b s = true ->
            dots_in_place b (replace_from (String o old') new 0 s) = true.
Proof.
  revert s.
  apply (scan_ind o old'
           (fun s => forall b, dots_in_place b s = true ->
                               dots_in_place b
                                 (replace_from (String o old') new 0 s)
                               = true)).
  - auto.
  - intros c s E IH b H. rewrite replace_step, E, past_new.
    apply IH. rewrite (starts_with_drop _ _ E), past_old in H. exact H.
  - intros c s E IH b H. rewrite replace_step, E.
    cbn [dots_in_place] in *. destruct (is_punct c).
    + apply andb_prop in H as [H Hd]. apply andb_prop in H as [H Hn].
      rewrite H. rewrite replace_starts by exact nagar_clear.
      rewrite Hn. simpl. auto.
    + auto.
Qed.

End DotsKept.

(** Leaving the full stops out does not change what a text with its
    full stops in place begins with, for a beginning without [t]. *)
Lemma filter_starts l :
  all_chars plain l = true ->
  forall y, dots_in_place false y = true ->
            starts_with l (filter_chars keep y) = starts_with l y.
Proof.
  induction l as [|x l IH]; intros Hl y Hy; [reflexivity|].
  simpl in Hl. apply andb_prop in Hl as [Hx Hl]. unfold plain in Hx.
  apply andb_prop in Hx as [Hxk Hxt]. apply negb_true_iff in Hxt.
  destruct y as [|c y]; [reflexivity|].
  cbn [dots_in_place] in Hy. cbn [filter_chars].
  destruct (is_punct c) eqn:Hp.
  - rewrite andb_false_r in Hy. discriminate.
  - assert (Hk : keep c = true) by (unfold keep; now rewrite Hp).
    rewrite Hk. cbn [starts_with].
    destruct (Ascii.eqb_spec x c) as [->|Hne]; [|reflexivity].
    rewrite Hxt in Hy. simpl. auto.
Qed.

(** Putting the full stops back: in a text whose full stops are in
    place and which holds no ["t nagar"], the first replacement undoes
    the removal of the full stops. *)
Lemma restore_dots n : forall y,
  (String.length y <= n)%nat ->
  dots_in_place false y = true ->
  contains "t nagar" y = false ->
  replace_from "t nagar" "t. nagar" 0 (filter_chars keep y) = y.
Proof.
  induction n as [|n IH]; intros [|c y] Hlen Hd Hc;
    try reflexivity; simpl in Hlen; try lia.
  cbn [dots_in_place] in Hd. destruct (is_punct c) eqn:Hp.
  { rewrite andb_false_r in Hd. discriminate. }
  assert (Hk : keep c = true) by (unfold keep; now rewrite Hp).
  simpl filter_chars. rewrite Hk.
  assert (Hplain : forall y',
             dots_in_place false y' = true ->
             (String.length y' <= n)%nat ->
             contains "t nagar" (String c y') = false ->
             replace_from "t nagar" "t. nagar" 0
               (String c (filter_chars keep y')) = String c y').
  { intros y' Hd' Hl' Hc'. rewrite replace_step.
    assert (E : starts_with "t nagar" (String c (filter_chars keep y'))
                = false).
    { change (starts_with "t nagar" (String c (filter_chars keep y')))
        with (Ascii.eqb "t" c && starts_with " nagar" (filter_chars keep y')).
      rewrite filter_starts by (reflexivity || assumption).
      apply contains_head in Hc'. exact Hc'. }
    rewrite E. f_equal. apply IH; auto. eapply contains_tail; eauto. }
  destruct (Ascii.eqb_spec c "t") as [->|Hct].
  - destruct y as [|d y]; [reflexivity|].
    destruct (is_punct d) eqn:Hpd.
    + cbn [dots_in_place] in Hd. rewrite Hpd in Hd.
      apply andb_prop in Hd as [Hd Hd3]. apply andb_prop in Hd as [Hd Hn].
      apply andb_prop in Hd as [Hdot _]. apply Ascii.eqb_eq in Hdot as ->.
      rewrite (starts_with_drop _ _ Hn) in *.
      set (y3 := drop (String.length " nagar") y) in *.
      change (dots_in_place false (" nagar" ++ y3))
        with (dots_in_place false y3) in Hd3.
      change (filter_chars keep (String "." (" nagar" ++ y3)))
        with (" nagar" ++ filter_chars keep y3).
      change (replace_from "t nagar" "t. nagar" 0
                (String "t" (" nagar" ++ filter_chars keep y3)))
        with ("t. nagar"
              ++ replace_from "t nagar" "t. nagar" 0
                   (filter_chars keep y3)).
      rewrite IH; auto;
        try (simpl in Hlen; lia);
        try (apply (contains_drop _ 8) in Hc; exact Hc).
    + apply Hplain.
      * cbn [dots_in_place] in *. rewrite Hpd in *. exact Hd.
      * lia.
      * exact Hc.
  - apply Hplain.
    + destruct (Ascii.eqb_spec c "t"); [contradiction|exact Hd].
    + lia.
    + exact Hc.
Qed.

Lemma areas_settle p :
  all_chars keep p = true ->
  standardize_areas (strip_punctuation (standardize_areas p))
  = standardize_areas p.
Proof.
  intros Hp. rewrite !standardize_areas_three, strip_punctuation_filter.
  set (w1 := replace_from "t nagar" "t. nagar" 0 p).
  set (w2 := replace_from "tnagar" "t. nagar" 0 w1).
  set (y := replace_from "annanagar" "anna nagar" 0 w2).
  assert (D1 : dots_in_place false w1 = true)
    by now apply dots_after_t_nagar.
  assert (D2 : dots_in_place false w2 = true).
  { apply dots_kept; auto; reflexivity. }
  assert (D3 : dots_in_place false y = true).
  { apply dots_kept; auto; reflexivity. }
  assert (A1 : contains "t nagar" w1 = false).
  { apply replace_removes_old; reflexivity. }
  assert (A2 : contains "t nagar" w2 = false).
  { apply replace_keeps_absent; auto; reflexivity. }
  assert (A3 : contains "t nagar" y = false).
  { apply replace_keeps_absent; auto; reflexivity. }
  assert (B2 : contains "tnagar" w2 = false).
  { apply replace_removes_old; reflexivity. }
  assert (B3 : contains "tnagar" y = false).
  { apply replace_keeps_absent; auto; reflexivity. }
  assert (C3 : contains "annanagar" y = false).
  { apply replace_removes_old; reflexivity. }
  rewrite (@restore_dots (String.length y)); auto.
  now rewrite (replace_absent _ _ _ _ B3), (replace_absent _ _ _ _ C3).
Qed.

(** C4, as the code has it.  Normalizing twice is normalizing once for
    every query whose normal form has its whitespace collapsed, that is,
    in which the removal of punctuation left no blank at either end and
    no two blanks in a row. *)
Theorem normalize_idempotent_when_collapsed (query : string) :
  squeeze (_normalize_query query) = _normalize_query query ->
  _normalize_query (_normalize_query query) = _normalize_query query.
Proof.
  intros Hsq.
  rewrite (normalize_unfold (_normalize_query query)).
  rewrite normalize_lower, Hsq.
  rewrite normalize_unfold. apply areas_settle.
  rewrite strip_punctuation_filter. apply filter_chars_all.
Qed.

Lemma normalize_idempotent_when_collapsed_witness :
  _normalize_query (_normalize_query "  Water   supply, in T Nagar!  ")
  = _normalize_query "  Water   supply, in T Nagar!  "
  /\ _normalize_query "  Water   supply, in T Nagar!  "
     = "water supply in t. nagar".
Proof.
  split; [|reflexivity].
  exact (@normalize_idempotent_when_collapsed
           "  Water   supply, in T Nagar!  " eq_refl).
Defined.

(** C4, counterexample: the whitespace is collapsed before the
    punctuation is removed, so a full stop between two blanks leaves two
    blanks, which the second pass collapses. *)
Lemma normalize_not_idempotent :
  _normalize_query "a . b" = "a  b"
  /\ _normalize_query (_normalize_query "a . b") = "a b"
  /\ _normalize_query (_normalize_query "a . b") <> _normalize_query "a . b".
Proof. repeat split. discriminate. Qed.

End NormalizeFacts.

(** ** Eviction *)

Module EvictionFacts.

Import Py PyTime Cag SortFacts.
Local Open Scope string_scope.

Lemma in_dict_del_iff {V} k (d : list (string * V)) x :
  In x (dict_del k d) <-> In x d /\ fst x <> k.
Proof.
  induction d as [|[k' v'] d IH]; simpl; [tauto|].
  destruct (String.eqb_spec k k') as [->|Hne]; simpl; rewrite IH.
  - split; [tauto|]. intros [[<-|H] Hn]; simpl in *; tauto.
  - split.
    + intros [<-|[H Hn]]; simpl; auto.
    + intros [[<-|H] Hn]; auto.
Qed.

Lemma dict_del_nodup {V} k (d : list (string * V)) :
  NoDup (map fst d) -> NoDup (map fst (dict_del k d)).
Proof.
  induction d as [|[k' v'] d IH]; simpl; auto.
  intros H. apply NoDup_cons_iff in H as [Hn Hd].
  destruct (String.eqb k k'); simpl; auto.
  constructor; auto.
  intros Hin. apply Hn. apply in_map_iff in Hin as (x & Hx & Hin).
  apply in_dict_del_iff in Hin as [Hin _].
  apply in_map_iff. eauto.
Qed.

Lemma dict_del_absent {V} k (d : list (string * V)) :
  ~ In k (map fst d) -> dict_del k d = d.
Proof.
  induction d as [|[k' v'] d IH]; simpl; auto.
  intros H. destruct (String.eqb_spec k k') as [->|Hne]; [tauto|].
  f_equal. tauto.
Qed.

Lemma dict_del_length {V} k (d : list (string * V)) :
  NoDup (map fst d) -> In k (map fst d) ->
  S (List.length (dict_del k d)) = List.length d.
Proof.
  induction d as [|[k' v'] d IH]; simpl; [tauto|].
  intros H Hin. apply NoDup_cons_iff in H as [Hn Hd].
  destruct (String.eqb_spec k k') as [->|Hne].
  - now rewrite dict_del_absent.
  - simpl. f_equal. apply IH; auto. destruct Hin; congruence.
Qed.

Lemma nodup_keys_inj {V} (d : list (string * V)) x y :
  NoDup (map fst d) -> In x d -> In y d -> fst x = fst y -> x = y.
Proof.
  induction d as [|z d IH]; simpl; [tauto|].
  intros H Hx Hy Hk. apply NoDup_cons_iff in H as [Hn Hd].
  destruct Hx as [->|Hx], Hy as [->|Hy]; auto.
  - exfalso. apply Hn. rewrite Hk. now apply in_map.
  - exfalso. apply Hn. rewrite <- Hk. now apply in_map.
Qed.

Lemma nodup_firstn {V} n (l : list V) : NoDup l -> NoDup (firstn n l).
Proof.
  intros H. rewrite <- (firstn_skipn n l) in H.
  now apply NoDup_app_remove_r in H.
Qed.

Section Removal.

Variable undeletable : string -> bool.

Lemma remove_files_in rm : forall dir x,
  (forall y, In y rm -> undeletable (fst y) = false) ->
  (In x (remove_files undeletable rm dir)
   <-> In x dir /\ ~ In (fst x) (map fst rm)).
Proof.
  induction rm as [|[k f] rm IH]; intros dir x Hund; simpl; [tauto|].
  pose proof (Hund (k, f) (or_introl eq_refl)) as Hk0. simpl in Hk0.
  rewrite Hk0.
  rewrite IH by (intros y Hy; apply Hund; now right).
  rewrite in_dict_del_iff. simpl. intuition congruence.
Qed.

Lemma remove_files_length rm : forall dir,
  (forall y, In y rm -> undeletable (fst y) = false) ->
  NoDup (map fst dir) -> NoDup (map fst rm) ->
  incl (map fst rm) (map fst dir) ->
  (List.length (remove_files undeletable rm dir) + List.length rm
   = List.length dir)%nat.
Proof.
  induction rm as [|[k f] rm IH]; intros dir Hund Hd Hr Hincl; simpl; [lia|].
  pose proof (Hund (k, f) (or_introl eq_refl)) as Hk0. simpl in Hk0.
  rewrite Hk0.
  simpl in Hr. apply NoDup_cons_iff in Hr as [Hk Hr].
  rewrite Nat.add_succ_r, IH.
  - apply dict_del_length; auto. apply Hincl. now left.
  - intros y Hy. apply Hund. now right.
  - now apply dict_del_nodup.
  - assumption.
  - intros k' Hk'. assert (Hin : In k' (map fst dir)) by (apply Hincl; now right).
    apply in_map_iff in Hin as (x & <- & Hx).
    apply in_map. apply in_dict_del_iff. split; auto.
    intros E. rewrite E in Hk'. contradiction.
Qed.

(** What a pass over [files_to_remove] leaves in the directory,
    whichever deletions fail. *)
Lemma remove_files_keeps rm : forall dir x,
  In x (remove_files undeletable rm dir)
  <-> In x dir
      /\ ~ (In (fst x) (map fst rm) /\ undeletable (fst x) = false).
Proof.
  induction rm as [|[k f] rm IH]; intros dir x; simpl; [tauto|].
  rewrite IH. destruct (undeletable k) eqn:Hk.
  - split.
    + intros [Hin Hn]. split; auto. intros [[E|Hr] Hu]; [congruence|tauto].
    + intros [Hin Hn]. split; auto. tauto.
  - rewrite in_dict_del_iff. split.
    + intros [[Hin Hne] Hn]. split; auto.
      intros [[E|Hr] Hu]; [congruence|tauto].
    + intros [Hin Hn]. split; [split; auto|tauto].
      intros E. apply Hn. split; [now left|congruence].
Qed.

(** The files that go are the ones of [files_to_remove] that can be
    deleted. *)
Lemma remove_files_count rm : forall dir,
  NoDup (map fst dir) -> NoDup (map fst rm) ->
  incl (map fst rm) (map fst dir) ->
  (List.length (remove_files undeletable rm dir) + List.length rm
   = List.length dir + List.length (filter (stuck undeletable) rm))%nat.
Proof.
  induction rm as [|[k f] rm IH]; intros dir Hd Hr Hincl; simpl; [lia|].
  simpl in Hr. apply NoDup_cons_iff in Hr as [Hk Hr].
  unfold stuck at 1. simpl. destruct (undeletable k) eqn:Hk0; simpl.
  - rewrite !Nat.add_succ_r. f_equal. apply IH; auto.
    intros k' Hk'. apply Hincl. now right.
  - rewrite Nat.add_succ_r, IH.
    + rewrite <- (dict_del_length k dir Hd) by (apply Hincl; now left). lia.
    + now apply dict_del_nodup.
    + assumption.
    + intros k' Hk'.
      assert (Hin : In k' (map fst dir)) by (apply Hincl; now right).
      apply in_map_iff in Hin as (x & <- & Hx).
      apply in_map. apply in_dict_del_iff. split; auto.
      intros E. rewrite E in Hk'. contradiction.
Qed.

End Removal.

(** The order of texts. *)
Lemma leb_trans (a b c : string) :
  String.leb a b = true -> String.leb b c = true -> String.leb a c = true.
Proof.
  unfold String.leb. revert b c.
  induction a as [|x a IH]; intros [|y b] [|z c]; simpl; auto;
    try discriminate.
  unfold Ascii.compare.
  destruct (N.compare_spec (N_of_ascii x) (N_of_ascii y)) as [Exy|Hxy|Hxy];
    try discriminate;
    destruct (N.compare_spec (N_of_ascii y) (N_of_ascii z)) as [Eyz|Hyz|Hyz];
    try discriminate; intros H1 H2.
  - rewrite Exy, Eyz, N.compare_refl. eauto.
  - rewrite Exy. now apply N.compare_lt_iff in Hyz as ->.
  - rewrite <- Eyz. now apply N.compare_lt_iff in Hxy as ->.
  - assert (Hxz : (N_of_ascii x < N_of_ascii z)%N) by lia.
    now apply N.compare_lt_iff in Hxz as ->.
Qed.

Lemma later_text_first_total x y :
  later_text_first x y = true \/ later_text_first y x = true.
Proof. unfold later_text_first. apply String.leb_total. Qed.

Lemma later_text_first_trans x y z :
  later_text_first x y = true -> later_text_first y z = true ->
  later_text_first x z = true.
Proof. unfold later_text_first. eauto using leb_trans. Qed.

Lemma older_first_total x y :
  older_first x y = true \/ older_first y x = true.
Proof. unfold older_first. rewrite !Z.leb_le. lia. Qed.

Lemma older_first_trans x y z :
  older_first x y = true -> older_first y z = true -> older_first x z = true.
Proof. unfold older_first. rewrite !Z.leb_le. lia. Qed.

Lemma in_firstn_or_skipn {V} n (l : list V) x :
  In x l -> In x (firstn n l) \/ In x (skipn n l).
Proof.
  intros H. rewrite <- (firstn_skipn n l) in H. now apply in_app_or in H.
Qed.

Lemma in_firstn {V} n (l : list V) x : In x (firstn n l) -> In x l.
Proof.
  intros H. rewrite <- (firstn_skipn n l). apply in_or_app. now left.
Qed.

Lemma optimize_cache_with_result max_mem max_files undeletable s :
  let out := optimize_cache_with max_mem max_files undeletable s in
  let sorted_files := sort_by older_first (cache_dir s) in
  fst out = Ok tt
  /\ memory_cache (snd out)
     = (if (max_mem <? List.length (memory_cache s))%nat
        then firstn max_mem (sort_by later_text_first (memory_cache s))
        else memory_cache s)
  /\ cache_dir (snd out)
     = (if (max_files <? List.length (cache_dir s))%nat
        then remove_files undeletable
               (all_but_last max_files sorted_files) (cache_dir s)
        else cache_dir s).
Proof.
  unfold optimize_cache_with.
  cbv [bind ret gets modify try_except any_exception]. simpl.
  destruct (max_mem <? List.length (memory_cache s))%nat; simpl;
    destruct (max_files <? List.length (cache_dir s))%nat; simpl; auto.
Qed.

(** C8, as the code has it.  With more entries in the memory index than
    the bound, eviction leaves exactly the bound: entries that were
    there, each with a timestamp text at least as high as that of every
    dropped one, a tie going to the entry that stood first; when the
    texts of the index are ordered as the instants they name, every
    entry kept was made no earlier than every entry dropped.  With no
    more than the bound the index is as it was.  The record files,
    whose names are distinct, are not touched unless they outnumber
    their own bound; when they do, the files in excess that were
    modified first are deleted, but for those whose deletion fails:
    every deleted file was modified no later than every file kept that
    could have been deleted, and when no deletion fails the bound is
    reached.  The bounds of the source are 1000 and 5000. *)
Theorem eviction_keeps_most_recent (max_memory_items max_persistent_files : nat)
        (undeletable : string -> bool) (s : state) :
  NoDup (map fst (cache_dir s)) ->
  let out :=
    optimize_cache_with max_memory_items max_persistent_files undeletable s in
  let mem := memory_cache s in
  let mem' := memory_cache (snd out) in
  let dir := cache_dir s in
  let dir' := cache_dir (snd out) in
  let files_to_remove :=
    all_but_last max_persistent_files (sort_by older_first dir) in
  optimize_cache undeletable = optimize_cache_with 1000 5000 undeletable
  /\ fst out = Ok tt
  /\ ((List.length mem <= max_memory_items)%nat -> mem' = mem)
  /\ ((max_memory_items < List.length mem)%nat ->
      List.length mem' = max_memory_items
      /\ (forall x, In x mem' -> In x mem)
      /\ (forall kept dropped,
             In kept mem' -> In dropped mem -> ~ In dropped mem' ->
             String.leb (sort_key dropped) (sort_key kept) = true
             /\ (String.leb (sort_key kept) (sort_key dropped) = true ->
                 before_in mem kept dropped))
      /\ (ordered_as_created mem ->
          forall kept dropped made_kept made_dropped,
            In kept mem' -> In dropped mem -> ~ In dropped mem' ->
            created (snd kept) = Some made_kept ->
            created (snd dropped) = Some made_dropped ->
            (made_dropped <= made_kept)%Z))
  /\ ((List.length dir <= max_persistent_files)%nat -> dir' = dir)
  /\ ((0 < max_persistent_files < List.length dir)%nat ->
      List.length dir'
      = (max_persistent_files
         + List.length (filter (stuck undeletable) files_to_remove))%nat
      /\ (forall x, In x dir' -> In x dir)
      /\ (forall deleted, In deleted dir -> ~ In deleted dir' ->
                          undeletable (fst deleted) = false)
      /\ (forall kept deleted,
             In kept dir' -> In deleted dir -> ~ In deleted dir' ->
             (st_mtime (snd deleted) <= st_mtime (snd kept))%Z
             \/ undeletable (fst kept) = true)
      /\ ((forall k, In k (map fst dir) -> undeletable k = false) ->
          List.length dir' = max_persistent_files)).
Proof.
  intros Hnd. cbv zeta.
  destruct (optimize_cache_with_result max_memory_items max_persistent_files
              undeletable s) as (Hok & Hmem & Hdir).
  cbv zeta in Hdir. rewrite Hmem, Hdir. clear Hmem Hdir.
  set (sorted_items := sort_by later_text_first (memory_cache s)).
  set (sorted_files := sort_by older_first (cache_dir s)).
  split; [reflexivity|]. split; [exact Hok|].
  split; [|split; [|split]].
  - intros Hle. destruct (Nat.ltb_spec max_memory_items
                            (List.length (memory_cache s))); [lia|reflexivity].
  - intros Hlt. destruct (Nat.ltb_spec max_memory_items
                            (List.length (memory_cache s))); [|lia].
    assert (Hsub : forall x, In x (firstn max_memory_items sorted_items) ->
                             In x (memory_cache s)).
    { intros x Hx. apply in_firstn in Hx. now apply sort_by_in in Hx. }
    assert (Htext : forall kept dropped,
               In kept (firstn max_memory_items sorted_items) ->
               In dropped (memory_cache s) ->
               ~ In dropped (firstn max_memory_items sorted_items) ->
               String.leb (sort_key dropped) (sort_key kept) = true
               /\ (String.leb (sort_key kept) (sort_key dropped) = true ->
                   before_in (memory_cache s) kept dropped)).
    { intros kept dropped Hk Hdm Hnot.
      assert (Hdrop : In dropped (skipn max_memory_items sorted_items)).
      { apply (sort_by_in later_text_first) in Hdm.
        destruct (in_firstn_or_skipn max_memory_items _ _ Hdm); tauto. }
      exact (@firstn_sort_by _ later_text_first later_text_first_total
               later_text_first_trans _ _ _ _ Hk Hdrop). }
    split; [|split; [|split]].
    + apply firstn_length_le. unfold sorted_items. rewrite sort_by_length. lia.
    + exact Hsub.
    + exact Htext.
    + intros Hord kept dropped tk td Hk Hdm Hnot Hck Hcd.
      destruct (Htext kept dropped Hk Hdm Hnot) as [Hle _].
      exact (proj1 (Hord dropped kept td tk Hdm (Hsub _ Hk) Hcd Hck) Hle).
  - intros Hle. destruct (Nat.ltb_spec max_persistent_files
                            (List.length (cache_dir s))); [lia|reflexivity].
  - intros [Hpos Hlt]. destruct (Nat.ltb_spec max_persistent_files
                                   (List.length (cache_dir s))); [|lia].
    unfold all_but_last.
    destruct max_persistent_files as [|below]; [lia|].
    set (cap := S below) in *.
    set (rm := firstn (List.length sorted_files - cap) sorted_files).
    assert (Hperm : Permutation sorted_files (cache_dir s))
      by apply sort_by_perm.
    assert (Hrm_in : forall y, In y rm -> In y (cache_dir s)).
    { intros y Hy. apply in_firstn in Hy. now apply sort_by_in in Hy. }
    assert (Hrm_nd : NoDup (map fst rm)).
    { unfold rm. rewrite <- firstn_map. apply nodup_firstn.
      apply (Permutation_NoDup (l := map fst (cache_dir s))); auto.
      apply Permutation_map. now symmetry. }
    assert (Hrm_len : List.length rm
                      = (List.length (cache_dir s) - cap)%nat).
    { unfold rm. rewrite firstn_length_le;
        unfold sorted_files; rewrite sort_by_length; lia. }
    assert (Hincl : incl (map fst rm) (map fst (cache_dir s))).
    { intros k Hk. apply in_map_iff in Hk as (y & <- & Hy).
      apply in_map. auto. }
    pose proof (remove_files_count undeletable rm (cache_dir s)
                  Hnd Hrm_nd Hincl) as Hlen.
    rewrite Hrm_len in Hlen.
    assert (Hgone : forall deleted,
               In deleted (cache_dir s) ->
               ~ In deleted (remove_files undeletable rm (cache_dir s)) ->
               In deleted rm /\ undeletable (fst deleted) = false).
    { intros deleted Hdd Hnot.
      rewrite remove_files_keeps in Hnot.
      destruct (undeletable (fst deleted)) eqn:Hu;
        [exfalso; apply Hnot; split; auto; intros [_ ?]; discriminate|].
      split; [|reflexivity].
      destruct (in_dec string_dec (fst deleted) (map fst rm)) as [Hi|Hn].
      - apply in_map_iff in Hi as (y & Hy & Hyin).
        rewrite (nodup_keys_inj (cache_dir s) deleted y Hnd Hdd); auto.
      - exfalso. apply Hnot. split; auto. tauto. }
    split; [|split; [|split; [|split]]].
    + lia.
    + intros x Hx. now apply remove_files_keeps in Hx.
    + intros deleted Hdd Hnot. now apply Hgone.
    + intros kept deleted Hk Hdd Hnot.
      destruct (Hgone deleted Hdd Hnot) as [Hdel _].
      apply remove_files_keeps in Hk as [Hkd Hkn].
      destruct (undeletable (fst kept)) eqn:Hu; [now right|left].
      assert (Hkeep : In kept (skipn (List.length sorted_files
                                      - cap) sorted_files)).
      { apply (sort_by_in older_first) in Hkd.
        destruct (in_firstn_or_skipn (List.length sorted_files
                                      - cap) _ _ Hkd)
          as [Hf|Hs]; auto.
        exfalso. apply Hkn. split; [now apply in_map|reflexivity]. }
      pose proof (@firstn_sort_by _ older_first older_first_total
                    older_first_trans _ _ _ _ Hdel Hkeep) as [Hord _].
      unfold older_first in Hord. now apply Z.leb_le in Hord.
    + intros Hund.
      assert (Hnone : filter (stuck undeletable) rm = []).
      { clear - Hund Hrm_in.
        induction rm as [|y rm IH]; simpl; auto.
        unfold stuck at 1. rewrite (Hund (fst y)).
        - apply IH. intros z Hz. apply Hrm_in. now right.
        - apply in_map. apply Hrm_in. now left. }
      rewrite Hnone in Hlen. simpl in Hlen. lia.
Qed.

Lemma eviction_keeps_most_recent_witness :
  let out := optimize_cache_with 2 1 Samples.deletable Samples.crowded_cache in
  List.length (memory_cache (snd out)) = 2%nat
  /\ List.length (cache_dir (snd out)) = 1%nat
  /\ map fst (memory_cache (snd out)) = ["q2"; "q3"]
  /\ map fst (cache_dir (snd out)) = ["q2"].
Proof.
  destruct (@eviction_keeps_most_recent 2 1 Samples.deletable
              Samples.crowded_cache
              ltac:(repeat constructor; simpl; intuition discriminate))
    as (_ & _ & _ & Hmem & _ & Hdir).
  destruct (Hmem ltac:(simpl; lia)) as (Hlen & _).
  destruct (Hdir ltac:(simpl; lia)) as (_ & _ & _ & _ & Hlen').
  split; [exact Hlen|].
  split; [exact (Hlen' (fun _ _ => eq_refl))|]. split; reflexivity.
Defined.

(** C8, counterexample.  With 1001 entries in the memory index, eviction
    drops the entry that was made last: its timestamp text, with a
    space for the [T], sorts below the texts of the thousand entries
    made before it.  And with 5001 record files of which the one
    modified first cannot be deleted, eviction leaves all 5001. *)
Lemma latest_entry_evicted :
  (let s := Samples.full_memory in
   let out := optimize_cache Samples.deletable s in
   let made_last := instant 2024 1 1 23 59 59 0 in
   List.length (memory_cache s) = 1001%nat
   /\ dict_get "latest" (memory_cache s) = Some Samples.spaced_record
   /\ created Samples.spaced_record = Some made_last
   /\ forallb (fun x => match created (snd x) with
                        | Some made => (made <? made_last)%Z
                        | None => false
                        end) (memory_cache (snd out)) = true
   /\ List.length (memory_cache (snd out)) = 1000%nat
   /\ dict_get "latest" (memory_cache (snd out)) = None)
  /\ (let s := Samples.full_directory in
      let out := optimize_cache Samples.oldest_stuck s in
      List.length (cache_dir s) = (5 * 1000 + 1)%nat
      /\ List.length (cache_dir (snd out)) = (5 * 1000 + 1)%nat).
Proof.
  vm_compute. intuition congruence.
Qed.

End EvictionFacts.

(** ** Rounding to the nearest float *)

Module FloatFacts.

Import PyFloat.
Local Open Scope Q_scope.

Lemma round_half_even_close x :
  x - (1 # 2) <= inject_Z (round_half_even x) <= x + (1 # 2).
Proof.
  unfold round_half_even.
  pose proof (Qfloor_le x) as Hlo.
  pose proof (Qlt_floor x) as Hhi.
  rewrite inject_Z_plus in Hhi.
  change (inject_Z 1) with 1 in Hhi.
  set (fl := Qfloor x) in *.
  destruct (Qcompare_spec (x - inject_Z fl) (1 # 2)) as [He|Hl|Hg].
  - destruct (Z.even fl); [|rewrite inject_Z_plus; change (inject_Z 1) with 1];
      split; lra.
  - split; lra.
  - rewrite inject_Z_plus. change (inject_Z 1) with 1. split; lra.
Qed.

Lemma round_half_even_nonneg x : 0 <= x -> (0 <= round_half_even x)%Z.
Proof.
  intros Hx. unfold round_half_even.
  assert (H0 : (0 <= Qfloor x)%Z).
  { change 0%Z with (Qfloor 0). now apply Qfloor_resp_le. }
  destruct (Qcompare _ _); [destruct (Z.even _)| |]; lia.
Qed.

Lemma two_to_the_pos k : 0 < 2 ^ k.
Proof. apply Qpower_0_lt. reflexivity. Qed.

Lemma two_to_the_pred k : 2 ^ (k - 1) == 2 ^ k * (1 # 2).
Proof.
  unfold Z.sub. rewrite Qpower_plus by discriminate. reflexivity.
Qed.

(** The exponent that [floor_log2] finds is not too high. *)
Lemma floor_log2_below x : 0 < x -> 2 ^ floor_log2 x <= x.
Proof.
  intros Hx. unfold floor_log2. destruct x as [n d]. simpl Qnum. simpl Qden.
  set (k := (Z.log2 n - Z.log2 (Z.pos d))%Z).
  destruct (Qle_bool (2 ^ k) (n # d)) eqn:Hk; [now apply Qle_bool_iff|].
  assert (Hn : (0 < n)%Z).
  { unfold Qlt in Hx. simpl in Hx. lia. }
  destruct (Z.log2_spec n Hn) as [Hlo _].
  destruct (Z.log2_spec (Z.pos d) (Pos2Z.is_pos d)) as [_ Hhi].
  pose proof (Z.log2_nonneg n) as Hln.
  pose proof (Z.log2_nonneg (Z.pos d)) as Hld.
  replace (k - 1)%Z with (Z.log2 n - Z.succ (Z.log2 (Z.pos d)))%Z
    by (unfold k; lia).
  rewrite Qpower_minus by discriminate.
  rewrite (Qmake_Qdiv n d).
  change 2 with (inject_Z 2).
  rewrite <- !Zpower_Qpower by lia.
  apply Qle_shift_div_l.
  { change 0 with (inject_Z 0). rewrite <- Zlt_Qlt. lia. }
  unfold Qdiv. rewrite <- Qmult_assoc, (Qmult_comm (/ _)), Qmult_assoc.
  apply Qle_shift_div_r.
  { change 0 with (inject_Z 0). rewrite <- Zlt_Qlt. lia. }
  rewrite <- !inject_Z_mult, <- Zle_Qle. nia.
Qed.

Lemma Qabs_of_pos x : 0 < x -> Qabs x = x.
Proof.
  destruct x as [n d]. unfold Qlt. simpl. intros H.
  f_equal. apply Z.abs_eq. lia.
Qed.

(** A float below [2 ^ k] has its last bit at [k - 53] or lower, so
    that rounding to the nearest float moves a number below [2 ^ k] by
    at most [2 ^ (k - 54)]. *)
Lemma nearest_close x k :
  0 <= x -> x < 2 ^ k -> (-1021 <= k)%Z ->
  x - 2 ^ (k - 54) <= nearest x <= x + 2 ^ (k - 54).
Proof.
  intros Hx Hk Hmin. unfold nearest.
  pose proof (two_to_the_pos (k - 54)) as Hpos.
  destruct (Qeq_bool x 0) eqn:H0.
  { apply Qeq_bool_iff in H0. rewrite H0. split; lra. }
  apply Qeq_bool_neq in H0.
  assert (Hx' : 0 < x).
  { apply Qle_lteq in Hx as [Hx|Hx]; auto. exfalso. apply H0. now symmetry. }
  set (e := last_bit x).
  assert (He : (e - 1 <= k - 54)%Z).
  { unfold e, last_bit. rewrite (Qabs_of_pos Hx').
    pose proof (floor_log2_below Hx') as Hfl.
    assert (Hlt : 2 ^ floor_log2 x < 2 ^ k) by lra.
    apply Qpower_lt_compat_l_inv in Hlt; [lia|reflexivity]. }
  assert (Hulp : 2 ^ e * (1 # 2) <= 2 ^ (k - 54)).
  { rewrite <- two_to_the_pred.
    apply Qpower_le_compat_l; [exact He|discriminate]. }
  pose proof (two_to_the_pos e) as Hp.
  pose proof (round_half_even_close (x / 2 ^ e)) as [Hlo Hhi].
  set (r := inject_Z (round_half_even (x / 2 ^ e))) in *.
  assert (Hy : x / 2 ^ e * 2 ^ e == x).
  { field. intros E. rewrite E in Hp. discriminate. }
  set (y := x / 2 ^ e) in *. set (p := 2 ^ e) in *.
  assert (H1 : (y - (1 # 2)) * p <= r * p)
    by (apply Qmult_le_compat_r; lra).
  assert (H2 : r * p <= (y + (1 # 2)) * p)
    by (apply Qmult_le_compat_r; lra).
  assert (E1 : (y - (1 # 2)) * p == x - p * (1 # 2))
    by (rewrite <- Hy; ring).
  assert (E2 : (y + (1 # 2)) * p == x + p * (1 # 2))
    by (rewrite <- Hy; ring).
  rewrite E1 in H1. rewrite E2 in H2. split; lra.
Qed.

Lemma nearest_nonneg x : 0 <= x -> 0 <= nearest x.
Proof.
  intros Hx. unfold nearest. destruct (Qeq_bool x 0); [lra|].
  pose proof (two_to_the_pos (last_bit x)) as Hp.
  apply Qmult_le_0_compat; [|lra].
  change 0 with (inject_Z 0). rewrite <- Zle_Qle.
  apply round_half_even_nonneg.
  apply Qle_shift_div_l; [exact Hp|lra].
Qed.

(** The rate that [get_cache_stats] shows for [h] hits in [t] requests
    is within half a hundredth, and the error of four roundings to a
    float, of the rate itself. *)
Lemma shown_rate_close (h t : nat) :
  (0 < t)%nat -> (h <= t)%nat ->
  let rate := inject_Z (Z.of_nat h) / inject_Z (Z.of_nat t) * 100 in
  let shown := round2 (mul (truediv (Z.of_nat h) (Z.of_nat t)) 100) in
  rate - (1 # 200) - (1 # 10 ^ 13) <= shown
  /\ shown <= rate + (1 # 200) + (1 # 10 ^ 13).
Proof.
  intros Ht Hh. cbv zeta. unfold round2, mul, truediv.
  set (X := inject_Z (Z.of_nat h) / inject_Z (Z.of_nat t)).
  assert (HtQ : 0 < inject_Z (Z.of_nat t)).
  { change 0 with (inject_Z 0). rewrite <- Zlt_Qlt. lia. }
  assert (HX0 : 0 <= X).
  { unfold X. apply Qle_shift_div_l; [exact HtQ|].
    rewrite Qmult_0_l. change 0 with (inject_Z 0). rewrite <- Zle_Qle. lia. }
  assert (HX1 : X <= 1).
  { unfold X. apply Qle_shift_div_r; [exact HtQ|].
    rewrite Qmult_1_l. rewrite <- Zle_Qle. lia. }
  assert (P1 : 2 ^ (1 - 54) == 1 # 9007199254740992) by reflexivity.
  assert (P7 : 2 ^ (7 - 54) == 1 # 140737488355328) by reflexivity.
  assert (P8 : 2 ^ (8 - 54) == 1 # 70368744177664) by reflexivity.
  pose proof (@nearest_close X 1 HX0) as H1.
  rewrite P1 in H1. specialize (H1 ltac:(change (2 ^ 1) with 2; lra)
                                   ltac:(lia)).
  pose proof (nearest_nonneg HX0) as N1.
  set (x1 := nearest X) in *.
  assert (N1' : 0 <= x1 * 100) by lra.
  pose proof (@nearest_close (x1 * 100) 7 N1') as H2.
  rewrite P7 in H2.
  specialize (H2 ltac:(change (2 ^ 7) with 128; lra) ltac:(lia)).
  pose proof (nearest_nonneg N1') as N2.
  set (x2 := nearest (x1 * 100)) in *.
  pose proof (round_half_even_close (x2 * 100)) as H3.
  assert (N3 : 0 <= inject_Z (round_half_even (x2 * 100))).
  { change 0 with (inject_Z 0). rewrite <- Zle_Qle.
    apply round_half_even_nonneg. lra. }
  set (r := inject_Z (round_half_even (x2 * 100))) in *.
  assert (Hd : r / 100 == r * (1 # 100)) by (unfold Qdiv; reflexivity).
  assert (N4 : 0 <= r / 100) by (rewrite Hd; lra).
  pose proof (@nearest_close (r / 100) 8 N4) as H4.
  rewrite P8 in H4.
  specialize (H4 ltac:(change (2 ^ 8) with 256; rewrite Hd; lra)
                 ltac:(lia)).
  set (shown := nearest (r / 100)) in *. rewrite Hd in H4.
  assert (C13 : (1 # 10 ^ 13) == 1 # 10000000000000) by reflexivity.
  rewrite C13. split; lra.
Qed.

End FloatFacts.

(** ** The counters of the cache *)

Module CounterFacts.

Import PyStr Py Cag SortFacts CagFacts EvictionFacts FloatFacts.
Local Open Scope string_scope.

Lemma remove_files_subset undeletable rm : forall dir x,
  In x (remove_files undeletable rm dir) -> In x dir.
Proof.
  induction rm as [|[k f] rm IH]; intros dir x; simpl; auto.
  intros H. apply IH in H. destruct (undeletable k); auto.
  now apply in_dict_del in H.
Qed.

Lemma forallb_subset {A} (f : A -> bool) (l l' : list A) :
  (forall x, In x l' -> In x l) -> forallb f l = true -> forallb f l' = true.
Proof.
  intros Hsub H. rewrite forallb_forall in *. auto.
Qed.

Section WithHash.

Variable md5 : string -> string.

(** A store adds a record that has its response and leaves the counters
    alone. *)
Lemma store_step e q r d src meta s :
  responses_present s = true ->
  let s' := snd (cache_response md5 e q r d src meta s) in
  responses_present s' = true /\ cache_stats s' = cache_stats s.
Proof.
  unfold responses_present. intros H. apply andb_prop in H as [Hm Hd].
  cbv [cache_response _store_persistent_cache write_file bind ret raise
       gets modify try_except any_exception].
  destruct (write e); simpl; (split; [|reflexivity]);
    apply andb_true_intro; split; auto;
    try (apply (forallb_dict_set has_response); auto);
    try (apply (forallb_dict_set file_has_response); auto).
Qed.

(** Eviction keeps a part of the records and leaves the counters
    alone. *)
Lemma optimize_step max_mem max_files undeletable s :
  responses_present s = true ->
  let s' := snd (optimize_cache_with max_mem max_files undeletable s) in
  responses_present s' = true /\ cache_stats s' = cache_stats s.
Proof.
  unfold responses_present. intros H. apply andb_prop in H as [Hm Hd].
  destruct (optimize_cache_with_result max_mem max_files undeletable s)
    as (_ & Hmem & Hdir). cbv zeta in *.
  split.
  - rewrite Hmem, Hdir. apply andb_true_intro. split.
    + destruct (max_mem <? List.length (memory_cache s))%nat; auto.
      eapply forallb_subset; [|exact Hm].
      intros x Hx. apply in_firstn in Hx. now apply sort_by_in in Hx.
    + destruct (max_files <? List.length (cache_dir s))%nat; auto.
      eapply forallb_subset; [|exact Hd].
      intros x Hx. now apply remove_files_subset in Hx.
  - unfold optimize_cache_with.
    cbv [bind ret gets modify try_except any_exception]. simpl.
    destruct (max_mem <? List.length (memory_cache s))%nat; simpl;
      destruct (max_files <? List.length (cache_dir s))%nat; reflexivity.
Qed.

Lemma run_calls_counters calls : forall s,
  responses_present s = true ->
  let s' := run_calls md5 calls s in
  responses_present s' = true
  /\ total_requests (cache_stats s')
     = (total_requests (cache_stats s) + count_lookups calls)%nat
  /\ (hits (cache_stats s) <= hits (cache_stats s'))%nat
  /\ (misses (cache_stats s) <= misses (cache_stats s'))%nat
  /\ (hits (cache_stats s') + misses (cache_stats s')
      = hits (cache_stats s) + misses (cache_stats s)
        + count_lookups calls)%nat.
Proof.
  unfold count_lookups.
  induction calls as [|c calls IH]; intros s Hs.
  - simpl. repeat split; auto; lia.
  - change (run_calls md5 (c :: calls) s)
      with (run_calls md5 calls (run_call md5 c s)).
    destruct c as [e q|e q r d src meta|und]; simpl filter; simpl List.length.
    + destruct (lookup_step md5 e q s Hs) as (Hs1 & Ht & Hhm).
      destruct (IH _ Hs1) as (Hs2 & Ht2 & Hh2 & Hm2 & Hsum).
      simpl run_call in *. cbv zeta in *.
      split; [assumption|]. repeat split; lia.
    + destruct (store_step e q r d src meta s Hs) as (Hs1 & Hst).
      destruct (IH _ Hs1) as (Hs2 & Ht2 & Hh2 & Hm2 & Hsum).
      simpl run_call in *. cbv zeta in *. rewrite Hst in *.
      split; [assumption|]. repeat split; lia.
    + destruct (optimize_step 1000 5000 und s Hs) as (Hs1 & Hst).
      destruct (IH _ Hs1) as (Hs2 & Ht2 & Hh2 & Hm2 & Hsum).
      simpl run_call in *. unfold optimize_cache in *. cbv zeta in *.
      rewrite Hst in *.
      split; [assumption|]. repeat split; lia.
Qed.

(** C10, as the code has it.  In a cache all of whose records have
    their response, along any run of lookups, stores and evictions the
    request counter goes up by the number of lookups and, lookup by
    lookup, exactly one of the hit and miss counters goes up by one,
    while stores and evictions leave the counters alone; so
    [hits + misses = total_requests] is kept, and so is
    [hits <= total_requests].  The reported rate is 0 when there were no
    requests; otherwise it is [hits / total_requests * 100] worked out
    on floats and rounded to two decimals, which is within half a
    hundredth and a ten-million-millionth of the rate itself. *)
Theorem cache_counters (calls : list cache_call) (s : state) :
  responses_present s = true ->
  let c := cache_stats s in
  let c' := cache_stats (run_calls md5 calls s) in
  let report := get_cache_stats (run_calls md5 calls s) in
  total_requests c' = (total_requests c + count_lookups calls)%nat
  /\ (hits c <= hits c')%nat
  /\ (misses c <= misses c')%nat
  /\ (hits c' + misses c'
      = hits c + misses c + count_lookups calls)%nat
  /\ ((hits c + misses c = total_requests c)%nat ->
      (hits c' + misses c' = total_requests c')%nat)
  /\ ((hits c <= total_requests c)%nat ->
      (hits c' <= total_requests c')%nat)
  /\ (total_requests c' = 0%nat -> hit_rate_percentage report == 0)
  /\ ((0 < total_requests c')%nat ->
      (hits c <= total_requests c)%nat ->
      let rate := inject_Z (Z.of_nat (hits c'))
                  / inject_Z (Z.of_nat (total_requests c')) * 100 in
      rate - (1 # 200) - (1 # 10 ^ 13) <= hit_rate_percentage report
      /\ hit_rate_percentage report <= rate + (1 # 200) + (1 # 10 ^ 13)).
Proof.
  intros Hs. cbv zeta.
  destruct (run_calls_counters calls s Hs) as (_ & Ht & Hh & Hm & Hsum).
  set (s' := run_calls md5 calls s) in *.
  split; [exact Ht|]. split; [exact Hh|]. split; [exact Hm|].
  split; [exact Hsum|]. split; [lia|]. split; [lia|]. split.
  - intros H0. unfold get_cache_stats, hit_rate. simpl. rewrite H0.
    reflexivity.
  - intros Hpos Hle. unfold get_cache_stats, hit_rate. simpl.
    destruct (Nat.ltb_spec 0 (total_requests (cache_stats s'))); [|lia].
    apply shown_rate_close; lia.
Qed.

End WithHash.

(** C10, counterexample: a record file with a timestamp and no response
    makes one lookup count both a hit and a miss; and with one hit in
    three requests the reported rate is the float nearest to 33.33, not
    100/3. *)
Lemma counters_counterexample :
  (let c := cache_stats
              (run_calls plain_digest
                 [Lookup (Samples.env_at 0) Samples.water_query]
                 (Samples.cache_with_file
                    (JsonObject Samples.record_without_response))) in
   hits c = 1%nat /\ misses c = 1%nat /\ total_requests c = 1%nat
   /\ (hits c + misses c)%nat <> total_requests c)
  /\ (let report := get_cache_stats Samples.one_hit_in_three in
      hit_rate_percentage report == PyFloat.nearest (3333 # 100)
      /\ ~ hit_rate_percentage report == (1 # 3) * 100).
Proof.
  split.
  - cbv zeta. repeat split. discriminate.
  - cbv zeta. split; [reflexivity|]. intros H. vm_compute in H. discriminate.
Qed.

(** With 23 hits in 160 requests the rate is 14.375, between two
    hundredths; the float that [hits / total_requests * 100] gives lies
    below it, and the reported rate is the float nearest to 14.37. *)
Example rate_between_hundredths :
  let report := get_cache_stats Samples.hits_23_in_160 in
  inject_Z 23 / inject_Z 160 * 100 == 14375 # 1000
  /\ hit_rate (cache_stats Samples.hits_23_in_160) < 14375 # 1000
  /\ hit_rate_percentage report == PyFloat.nearest (1437 # 100).
Proof. cbv zeta. split; [reflexivity|]. split; reflexivity. Qed.

Lemma cache_counters_witness :
  let calls :=
    [ Store (Samples.env_at 0) Samples.water_query Samples.water_response
            "Chennai Metro Water" None None;
      Lookup (Samples.env_at 1) Samples.water_query;
      Optimize Samples.deletable;
      Lookup (Samples.env_at Samples.one_day) Samples.water_query ] in
  let c' := cache_stats (run_calls plain_digest calls (Samples.empty_cache 24))
  in
  total_requests c' = 2%nat
  /\ (hits c' + misses c')%nat = total_requests c'.
Proof.
  destruct (@cache_counters plain_digest
              [ Store (Samples.env_at 0) Samples.water_query
                      Samples.water_response "Chennai Metro Water" None None;
                Lookup (Samples.env_at 1) Samples.water_query;
                Optimize Samples.deletable;
                Lookup (Samples.env_at Samples.one_day) Samples.water_query ]
              (Samples.empty_cache 24) eq_refl)
    as (Ht & _ & _ & _ & Hinv & _).
  split; [exact Ht|]. apply Hinv. reflexivity.
Defined.

End CounterFacts.

(** ** Reasoning about computations that may raise *)

Module TripleFacts.

Import Py.

Section Rules.

Variables (S : Type) (P : S -> Prop).

Lemma triple_ret A (a : A) (Q : A -> Prop) : Q a -> triple P (ret a) Q.
Proof. intros Ha s Hs res s' [= <- <-]. split; auto. now intros ? [= <-]. Qed.

Lemma triple_raise A (ex : exn) (Q : A -> Prop) : triple P (raise ex) Q.
Proof. intros s Hs res s' [= <- <-]. split; auto. discriminate. Qed.

Lemma triple_gets A (f : S -> A) (Q : A -> Prop) :
  (forall s, P s -> Q (f s)) -> triple P (gets f) Q.
Proof. intros H s Hs res s' [= <- <-]. split; auto. intros ? [= <-]. auto. Qed.

Lemma triple_modify (f : S -> S) (Q : unit -> Prop) :
  (forall s, P s -> P (f s)) -> Q tt -> triple P (modify f) Q.
Proof. intros H Hq s Hs res s' [= <- <-]. split; auto. now intros ? [= <-]. Qed.

Lemma triple_bind A B (m : M S A) (k : A -> M S B) (Q1 : A -> Prop)
      (Q2 : B -> Prop) :
  triple P m Q1 -> (forall a, Q1 a -> triple P (k a) Q2) ->
  triple P (bind m k) Q2.
Proof.
  intros Hm Hk s Hs res s'. unfold bind.
  destruct (m s) as [[a|ex] s1] eqn:Hms.
  - destruct (Hm s Hs _ _ Hms) as [Hs1 Ha]. intros Hks.
    exact (Hk a (Ha a eq_refl) s1 Hs1 _ _ Hks).
  - destruct (Hm s Hs _ _ Hms) as [Hs1 _]. intros [= <- <-].
    split; auto. discriminate.
Qed.

Lemma triple_try A (m : M S A) handler (Q : A -> Prop) :
  triple P m Q ->
  (forall ex h, handler ex = Some h -> triple P h Q) ->
  triple P (try_except m handler) Q.
Proof.
  intros Hm Hh s Hs res s'. unfold try_except.
  destruct (m s) as [[a|ex] s1] eqn:Hms.
  - intros [= <- <-]. exact (Hm s Hs _ _ Hms).
  - destruct (Hm s Hs _ _ Hms) as [Hs1 _].
    destruct (handler ex) as [h|] eqn:Hex.
    + intros Hh1. exact (Hh ex h Hex s1 Hs1 _ _ Hh1).
    + intros [= <- <-]. split; auto. discriminate.
Qed.

Lemma triple_weaken A (m : M S A) (Q Q' : A -> Prop) :
  triple P m Q -> (forall a, Q a -> Q' a) -> triple P m Q'.
Proof.
  intros Hm Hq s Hs res s' Hr. destruct (Hm s Hs _ _ Hr) as [Hs' Ha].
  split; auto.
Qed.

End Rules.
End TripleFacts.

(** ** The query pipeline *)

Module PipelineFacts.

Import PyStr Py App TripleFacts CagFacts.
Local Open Scope string_scope.

Lemma fallback_response_nonempty ar it ci :
  generate_fallback_response ar it ci <> "".
Proof. unfold generate_fallback_response, nl. simpl. discriminate. Qed.

Lemma apology_nonempty : apology <> "".
Proof. discriminate. Qed.

Lemma ai_response_nonempty e q ci model :
  generation_nonblank e -> generate_ai_response e q ci model <> "".
Proof.
  intros Hgen. unfold generate_ai_response.
  destruct (generate e model (system_prompt ci) q) eqn:Hg.
  - eapply Hgen; eauto.
  - apply fallback_response_nonempty.
Qed.

(** The steps that leave the application as it is keep any invariant. *)
Section AnyInvariant.

Variable P : app -> Prop.

Lemma triple_checkpoint e st : triple P (checkpoint e st) anything.
Proof.
  unfold checkpoint. destruct (fault e st).
  - apply triple_raise.
  - now apply triple_ret.
Qed.

Lemma triple_retrieve e it :
  triple P (retrieve_civic_information e it) anything.
Proof.
  unfold retrieve_civic_information.
  apply triple_bind with (Q1 := anything); [now apply triple_gets|].
  intros cs _.
  apply triple_bind with (Q1 := anything); [now apply triple_gets|].
  intros rag _.
  apply triple_bind with (Q1 := anything).
  - destruct rag; [|now apply triple_ret].
    apply triple_try.
    + destruct (rag_outcome e); try (now apply triple_ret).
      apply triple_raise.
    + intros ex h [= <-]. now apply triple_ret.
  - intros [info|] _; now apply triple_ret.
Qed.

Lemma triple_reasoning e ar it :
  triple P (apply_knowledge_graph_reasoning e ar it) anything.
Proof.
  unfold apply_knowledge_graph_reasoning.
  apply triple_bind with (Q1 := anything); [now apply triple_gets|].
  intros kag _.
  apply triple_bind with (Q1 := anything).
  - destruct kag; [|now apply triple_ret].
    apply triple_try.
    + destruct (kag_outcome e); try (now apply triple_ret).
      apply triple_raise.
    + intros ex h [= <-]. now apply triple_ret.
  - intros [rs|] _; now apply triple_ret.
Qed.

Lemma triple_subscript c (Q : string -> Prop) :
  (forall en, c = Some (CachedEntry en) -> Q (entry_response en)) ->
  triple P (subscript_response c) Q.
Proof.
  intros Hc. unfold subscript_response.
  destruct c as [[en|t]|]; try apply triple_raise.
  apply triple_ret. now apply Hc.
Qed.

Lemma triple_get_sources c : triple P (get_sources c) anything.
Proof.
  unfold get_sources. destruct c as [[en|t]|]; try apply triple_raise.
  now apply triple_ret.
Qed.

Lemma triple_get_department c : triple P (get_department c) anything.
Proof.
  unfold get_department. destruct c as [[en|t]|]; try apply triple_raise.
  now apply triple_ret.
Qed.

(** The miss branch of [pipeline_steps] from step 2 on, given that the
    cache write keeps the invariant. *)
Hypothesis keeps_fl : forall f a, P a -> P (set_fl_manager f a).
Hypothesis keeps_times : forall f a, P a -> P (set_response_times f a).

Lemma triple_tail (m : M app unit) (r : pipeline_result)
      (Q : pipeline_result -> Prop) e t :
  triple P m anything -> Q r ->
  triple P (bind m (fun _ =>
            bind (checkpoint e Record_) (fun _ =>
            bind (modify (set_fl_manager (option_map S))) (fun _ =>
            bind (modify (set_response_times
                            (fun ts => (ts ++ [t])%list))) (fun _ =>
            ret r))))) Q.
Proof.
  intros Hm Hq.
  eapply triple_bind; [exact Hm|]. intros _ _.
  eapply triple_bind; [apply triple_checkpoint|]. intros _ _.
  eapply triple_bind with (Q1 := anything);
    [apply triple_modify; [apply keeps_fl|exact I]|]. intros _ _.
  eapply triple_bind with (Q1 := anything);
    [apply triple_modify; [apply keeps_times|exact I]|]. intros _ _.
  now apply triple_ret.
Qed.

End AnyInvariant.

Section WithHash.

Variable md5 : string -> string.

Lemma triple_check_cache e q :
  triple cached_responses_nonempty (check_cache md5 e q) hit_nonempty.
Proof.
  intros s Hs res s'. unfold check_cache, bind, gets, ret, on_cache_object.
  unfold cached_responses_nonempty in Hs.
  destruct (cache_module s) as [c|d] eqn:Hc.
  - destruct (Cag.get_cached_response md5 (lookup_env e) q c) as [[t|ex] c'].
    + intros [= <- <-]. split; [exact I|]. intros a [= <-] en.
      destruct t; discriminate.
    + intros [= <- <-]. split; [exact I|]. discriminate.
  - intros [= <- <-]. split.
    + unfold cached_responses_nonempty. now rewrite Hc.
    + intros a [= <-] en Hen.
      destruct (dict_get (md5 (lower q)) d) as [en'|] eqn:Hg; [|discriminate].
      injection Hen as <-.
      apply (Hs (md5 (lower q))). now apply dict_get_in.
Qed.

Lemma triple_cache_response e q r d :
  r <> "" ->
  triple cached_responses_nonempty (cache_response md5 e q r d) anything.
Proof.
  intros Hr s Hs res s'.
  unfold cache_response, bind, gets, modify, on_cache_object.
  unfold cached_responses_nonempty in Hs.
  destruct (cache_module s) as [c|dd] eqn:Hc.
  - destruct (Cag.cache_response md5 (store_env e) q r d None None c)
      as [[t|ex] c'];
      intros [= <- <-]; (split; [exact I|]); easy.
  - intros [= <- <-]. split; [|easy].
    unfold cached_responses_nonempty. simpl.
    intros k en Hin. apply in_dict_set in Hin as [[= -> ->]|Hin]; eauto.
Qed.

Lemma triple_pipeline_steps e q model :
  generation_nonblank e ->
  triple cached_responses_nonempty (pipeline_steps md5 e q model)
         response_nonempty.
Proof.
  intros Hgen. unfold pipeline_steps.
  eapply triple_bind; [apply triple_checkpoint|]. intros _ _.
  eapply triple_bind; [apply triple_check_cache|]. intros c Hc.
  destruct (truthy c).
  - eapply triple_bind with (Q1 := fun r => r <> "");
      [apply triple_subscript; exact Hc|]. intros r Hr.
    eapply triple_bind; [apply triple_get_sources|]. intros srcs _.
    eapply triple_bind; [apply triple_get_department|]. intros d _.
    now apply triple_ret.
  - eapply triple_bind; [apply triple_checkpoint|]. intros _ _.
    eapply triple_bind with (Q1 := anything); [now apply triple_gets|].
    intros cs _.
    eapply triple_bind; [apply triple_checkpoint|]. intros _ _.
    eapply triple_bind; [apply triple_retrieve|]. intros ci _.
    eapply triple_bind; [apply triple_checkpoint|]. intros _ _.
    eapply triple_bind; [apply triple_reasoning|]. intros recs _.
    eapply triple_bind; [apply triple_checkpoint|]. intros _ _.
    eapply triple_bind with (Q1 := anything); [now apply triple_gets|].
    intros key _.
    assert (Hresp : (if key
                     then generate_ai_response e q ci model
                     else generate_fallback_response
                            (Some (identify_area_from_query cs q))
                            (identify_issue_type q) ci) <> "").
    { destruct key; [now apply ai_response_nonempty
                    |apply fallback_response_nonempty]. }
    eapply triple_bind; [apply triple_checkpoint|]. intros _ _.
    apply triple_tail; auto.
    now apply triple_cache_response.
Qed.

Lemma triple_process e q model :
  generation_nonblank e ->
  triple cached_responses_nonempty (process_civic_query md5 e q model)
         response_nonempty.
Proof.
  intros Hgen. unfold process_civic_query. apply triple_try.
  - now apply triple_pipeline_steps.
  - intros ex h [= <-]. apply triple_ret. exact apology_nonempty.
Qed.

(** *** On a [CacheModule] no run reports a hit *)

Lemma triple_check_cache_object e q :
  triple uses_cache_object (check_cache md5 e q) not_an_entry.
Proof.
  intros s Hs res s'. unfold check_cache, bind, gets, ret, on_cache_object.
  unfold uses_cache_object in Hs.
  destruct (cache_module s) as [c|d] eqn:Hc; [|contradiction].
  destruct (Cag.get_cached_response md5 (lookup_env e) q c) as [[t|ex] c'];
    intros [= <- <-]; (split; [exact I|]).
  - intros a [= <-] en. destruct t; discriminate.
  - discriminate.
Qed.

Lemma triple_cache_response_object e q r d :
  triple uses_cache_object (cache_response md5 e q r d) anything.
Proof.
  intros s Hs res s'.
  unfold cache_response, bind, gets, modify, on_cache_object.
  unfold uses_cache_object in Hs.
  destruct (cache_module s) as [c|dd] eqn:Hc; [|contradiction].
  destruct (Cag.cache_response md5 (store_env e) q r d None None c)
    as [[t|ex] c'];
    intros [= <- <-]; (split; [exact I|]); easy.
Qed.

Lemma triple_process_object e q model :
  triple uses_cache_object (process_civic_query md5 e q model) reports_miss.
Proof.
  unfold process_civic_query. apply triple_try.
  - unfold pipeline_steps.
    eapply triple_bind; [apply triple_checkpoint|]. intros _ _.
    eapply triple_bind; [apply triple_check_cache_object|]. intros c Hc.
    destruct (truthy c).
    + eapply triple_bind with (Q1 := fun _ => False).
      * apply triple_subscript. intros en Hen. exact (Hc en Hen).
      * intros r [].
    + eapply triple_bind; [apply triple_checkpoint|]. intros _ _.
      eapply triple_bind with (Q1 := anything); [now apply triple_gets|].
      intros cs _.
      eapply triple_bind; [apply triple_checkpoint|]. intros _ _.
      eapply triple_bind; [apply triple_retrieve|]. intros ci _.
      eapply triple_bind; [apply triple_checkpoint|]. intros _ _.
      eapply triple_bind; [apply triple_reasoning|]. intros recs _.
      eapply triple_bind; [apply triple_checkpoint|]. intros _ _.
      eapply triple_bind with (Q1 := anything); [now apply triple_gets|].
      intros key _.
      eapply triple_bind; [apply triple_checkpoint|]. intros _ _.
      apply triple_tail; auto.
      * apply triple_cache_response_object.
      * reflexivity.
  - intros ex h [= <-]. now apply triple_ret.
Qed.

(** On the application with its [CacheModule], whatever the query, the
    state of the cache and the surroundings, the result never reports a
    cache hit. *)
Lemma cache_object_never_reports_hit e q model a r :
  uses_cache_object a ->
  fst (process_civic_query md5 e q model a) = Ok r ->
  cache_hit r = false.
Proof.
  intros Ha Hr.
  destruct (process_civic_query md5 e q model a) as [res a'] eqn:Hout.
  destruct (@triple_process_object e q model a Ha _ _ Hout) as [_ Hres].
  now apply Hres.
Qed.

(** C1, as the code has it.  Whatever the query, the model name and the
    surroundings, [process_civic_query] returns a result and raises
    nothing; when its [try] block raises, at whatever stage, the result
    is the fixed apology with department System, no cache hit, no
    sources and the time elapsed between the start and the handler;
    otherwise it is what the block returned.  The response text is not
    empty provided that the generative call, when it answers, answers
    with more than blanks and that the dictionary stand-in of the cache
    holds no empty response, which a run does not change. *)
Theorem pipeline_always_answers (e : pipeline_env) (query model : string)
        (a : app) :
  let out := process_civic_query md5 e query model a in
  (exists r, fst out = Ok r)
  /\ (forall ex a',
         pipeline_steps md5 e query model a = (Raise ex, a') ->
         out = (Ok (fault_result e ex), a')
         /\ response (fault_result e ex) = apology
         /\ department (fault_result e ex) = "System"
         /\ cache_hit (fault_result e ex) = false
         /\ processing_time (fault_result e ex)
            = (end_clock e - start_clock e)%Z)
  /\ (forall r a',
         pipeline_steps md5 e query model a = (Ok r, a') ->
         out = (Ok r, a'))
  /\ (generation_nonblank e -> cached_responses_nonempty a ->
      cached_responses_nonempty (snd out)
      /\ forall r, fst out = Ok r -> response r <> "").
Proof.
  cbv zeta. unfold process_civic_query at 1 2 3, try_except.
  split; [|split; [|split]].
  - destruct (pipeline_steps md5 e query model a) as [[r|ex] a']; simpl; eauto.
  - intros ex a' ->. simpl. auto.
  - intros r a' ->. reflexivity.
  - intros Hgen Ha.
    destruct (process_civic_query md5 e query model a) as [res a'] eqn:Hout.
    destruct (@triple_process e query model Hgen a Ha _ _ Hout)
      as [Ha' Hres].
    simpl. split; [exact Ha'|]. intros r Hr. exact (Hres r Hr).
Qed.

End WithHash.

Lemma worded_generation_nonblank :
  generation_nonblank Samples.worded_generation.
Proof.
  intros model prompt query text [= <-]. vm_compute. discriminate.
Defined.

Lemma pipeline_always_answers_witness :
  (exists r, fst (process_civic_query plain_digest Samples.worded_generation
                    Samples.water_query "gpt-4" (Samples.full_app true))
             = Ok r
             /\ response r <> "")
  /\ fst (process_civic_query plain_digest Samples.classify_fault
            Samples.water_query "gpt-4" (Samples.full_app true))
     = Ok (fault_result Samples.classify_fault AttributeError).
Proof.
  split.
  - destruct (@pipeline_always_answers plain_digest Samples.worded_generation
                Samples.water_query "gpt-4" (Samples.full_app true))
      as ((r & Hr) & _ & _ & Hne).
    exists r. split; [exact Hr|].
    exact (proj2 (Hne worded_generation_nonblank I) r Hr).
  - destruct (@pipeline_always_answers plain_digest Samples.classify_fault
                Samples.water_query "gpt-4" (Samples.full_app true))
      as (_ & Hfault & _).
    destruct (Hfault AttributeError _ eq_refl) as (Hout & _).
    now rewrite Hout.
Defined.

(** C1, counterexample: with an API key set and a generative call that
    answers with blanks, the run is a plain cache miss and the response
    text is empty. *)
Lemma blank_generation_gives_empty_response :
  exists r,
    fst (process_civic_query plain_digest Samples.blank_generation
           Samples.water_query "gpt-4" (Samples.full_app true))
    = Ok r
    /\ response r = ""
    /\ cache_hit r = false
    /\ department r = "Chennai Metro Water"
    /\ error r = None.
Proof. eexists. split; [vm_compute; reflexivity|]. repeat split. Qed.

(** C2 at a concrete query, on the application with its [CacheModule]:
    the first submission misses and is cached; the second, made while
    the entry is fresh, gets the response text back from the cache,
    fails to index it, and ends in the fault result.  On the dictionary
    stand-in of the cache the same two submissions give a miss and then
    a hit with the same department. *)
Theorem second_submission_faults :
  (let first := process_civic_query plain_digest Samples.quiet_run
                  Samples.water_query "gpt-3.5-turbo"
                  (Samples.full_app false) in
   let second := process_civic_query plain_digest Samples.quiet_run
                   Samples.water_query "gpt-3.5-turbo" (snd first) in
   (exists r1, fst first = Ok r1 /\ cache_hit r1 = false
               /\ department r1 = "Chennai Metro Water")
   /\ (exists r2, fst second = Ok r2 /\ cache_hit r2 = false
                  /\ department r2 = "System"
                  /\ error r2 = Some TypeError))
  /\ (let first := process_civic_query plain_digest Samples.quiet_run
                     Samples.water_query "gpt-3.5-turbo"
                     (Samples.basic_app false) in
      let second := process_civic_query plain_digest Samples.quiet_run
                      Samples.water_query "gpt-3.5-turbo" (snd first) in
      exists r1 r2, fst first = Ok r1 /\ fst second = Ok r2
                    /\ cache_hit r1 = false /\ cache_hit r2 = true
                    /\ department r2 = department r1).
Proof.
  split; [split|].
  - eexists. split; [vm_compute; reflexivity|]. split; reflexivity.
  - eexists. split; [vm_compute; reflexivity|]. repeat split.
  - eexists. eexists. split; [vm_compute; reflexivity|].
    split; [vm_compute; reflexivity|]. repeat split.
Qed.

End PipelineFacts.

(** ** Searching the cache *)

Module SearchFacts.

Import PyStr Py Cag.
Local Open Scope string_scope.
Local Open Scope nat_scope.

(** An occurrence is counted, and only occurrences are. *)
Lemma count_from_occurs sub s :
  sub <> "" -> contains sub s = true -> 1 <= count_from sub 0 s.
Proof.
  intros Hsub. induction s as [|c s IH].
  - destruct sub; [contradiction|discriminate].
  - intros H. cbn [count_from].
    destruct (starts_with sub (String c s)) eqn:Hs; [lia|].
    cbn [contains] in H. rewrite Hs in H. simpl in H. auto.
Qed.

Lemma count_from_contains sub s : forall skip,
  1 <= count_from sub skip s -> contains sub s = true.
Proof.
  induction s as [|c s IH]; intros skip H.
  - simpl in H. lia.
  - cbn [count_from] in H. cbn [contains].
    destruct skip as [|k].
    + destruct (starts_with sub (String c s)) eqn:Hs; [reflexivity|].
      simpl. eauto.
    + rewrite (IH _ H). apply orb_true_r.
Qed.

Lemma contains_empty s : contains "" s = true.
Proof. destruct s; reflexivity. Qed.

Lemma count_occurs sub s : contains sub s = true <-> 1 <= count sub s.
Proof.
  destruct sub as [|a sub].
  - simpl. split; [lia|]. intros _. apply contains_empty.
  - unfold count. split.
    + apply count_from_occurs. discriminate.
    + apply count_from_contains.
Qed.

(** What the loop collects. *)
Lemma search_items_in t items r :
  In r (search_items t items) <->
  exists cache_key item,
    In (cache_key, item) items
    /\ contains t (lower (item_get (item_query item) ""))
       || contains t (lower (item_get (item_response item) "")) = true
    /\ r = {| result_query := take 100 (item_get (item_query item) "");
              result_response := take 200 (item_get (item_response item) "");
              result_department := item_get (item_department item) "Unknown";
              relevance_score :=
                _calculate_relevance t
                  (lower (item_get (item_query item) ""))
                  (lower (item_get (item_response item) "")) |}.
Proof.
  induction items as [|[k it] items IH]; simpl.
  - split; [tauto|]. intros (? & ? & [] & _).
  - destruct (contains t (lower (item_get (item_query it) ""))
              || contains t (lower (item_get (item_response it) ""))) eqn:Hhit.
    + simpl. rewrite IH. split.
      * intros [<-|(k' & it' & Hin & Hh & ->)].
        -- exists k, it. auto.
        -- exists k', it'. auto.
      * intros (k' & it' & [[= <- <-]|Hin] & Hh & ->); [now left|].
        right. exists k', it'. auto.
    + rewrite IH. split.
      * intros (k' & it' & Hin & Hh & ->). exists k', it'. auto.
      * intros (k' & it' & [[= <- <-]|Hin] & Hh & ->); [congruence|].
        exists k', it'. auto.
Qed.

Lemma search_items_length t items :
  List.length (search_items t items) <= List.length items.
Proof.
  induction items as [|[k it] items IH]; simpl; auto.
  destruct (_ || _); simpl; lia.
Qed.

Lemma higher_score_first_total x y :
  higher_score_first x y = true \/ higher_score_first y x = true.
Proof.
  unfold higher_score_first.
  destruct (Nat.leb_spec (relevance_score y) (relevance_score x)); auto.
  right. apply Nat.leb_le. lia.
Qed.

Lemma higher_score_first_trans x y z :
  higher_score_first x y = true -> higher_score_first y z = true ->
  higher_score_first x z = true.
Proof.
  unfold higher_score_first. rewrite !Nat.leb_le. lia.
Qed.

Lemma sorted_firstn {A} (R : A -> A -> Prop) n : forall l,
  StronglySorted R l -> StronglySorted R (firstn n l).
Proof.
  induction n as [|n IH]; intros l H; simpl; [constructor|].
  destruct l as [|x l]; [constructor|].
  inversion H as [|? ? Hs Hall]; subst. constructor; auto.
  rewrite Forall_forall in *. intros y Hy. apply Hall.
  eapply EvictionFacts.in_firstn; eauto.
Qed.

Lemma sorted_impl {A} (R R' : A -> A -> Prop) l :
  (forall a b, R a b -> R' a b) ->
  StronglySorted R l -> StronglySorted R' l.
Proof.
  intros HR. induction 1 as [|x l Hs IH Hall]; constructor; auto.
  rewrite Forall_forall in *. auto.
Qed.

(** X1.  Every result of a search stems from an entry of the memory index
    that has the term, whatever the case of its letters, in its query or
    in its response; so its score is at least 1. *)
Theorem search_results_match (search_term : string) (s : state)
        (r : search_result) :
  In r (search_cache search_term s) ->
  1 <= relevance_score r
  /\ exists cache_key item,
       In (cache_key, item) (memory_cache s)
       /\ (contains (lower search_term)
                    (lower (item_get (item_query item) "")) = true
           \/ contains (lower search_term)
                       (lower (item_get (item_response item) "")) = true)
       /\ result_query r = take 100 (item_get (item_query item) "")
       /\ result_response r = take 200 (item_get (item_response item) "")
       /\ result_department r = item_get (item_department item) "Unknown"
       /\ relevance_score r
          = count (lower search_term) (lower (item_get (item_query item) ""))
            * 2
            + count (lower search_term)
                    (lower (item_get (item_response item) "")).
Proof.
  unfold search_cache. intros H.
  apply EvictionFacts.in_firstn in H. apply SortFacts.sort_by_in in H.
  apply search_items_in in H as (k & it & Hin & Hhit & ->).
  apply orb_true_iff in Hhit.
  assert (Hscore :
            _calculate_relevance (lower search_term)
              (lower (item_get (item_query it) ""))
              (lower (item_get (item_response it) ""))
            = count (lower search_term) (lower (item_get (item_query it) ""))
              * 2
              + count (lower search_term)
                      (lower (item_get (item_response it) ""))).
  { unfold _calculate_relevance. lia. }
  simpl. split.
  - rewrite Hscore. destruct Hhit as [Hq|Hr].
    + apply count_occurs in Hq. lia.
    + apply count_occurs in Hr. lia.
  - exists k, it. repeat split; auto.
Qed.

Lemma search_results_match_witness :
  let r := {| result_query := "Water supply in Adyar";
              result_response := "Call Metro Water at 044-4567-4567";
              result_department := "Chennai Metro Water";
              relevance_score := 3 |} in
  In r (search_cache "WATER" Samples.searchable_cache)
  /\ (1 <= relevance_score r)%nat.
Proof.
  cbv zeta. split; [vm_compute; auto|].
  apply (@search_results_match "WATER" Samples.searchable_cache).
  vm_compute. auto.
Defined.

(** X2.  A search returns the ten best of what it found, best first: the
    results are in descending order of score, and nothing that was found
    and left out scores more than a result. *)
Theorem search_returns_top_ten (search_term : string) (s : state) :
  let found := search_items (lower search_term) (memory_cache s) in
  let results := search_cache search_term s in
  List.length results = Nat.min 10 (List.length found)
  /\ StronglySorted (fun a b => relevance_score b <= relevance_score a)
                    results
  /\ exists left_out,
       Permutation (results ++ left_out) found
       /\ forall r x, In r results -> In x left_out ->
                      relevance_score x <= relevance_score r.
Proof.
  cbv zeta. unfold search_cache.
  set (found := search_items (lower search_term) (memory_cache s)).
  set (sorted := sort_by higher_score_first found).
  assert (Hs : StronglySorted (fun a b => higher_score_first a b = true)
                              sorted).
  { apply SortFacts.sort_by_sorted.
    - apply higher_score_first_total.
    - apply higher_score_first_trans. }
  split; [|split].
  - rewrite length_firstn. unfold sorted.
    now rewrite SortFacts.sort_by_length.
  - apply sorted_firstn.
    apply sorted_impl with (R := fun a b => higher_score_first a b = true);
      auto.
    intros a b. unfold higher_score_first. apply Nat.leb_le.
  - exists (skipn 10 sorted). split.
    + rewrite firstn_skipn. apply SortFacts.sort_by_perm.
    + intros r x Hr Hx.
      rewrite <- (firstn_skipn 10 sorted) in Hs.
      pose proof (SortFacts.sorted_app_order higher_score_first
                    _ _ _ _ Hs Hr Hx) as H.
      unfold higher_score_first in H. now apply Nat.leb_le.
Qed.

Lemma search_returns_top_ten_witness :
  map relevance_score (search_cache "WATER" Samples.searchable_cache)
  = [3; 1]%nat
  /\ StronglySorted (fun a b => (relevance_score b <= relevance_score a)%nat)
                    (search_cache "WATER" Samples.searchable_cache).
Proof.
  split; [vm_compute; reflexivity|].
  exact (proj1 (proj2 (search_returns_top_ten
                         "WATER" Samples.searchable_cache))).
Defined.

(** X3.  When at most ten entries have the term, none of them is missed. *)
Theorem search_finds_entry (search_term : string) (s : state)
        (cache_key : string) (item : cached_item) :
  In (cache_key, item) (memory_cache s) ->
  contains (lower search_term) (lower (item_get (item_query item) "")) = true
  \/ contains (lower search_term)
              (lower (item_get (item_response item) "")) = true ->
  List.length (search_items (lower search_term) (memory_cache s)) <= 10 ->
  exists r, In r (search_cache search_term s)
            /\ result_query r = take 100 (item_get (item_query item) "")
            /\ result_response r
               = take 200 (item_get (item_response item) "")
            /\ result_department r
               = item_get (item_department item) "Unknown".
Proof.
  intros Hin Hhit Hlen. unfold search_cache.
  eexists. split.
  - rewrite firstn_all2 by now rewrite SortFacts.sort_by_length.
    apply SortFacts.sort_by_in. apply search_items_in.
    exists cache_key, item. split; [exact Hin|]. split; [|reflexivity].
    apply orb_true_iff. exact Hhit.
  - simpl. auto.
Qed.

Lemma search_finds_entry_witness :
  exists r, In r (search_cache "WATER" Samples.searchable_cache)
            /\ result_query r = "Power cut in Velachery".
Proof.
  destruct (@search_finds_entry "WATER" Samples.searchable_cache "k2"
              (Samples.record "Power cut in Velachery"
                      "Call TANGEDCO, water pumps may stop" "TANGEDCO" 20)
              ltac:(simpl; auto)
              (or_intror eq_refl)
              ltac:(simpl; lia))
    as (r & Hin & Hq & _).
  exists r. split; [exact Hin|exact Hq].
Defined.

Lemma search_items_empty items :
  List.length (search_items "" items) = List.length items.
Proof.
  induction items as [|[k it] items IH]; simpl; auto.
  rewrite contains_empty. simpl. now rewrite IH.
Qed.

(** X4.  The empty term is in every text: a search for it finds every entry
    of the memory index, so it returns ten results as soon as the index
    holds ten entries. *)
Theorem search_empty_term (s : state) :
  List.length (search_cache "" s) = Nat.min 10 (List.length (memory_cache s)).
Proof.
  unfold search_cache. rewrite length_firstn, SortFacts.sort_by_length.
  simpl lower. now rewrite search_items_empty.
Qed.

End SearchFacts.

(** ** Clearing the cache *)

Module ClearFacts.

Import PyStr Py PyTime Cag.
Local Open Scope string_scope.
Local Open Scope list_scope.

Ltac run_clear :=
  cbv [clear_cache bind ret raise call gets modify try_except any_exception].

(** Deleting every file of a list, when each deletion goes through. *)
Lemma unlink_each_all undeletable files : forall s,
  (forall k, In k (map fst files) -> undeletable k = false) ->
  (forall k, In k (map fst (cache_dir s)) -> In k (map fst files)) ->
  unlink_each undeletable files s = (Ok tt, set_dir (fun _ => []) s).
Proof.
  induction files as [|[k f] files IH]; intros s Hund Hsub.
  - simpl. unfold ret. destruct s as [ttl mem st dir]. simpl in *.
    destruct dir as [|[k f] dir]; [reflexivity|].
    exfalso. apply (Hsub k). now left.
  - cbn [unlink_each]. unfold bind, unlink_file.
    rewrite (Hund k) by now left.
    unfold modify. rewrite IH.
    + destruct s; reflexivity.
    + intros k' Hk'. apply Hund. now right.
    + intros k' Hk'. simpl in Hk'.
      apply in_map_iff in Hk' as (x & <- & Hx).
      apply EvictionFacts.in_dict_del_iff in Hx as [Hx Hne].
      destruct (Hsub (fst x)) as [E|Hin]; [now apply in_map| |assumption].
      simpl in E. congruence.
Qed.

(** The deletions stop at the first file that cannot be deleted. *)
Lemma unlink_each_stops undeletable done k f rest : forall s,
  (forall k', In k' (map fst done) -> undeletable k' = false) ->
  undeletable k = true ->
  NoDup (map fst (done ++ (k, f) :: rest)) ->
  cache_dir s = done ++ (k, f) :: rest ->
  unlink_each undeletable (done ++ (k, f) :: rest) s
  = (Raise OSError, set_dir (fun _ => (k, f) :: rest) s).
Proof.
  induction done as [|[k0 f0] done IH]; intros s Hund Hk Hnd Hdir.
  - simpl. unfold bind, unlink_file. rewrite Hk. unfold raise.
    destruct s; simpl in *. now rewrite Hdir.
  - cbn [app unlink_each]. unfold bind, unlink_file.
    rewrite (Hund k0) by now left.
    unfold modify.
    simpl in Hnd. apply NoDup_cons_iff in Hnd as [Hn0 Hnd].
    rewrite IH.
    + destruct s; reflexivity.
    + intros k' Hk'. apply Hund. now right.
    + exact Hk.
    + exact Hnd.
    + simpl. rewrite Hdir. simpl. rewrite String.eqb_refl.
      now apply EvictionFacts.dict_del_absent.
Qed.

Lemma del_keys_keeps {V} keys : forall (d : list (string * V)) x,
  In x (fold_left (fun m key => dict_del key m) keys d)
  <-> In x d /\ ~ In (fst x) keys.
Proof.
  induction keys as [|k keys IH]; intros d x; simpl; [tauto|].
  rewrite IH, EvictionFacts.in_dict_del_iff. intuition congruence.
Qed.

Lemma del_keys_filter {V} (P : string * V -> bool) : forall d,
  NoDup (map fst d) ->
  fold_left (fun m key => dict_del key m) (map fst (filter P d)) d
  = filter (fun kv => negb (P kv)) d.
Proof.
  assert (Hgen : forall (d rest : list (string * V)),
             NoDup (map fst (rest ++ d)) ->
             (forall x, In x rest -> P x = false) ->
             fold_left (fun m key => dict_del key m) (map fst (filter P d))
                       (rest ++ d)
             = rest ++ filter (fun kv => negb (P kv)) d).
  { induction d as [|[k v] d IH]; intros rest Hnd Hrest.
    - reflexivity.
    - simpl. destruct (P (k, v)) eqn:Hp; simpl.
      + assert (Hdel : dict_del k (rest ++ (k, v) :: d) = rest ++ d).
        { clear IH Hrest Hp. induction rest as [|[k' v'] rest IHr]; simpl.
          - rewrite String.eqb_refl. apply EvictionFacts.dict_del_absent.
            simpl in Hnd. now apply NoDup_cons_iff in Hnd as [Hn _].
          - simpl in Hnd. apply NoDup_cons_iff in Hnd as [Hn Hnd].
            destruct (String.eqb_spec k k') as [->|Hne].
            + exfalso. apply Hn. rewrite map_app. apply in_or_app.
              right. now left.
            + f_equal. auto. }
        rewrite Hdel. apply IH; auto.
        rewrite map_app in *. simpl in Hnd.
        now apply NoDup_remove_1 in Hnd.
      + change (rest ++ (k, v) :: d) with (rest ++ [(k, v)] ++ d).
        rewrite app_assoc.
        rewrite IH.
        * now rewrite <- app_assoc.
        * now rewrite <- app_assoc.
        * intros x Hx. apply in_app_or in Hx as [Hx|[<-|[]]]; auto. }
  intros d Hnd. apply (Hgen d []); auto. intros x [].
Qed.

(** X5.  After [clear_cache()] with every deletion going through, the cache
    is empty and keeps its counters; the lookup of any query then
    answers absent and counts a miss. *)
Theorem cleared_cache_misses (md5 : string -> string) (current_time : Z)
        (undeletable : string -> bool) (e : env) (query : string)
        (s : state) :
  (forall k, In k (map fst (cache_dir s)) -> undeletable k = false) ->
  let s' := snd (clear_cache current_time undeletable None s) in
  let out := get_cached_response md5 e query s' in
  memory_cache s' = []
  /\ cache_dir s' = []
  /\ cache_stats s' = cache_stats s
  /\ ttl_hours s' = ttl_hours s
  /\ fst out = Ok None
  /\ misses (cache_stats (snd out)) = S (misses (cache_stats s))
  /\ hits (cache_stats (snd out)) = hits (cache_stats s).
Proof.
  intros Hund. cbv zeta. run_clear.
  rewrite unlink_each_all; auto.
  destruct s as [ttl mem st dir]. simpl.
  repeat split; reflexivity.
Qed.

Lemma cleared_cache_misses_witness :
  let s' := snd (clear_cache 100 Samples.deletable None
                             Samples.crowded_cache) in
  memory_cache s' = [] /\ cache_dir s' = []
  /\ fst (get_cached_response plain_digest (Samples.env_at 100) "q2" s')
     = Ok None.
Proof.
  destruct (@cleared_cache_misses plain_digest 100
              Samples.deletable (Samples.env_at 100) "q2"
              Samples.crowded_cache (fun _ _ => eq_refl))
    as (Hm & Hd & _ & _ & Hr & _).
  split; [exact Hm|]. split; [exact Hd|exact Hr].
Defined.

(** X6.  [clear_cache()] empties the memory index, but gives up at the first
    file that cannot be deleted: that file and all that follow stay. *)
Theorem clear_all_stops_at_failure (current_time : Z)
        (undeletable : string -> bool) (s : state)
        (done : list (string * file)) (k : string) (f : file)
        (rest : list (string * file)) :
  cache_dir s = done ++ (k, f) :: rest ->
  NoDup (map fst (cache_dir s)) ->
  (forall k', In k' (map fst done) -> undeletable k' = false) ->
  undeletable k = true ->
  let out := clear_cache current_time undeletable None s in
  fst out = Ok tt
  /\ memory_cache (snd out) = []
  /\ cache_dir (snd out) = (k, f) :: rest.
Proof.
  intros Hdir Hnd Hund Hk. cbv zeta. run_clear.
  simpl. rewrite Hdir in *.
  rewrite unlink_each_stops; auto.
Qed.

Lemma clear_all_stops_at_failure_witness :
  let out := clear_cache 100 Samples.q2_stuck None Samples.crowded_cache in
  memory_cache (snd out) = []
  /\ map fst (cache_dir (snd out)) = ["q2"; "q3"].
Proof.
  destruct (@clear_all_stops_at_failure 100 Samples.q2_stuck
              Samples.crowded_cache
              (firstn 1 (cache_dir Samples.crowded_cache))
              "q2"
              {| st_mtime := 30;
                 content := JsonObject (Samples.stamped "q2" 30) |}
              (skipn 2 (cache_dir Samples.crowded_cache))
              eq_refl
              ltac:(repeat constructor; simpl; intuition discriminate)
              ltac:(intros k' [<-|[]]; reflexivity)
              eq_refl)
    as (_ & Hm & Hd).
  split; [exact Hm|]. now rewrite Hd.
Defined.

(** X7.  [clear_cache(hours)], when the cutoff [now - hours] is a
    datetime, keeps of the memory index the entries stamped at or after
    the cutoff, in their order, and drops those whose timestamp does not
    read as a clock time; of the directory it keeps the files modified
    at or after the cutoff and those it could not delete.  When the
    cutoff is no datetime it clears nothing.  The counters stay, and the
    call returns normally. *)
Theorem clear_older_keeps (current_time : Z) (undeletable : string -> bool)
        (hours : Z) (s : state) :
  NoDup (map fst (memory_cache s)) ->
  NoDup (map fst (cache_dir s)) ->
  let cutoff_time := (current_time - hours * microseconds_per_hour)%Z in
  let out := clear_cache current_time undeletable (Some hours) s in
  fst out = Ok tt
  /\ cache_stats (snd out) = cache_stats s
  /\ (representable cutoff_time = true ->
      memory_cache (snd out)
      = filter (fun kv => negb (stale cutoff_time (snd kv))) (memory_cache s)
      /\ (forall kf, In kf (cache_dir (snd out))
                     <-> In kf (cache_dir s)
                         /\ (file_older cutoff_time kf = false
                             \/ undeletable (fst kf) = true)))
  /\ (representable cutoff_time = false -> snd out = s).
Proof.
  intros Hnd Hdir. cbv zeta. run_clear. unfold shifted.
  rewrite Z.add_opp_r.
  destruct (representable (current_time - hours * microseconds_per_hour));
    simpl.
  - split; [reflexivity|]. split; [reflexivity|].
    split; [|discriminate]. intros _. split.
    + apply (del_keys_filter (fun kv => stale _ (snd kv))). exact Hnd.
    + intros kf. rewrite EvictionFacts.remove_files_keeps. split.
      * intros [Hin Hn]. split; [exact Hin|].
        destruct (file_older _ kf) eqn:Ho; [|now left].
        destruct (undeletable (fst kf)) eqn:Hu; [now right|].
        exfalso. apply Hn. split; [|reflexivity].
        apply in_map. apply filter_In. auto.
      * intros [Hin Hk]. split; [exact Hin|].
        intros [Hf Hu]. apply in_map_iff in Hf as (y & Hy & Hf).
        apply filter_In in Hf as [Hyin Hyo].
        assert (y = kf)
          by (apply (EvictionFacts.nodup_keys_inj _ _ _ Hdir); auto).
        subst y. destruct Hk; congruence.
  - split; [reflexivity|]. split; [reflexivity|].
    split; [discriminate|reflexivity].
Qed.

Lemma clear_older_keeps_witness :
  let out := clear_cache 20 Samples.deletable (Some 0%Z)
                         Samples.crowded_cache in
  map fst (memory_cache (snd out)) = ["q2"; "q3"]
  /\ cache_stats (snd out) = Samples.no_stats.
Proof.
  destruct (@clear_older_keeps 20 Samples.deletable 0
              Samples.crowded_cache
              ltac:(repeat constructor; simpl; intuition discriminate)
              ltac:(repeat constructor; simpl; intuition discriminate))
    as (_ & Hs & Hm & _).
  destruct (Hm eq_refl) as [Hm' _].
  split; [now rewrite Hm'|exact Hs].
Defined.

(** X8.  Clearing and expiry agree where no time is out of range:
    [clear_cache(hours)] with [hours] below the time to live, and a
    cutoff that is a datetime, leaves only entries that a lookup at
    that moment would serve, as far as their expiry time is a datetime;
    and with [hours] at or above the time to live it removes no entry
    that a lookup would serve. *)
Theorem clear_older_and_ttl (e : env) (undeletable : string -> bool)
        (hours : Z) (s : state) :
  let s' := snd (clear_cache (now e) undeletable (Some hours) s) in
  ((hours < ttl_hours s)%Z ->
   representable (now e - hours * microseconds_per_hour) = true ->
   forall k it, In (k, it) (memory_cache s') ->
                expiry_in_range (ttl_hours s) it = true ->
                _is_cache_valid (ttl_hours s) e it = Ok true)
  /\ ((ttl_hours s <= hours)%Z ->
      NoDup (map fst (memory_cache s)) ->
      forall k it, In (k, it) (memory_cache s) ->
                   _is_cache_valid (ttl_hours s) e it = Ok true ->
                   In (k, it) (memory_cache s')).
Proof.
  cbv zeta. run_clear. unfold shifted. rewrite Z.add_opp_r. split.
  - intros Hlt Hcut k it. rewrite Hcut. simpl. intros Hin Hexp.
    apply del_keys_keeps in Hin as [Hin Hn]. simpl in Hn.
    assert (Hfresh : stale (now e - hours * microseconds_per_hour) it
                     = false).
    { destruct (stale _ it) eqn:Hst; auto.
      exfalso. apply Hn. apply in_map_iff. exists (k, it). split; auto.
      apply filter_In. auto. }
    unfold stale in Hfresh. unfold _is_cache_valid, shifted.
    unfold expiry_in_range in Hexp.
    destruct (fromisoformat (get_timestamp it)) as [t|t|];
      try discriminate.
    rewrite Hexp. f_equal. apply Z.ltb_lt. apply Z.ltb_ge in Hfresh.
    unfold microseconds_per_hour in *. lia.
  - intros Hle Hnd k it Hin Hv.
    destruct (representable (now e - hours * microseconds_per_hour));
      simpl; [|exact Hin].
    apply del_keys_keeps. split; auto. simpl.
    intros Hk. apply in_map_iff in Hk as ([k' it'] & Hk & Hf).
    simpl in Hk. subst k'.
    apply filter_In in Hf as [Hin' Hst].
    assert (E : (k, it') = (k, it))
      by (apply (EvictionFacts.nodup_keys_inj _ _ _ Hnd); auto).
    injection E as ->. simpl in Hst.
    unfold _is_cache_valid, shifted in Hv. unfold stale in Hst.
    destruct (fromisoformat (get_timestamp it)) as [t|t|];
      try discriminate;
      destruct (representable (t + ttl_hours s * microseconds_per_hour));
      try discriminate.
    injection Hv as Hv.
    apply Z.ltb_lt in Hv, Hst. unfold microseconds_per_hour in *. lia.
Qed.

Lemma clear_older_and_ttl_witness :
  let s' := snd (clear_cache 25 Samples.deletable (Some 0%Z)
                             Samples.crowded_cache) in
  In ("q2", Samples.stamped "q2" 30) (memory_cache s')
  /\ _is_cache_valid 24 (Samples.env_at 25) (Samples.stamped "q2" 30)
     = Ok true.
Proof.
  cbv zeta. split; [left; reflexivity|].
  destruct (@clear_older_and_ttl (Samples.env_at 25)
              Samples.deletable 0 Samples.crowded_cache) as (Hlt & _).
  apply (Hlt ltac:(simpl; lia) eq_refl "q2"); [|reflexivity].
  left. reflexivity.
Defined.

End ClearFacts.

(** ** Loading the cache at start-up *)

Module LoadFacts.

Import PyStr Py PyTime Cag.
Local Open Scope string_scope.
Local Open Scope list_scope.

Ltac run_load :=
  cbv [load_file json_load unlink unlink_file bind ret raise call gets modify
       try_except any_exception].

Lemma dict_set_length {V} k (v : V) d :
  (List.length (dict_set k v d) <= S (List.length d))%nat.
Proof.
  induction d as [|[k' v'] d IH]; simpl; auto.
  destruct (String.eqb k k'); simpl; lia.
Qed.

Lemma dict_get_set_other {V} k k' (v : V) d :
  k <> k' -> dict_get k (dict_set k' v d) = dict_get k d.
Proof.
  intros Hne. induction d as [|[k0 v0] d IH]; simpl.
  - destruct (String.eqb_spec k k'); [contradiction|reflexivity].
  - destruct (String.eqb_spec k' k0) as [->|Hne0]; simpl.
    + destruct (String.eqb_spec k k0); [contradiction|reflexivity].
    + destruct (String.eqb k k0); auto.
Qed.

(** What handling one file does to the cache. *)
Lemma load_file_step surroundings cleanup_fails k f s :
  let out := load_file surroundings cleanup_fails (k, f) s in
  ttl_hours (snd out) = ttl_hours s
  /\ cache_stats (snd out) = cache_stats s
  /\ (forall x, In x (cache_dir (snd out)) -> In x (cache_dir s))
  /\ (memory_cache (snd out) = memory_cache s
      \/ exists it, content f = JsonObject it
                    /\ _is_cache_valid (ttl_hours s) (surroundings k) it = Ok true
                    /\ memory_cache (snd out)
                       = dict_set k it (memory_cache s))
  /\ (halting (ttl_hours s) (content f) = false -> fst out = Ok tt)
  /\ (halting (ttl_hours s) (content f) = true ->
      snd out = s /\ fst out <> Ok tt).
Proof.
  cbv zeta. run_load. unfold halting. simpl.
  destruct (content f) as [| | | |it] eqn:Hc; simpl;
    try (destruct (cleanup_fails k); simpl;
         repeat split; auto; try discriminate;
         intros x Hx; now apply EvictionFacts.in_dict_del_iff in Hx);
    try (repeat split; auto; discriminate).
  destruct (expiry_in_range (ttl_hours s) it) eqn:Hin; simpl.
  - destruct (CagFacts.validity_in_range (ttl_hours s) (surroundings k) it
                Hin) as [[|] Hv]; rewrite Hv; simpl.
    + repeat split; auto; try discriminate. right. exists it. auto.
    + destruct (unlink_fails (surroundings k)); simpl;
        [destruct (cleanup_fails k); simpl|];
        repeat split; auto; try discriminate;
        intros x Hx; now apply EvictionFacts.in_dict_del_iff in Hx.
  - rewrite (CagFacts.validity_out_of_range _ (surroundings k) _ Hin).
    simpl. repeat split; auto; discriminate.
Qed.

Lemma load_files_sound surroundings cleanup_fails files : forall s,
  let out := load_files surroundings cleanup_fails files s in
  ttl_hours (snd out) = ttl_hours s
  /\ cache_stats (snd out) = cache_stats s
  /\ (forall x, In x (cache_dir (snd out)) -> In x (cache_dir s))
  /\ (List.length (memory_cache (snd out))
      <= List.length (memory_cache s) + List.length files)%nat
  /\ (forall k it, In (k, it) (memory_cache (snd out)) ->
        In (k, it) (memory_cache s)
        \/ exists f, In (k, f) files /\ content f = JsonObject it
                     /\ _is_cache_valid (ttl_hours s) (surroundings k) it
                        = Ok true).
Proof.
  induction files as [|[k f] files IH]; intros s; cbv zeta.
  - simpl. repeat split; auto. lia.
  - cbn [load_files]. unfold bind.
    pose proof (load_file_step surroundings cleanup_fails k f s) as Hstep.
    cbv zeta in Hstep.
    destruct (load_file surroundings cleanup_fails (k, f) s) as [[[]|ex] s1];
      simpl in Hstep; destruct Hstep as (Ht & Hs & Hd & Hm & _).
    + specialize (IH s1). cbv zeta in IH.
      destruct (load_files surroundings cleanup_fails files s1) as [r s2].
      simpl in *. destruct IH as (Ht2 & Hs2 & Hd2 & Hl2 & Hm2).
      split; [congruence|]. split; [congruence|]. split; [auto|].
      split.
      * destruct Hm as [E|(it & _ & _ & E)]; rewrite E in Hl2; [lia|].
        pose proof (dict_set_length k it (memory_cache s)). lia.
      * intros k' it' Hin. destruct (Hm2 _ _ Hin) as [Hin1|(f' & Hf & Hc & Hv)].
        -- destruct Hm as [E|(it & Hc & Hv & E)]; rewrite E in Hin1; auto.
           apply CagFacts.in_dict_set in Hin1 as [[= -> ->]|Hin1]; auto.
           right. exists f. simpl. auto.
        -- right. exists f'. simpl. rewrite <- Ht. auto.
    + simpl. split; [auto|]. split; [auto|]. split; [auto|]. split.
      * destruct Hm as [E|(it & _ & _ & E)]; rewrite E; [lia|].
        pose proof (dict_set_length k it (memory_cache s)). lia.
      * intros k' it' Hin.
        destruct Hm as [E|(it & Hc & Hv & E)]; rewrite E in Hin; auto.
        apply CagFacts.in_dict_set in Hin as [[= -> ->]|Hin]; auto.
        right. exists f. simpl. auto.
Qed.

(** X9.  What [CacheModule(...)] starts with: at most 100 entries, each the
    record of a file of the directory that was within its time to live
    when it was read; the counters at zero; and no file in the directory
    that was not there before. *)
Theorem loaded_entries_are_fresh_records (dir : list (string * file))
        (ttl : Z) (surroundings : string -> env)
        (cleanup_fails : string -> bool) :
  let s := __init__ dir ttl surroundings cleanup_fails in
  ttl_hours s = ttl
  /\ cache_stats s = {| hits := 0; misses := 0; total_requests := 0 |}
  /\ (List.length (memory_cache s) <= 100)%nat
  /\ (forall k it, In (k, it) (memory_cache s) ->
        exists f, In (k, f) dir /\ content f = JsonObject it
                  /\ _is_cache_valid ttl (surroundings k) it = Ok true)
  /\ (forall x, In x (cache_dir s) -> In x dir).
Proof.
  cbv zeta. unfold __init__, _load_persistent_cache.
  cbv [bind gets try_except any_exception ret]. cbn [cache_dir].
  set (s0 := {| ttl_hours := ttl; memory_cache := [];
                cache_stats := {| hits := 0; misses := 0;
                                  total_requests := 0 |};
                cache_dir := dir |}).
  remember (firstn 100 (sort_by newest_first dir)) as files eqn:Hfiles.
  assert (Hlen : (List.length files <= 100)%nat)
    by (subst files; rewrite length_firstn; lia).
  assert (Hsub : forall x, In x files -> In x dir).
  { intros x Hx. subst files. apply EvictionFacts.in_firstn in Hx.
    now apply SortFacts.sort_by_in in Hx. }
  clear Hfiles.
  pose proof (load_files_sound surroundings cleanup_fails files s0) as H.
  cbv zeta in H.
  destruct (load_files surroundings cleanup_fails files s0) as [[[]|ex] s1];
    simpl in *; destruct H as (Ht & Hs & Hd & Hl & Hm);
    (split; [exact Ht|]; split; [exact Hs|]; split; [lia|]; split;
     [|exact Hd]);
    intros k it Hin; destruct (Hm _ _ Hin) as [[]|(f & Hf & Hc & Hv)];
    exists f; auto.
Qed.

Lemma loaded_entries_are_fresh_records_witness :
  let s := __init__ (cache_dir Samples.crowded_cache) 24
                    (fun _ => Samples.env_at 100) Samples.deletable in
  map fst (memory_cache s) = ["q2"; "q3"; "q1"]
  /\ exists f, In ("q2", f) (cache_dir Samples.crowded_cache)
               /\ content f = JsonObject (Samples.stamped "q2" 30).
Proof.
  cbv zeta. split; [reflexivity|].
  destruct (@loaded_entries_are_fresh_records
              (cache_dir Samples.crowded_cache) 24
              (fun _ => Samples.env_at 100) Samples.deletable)
    as (_ & _ & _ & Hfrom & _).
  destruct (Hfrom "q2" (Samples.stamped "q2" 30)
                  ltac:(left; reflexivity)) as (f & Hin & Hc & _).
  exists f. split; [exact Hin|exact Hc].
Defined.

(** The newest file of a directory comes first. *)
Lemma newest_first_head dir k f :
  In (k, f) dir ->
  (forall x, In x dir -> x = (k, f) \/ (st_mtime (snd x) < st_mtime f)%Z) ->
  exists rest, sort_by newest_first dir = (k, f) :: rest.
Proof.
  intros Hin Hmax.
  pose proof (SortFacts.sort_by_sorted newest_first) as Hs.
  assert (Htot : forall x y, newest_first x y = true
                             \/ newest_first y x = true).
  { intros x y. unfold newest_first.
    destruct (Z.leb_spec (st_mtime (snd y)) (st_mtime (snd x))); auto.
    right. apply Z.leb_le. lia. }
  assert (Htr : forall x y z, newest_first x y = true ->
                              newest_first y z = true ->
                              newest_first x z = true).
  { intros x y z. unfold newest_first. rewrite !Z.leb_le. lia. }
  specialize (Hs Htot Htr dir).
  assert (Hin' : In (k, f) (sort_by newest_first dir))
    by now apply SortFacts.sort_by_in.
  destruct (sort_by newest_first dir) as [|h rest] eqn:E; [contradiction|].
  exists rest. f_equal.
  destruct Hin' as [->|Hr]; [reflexivity|].
  inversion Hs as [|? ? _ Hall]; subst.
  rewrite Forall_forall in Hall. specialize (Hall _ Hr).
  unfold newest_first in Hall. apply Z.leb_le in Hall. simpl in Hall.
  assert (Hh : In h dir).
  { apply (SortFacts.sort_by_in newest_first). rewrite E. now left. }
  destruct (Hmax _ Hh) as [->|Hlt]; [reflexivity|lia].
Qed.

(** X10.  One stray file ends the loading: when the most recently modified
    record file holds JSON that is not an object, or is not UTF-8, the
    cache starts empty and the directory is left as it was, whatever
    else it holds. *)
Theorem stray_newest_file_stops_loading (dir : list (string * file))
        (ttl : Z) (surroundings : string -> env)
        (cleanup_fails : string -> bool) (k : string) (f : file) :
  In (k, f) dir ->
  (forall x, In x dir -> x = (k, f) \/ (st_mtime (snd x) < st_mtime f)%Z) ->
  content f = JsonOther \/ content f = BadEncoding ->
  let s := __init__ dir ttl surroundings cleanup_fails in
  memory_cache s = [] /\ cache_dir s = dir.
Proof.
  intros Hin Hmax Hc. cbv zeta.
  destruct (newest_first_head dir Hin Hmax) as (rest & E).
  unfold __init__, _load_persistent_cache.
  cbv [bind gets try_except any_exception ret]. cbn [cache_dir].
  rewrite E. cbn [firstn load_files]. unfold bind.
  pose proof (load_file_step surroundings cleanup_fails k f
                {| ttl_hours := ttl; memory_cache := [];
                   cache_stats := {| hits := 0; misses := 0;
                                     total_requests := 0 |};
                   cache_dir := dir |}) as Hstep.
  cbv zeta in Hstep. destruct Hstep as (_ & _ & _ & _ & _ & Hstray).
  assert (Hs : halting ttl (content f) = true)
    by (destruct Hc as [-> | ->]; reflexivity).
  destruct (Hstray Hs) as [Hsame Hres].
  destruct (load_file surroundings cleanup_fails (k, f) _) as [[[]|ex] s1];
    simpl in *; [congruence|].
  subst s1. split; reflexivity.
Qed.

Lemma stray_newest_file_stops_loading_witness :
  let s := __init__ Samples.stray_dir 24 (fun _ => Samples.env_at 100)
                    Samples.deletable in
  memory_cache s = [] /\ cache_dir s = Samples.stray_dir.
Proof.
  apply (@stray_newest_file_stops_loading Samples.stray_dir 24
           (fun _ => Samples.env_at 100) Samples.deletable
           "notes" {| st_mtime := 99; content := JsonOther |}).
  - simpl. auto 6.
  - intros x Hx. simpl in Hx.
    repeat (destruct Hx as [<-|Hx]; [simpl; auto; right; lia|]).
    contradiction.
  - now left.
Defined.

Lemma load_file_exact surroundings cleanup_fails k f s :
  halting (ttl_hours s) (content f) = false ->
  let out := load_file surroundings cleanup_fails (k, f) s in
  fst out = Ok tt
  /\ (forall it, content f = JsonObject it ->
                 _is_cache_valid (ttl_hours s) (surroundings k) it = Ok true ->
                 memory_cache (snd out) = dict_set k it (memory_cache s))
  /\ (outdated (ttl_hours s) (surroundings k) (content f) = true ->
      unlink_fails (surroundings k) = false ->
      cleanup_fails k = false ->
      cache_dir (snd out) = dict_del k (cache_dir s)).
Proof.
  intros Hs. cbv zeta. run_load. unfold halting in Hs. simpl.
  destruct (content f) as [| | | |it] eqn:Hc; simpl in *; try discriminate.
  - destruct (cleanup_fails k) eqn:Hk; simpl;
      (split; [reflexivity|]; split; [intros; discriminate|]);
      intros; congruence.
  - destruct (cleanup_fails k) eqn:Hk; simpl;
      (split; [reflexivity|]; split; [intros; discriminate|]);
      intros; congruence.
  - apply negb_false_iff in Hs.
    destruct (CagFacts.validity_in_range (ttl_hours s) (surroundings k) it
                Hs) as [[|] Hv]; rewrite Hv; simpl.
    + split; [reflexivity|]. split.
      * intros it' [= <-] _. reflexivity.
      * intros; discriminate.
    + destruct (unlink_fails (surroundings k)) eqn:Hu; simpl;
        [destruct (cleanup_fails k) eqn:Hk; simpl|];
        (split; [reflexivity|]; split;
         [intros it' [= <-]; congruence|intros; congruence]).
Qed.

Lemma load_files_other surroundings cleanup_fails files k : forall s,
  ~ In k (map fst files) ->
  dict_get k (memory_cache (snd (load_files surroundings cleanup_fails
                                             files s)))
  = dict_get k (memory_cache s).
Proof.
  induction files as [|[k0 f0] files IH]; intros s Hk; [reflexivity|].
  cbn [load_files]. unfold bind.
  pose proof (load_file_step surroundings cleanup_fails k0 f0 s) as Hstep.
  cbv zeta in Hstep. destruct Hstep as (_ & _ & _ & Hm & _).
  simpl in Hk.
  assert (Hone : dict_get k (memory_cache
                               (snd (load_file surroundings cleanup_fails
                                               (k0, f0) s)))
                 = dict_get k (memory_cache s)).
  { destruct Hm as [->|(it & _ & _ & ->)]; auto.
    apply dict_get_set_other. intros ->. tauto. }
  destruct (load_file surroundings cleanup_fails (k0, f0) s) as [[[]|ex] s1];
    simpl in *; auto.
  rewrite IH; auto.
Qed.

Lemma load_files_complete surroundings cleanup_fails files : forall s,
  NoDup (map fst files) ->
  (forall k f, In (k, f) files -> halting (ttl_hours s) (content f) = false) ->
  let out := load_files surroundings cleanup_fails files s in
  fst out = Ok tt
  /\ (forall k f it,
         In (k, f) files -> content f = JsonObject it ->
         _is_cache_valid (ttl_hours s) (surroundings k) it = Ok true ->
         dict_get k (memory_cache (snd out)) = Some it)
  /\ (forall k f,
         In (k, f) files ->
         outdated (ttl_hours s) (surroundings k) (content f) = true ->
         unlink_fails (surroundings k) = false ->
         cleanup_fails k = false ->
         ~ In k (map fst (cache_dir (snd out)))).
Proof.
  induction files as [|[k0 f0] files IH]; intros s Hnd Hstray; cbv zeta.
  - simpl. split; [reflexivity|]. split; [intros ? ? ? []|intros ? ? []].
  - simpl in Hnd. apply NoDup_cons_iff in Hnd as [Hn0 Hnd].
    assert (Hs0 : halting (ttl_hours s) (content f0) = false)
      by (apply (Hstray k0); now left).
    pose proof (@load_file_exact surroundings cleanup_fails k0 f0 s Hs0)
      as Hex.
    pose proof (load_file_step surroundings cleanup_fails k0 f0 s) as Hstep.
    pose proof (load_files_other surroundings cleanup_fails files k0) as Hoth.
    cbv zeta in Hex, Hstep.
    cbn [load_files]. unfold bind.
    destruct (load_file surroundings cleanup_fails (k0, f0) s) as [r s1].
    simpl in Hex, Hstep.
    destruct Hex as (-> & Hmem & Hdir).
    destruct Hstep as (Ht & _).
    assert (Hstray1 : forall k f, In (k, f) files ->
                                  halting (ttl_hours s1) (content f) = false)
      by (intros k f H; rewrite Ht; apply (Hstray k); now right).
    specialize (IH s1 Hnd Hstray1).
    cbv zeta in IH. destruct IH as (Hok & Hload & Hclean).
    pose proof (load_files_sound surroundings cleanup_fails files s1) as Hsnd.
    cbv zeta in Hsnd. destruct Hsnd as (_ & _ & Hsub & _).
    specialize (Hoth s1 Hn0).
    destruct (load_files surroundings cleanup_fails files s1) as [r2 s2].
    simpl in *. split; [exact Hok|]. split.
    + intros k f it [[= -> ->]|Hin] Hc Hv.
      * rewrite Hoth, (Hmem _ Hc Hv). apply CagFacts.dict_get_set_same.
      * rewrite Ht in Hload. eauto.
    + intros k f [[= -> ->]|Hin] Hout Hu Hcl.
      * intros Hk. apply in_map_iff in Hk as (x & Hx & Hk).
        apply Hsub in Hk. rewrite (Hdir Hout Hu Hcl) in Hk.
        apply EvictionFacts.in_dict_del_iff in Hk. tauto.
      * rewrite Ht in Hclean. eauto.
Qed.

(** X11.  A directory of at most 100 record files none of which stops the
    loading (none is stray, and no record has an expiry time that is out
    of range): the cache starts with every record that is within its
    time to live, and the files that cannot be read or parsed and the
    records that the validity check turns down are deleted, where the
    deletion goes through. *)
Theorem startup_loads_and_cleans (dir : list (string * file))
        (ttl : Z) (surroundings : string -> env)
        (cleanup_fails : string -> bool) :
  NoDup (map fst dir) ->
  (List.length dir <= 100)%nat ->
  (forall k f, In (k, f) dir -> halting ttl (content f) = false) ->
  let s := __init__ dir ttl surroundings cleanup_fails in
  (forall k f it,
      In (k, f) dir -> content f = JsonObject it ->
      _is_cache_valid ttl (surroundings k) it = Ok true ->
      dict_get k (memory_cache s) = Some it)
  /\ (forall k f,
         In (k, f) dir ->
         outdated ttl (surroundings k) (content f) = true ->
         unlink_fails (surroundings k) = false ->
         cleanup_fails k = false ->
         ~ In k (map fst (cache_dir s))).
Proof.
  intros Hnd Hlen Hstray. cbv zeta.
  unfold __init__, _load_persistent_cache.
  cbv [bind gets try_except any_exception ret]. cbn [cache_dir].
  rewrite firstn_all2 by now rewrite SortFacts.sort_by_length.
  set (s0 := {| ttl_hours := ttl; memory_cache := [];
                cache_stats := {| hits := 0; misses := 0;
                                  total_requests := 0 |};
                cache_dir := dir |}).
  set (files := sort_by newest_first dir).
  assert (Hperm : Permutation files dir) by apply SortFacts.sort_by_perm.
  destruct (@load_files_complete surroundings cleanup_fails files s0)
    as (Hok & Hload & Hclean).
  - apply (Permutation_NoDup (l := map fst dir)); auto.
    apply Permutation_map. now symmetry.
  - intros k f Hin. apply (Hstray k). now apply (Permutation_in _ Hperm).
  - destruct (load_files surroundings cleanup_fails files s0) as [[[]|ex] s1];
      simpl in *; try discriminate.
    split.
    + intros k f it Hin. apply Hload.
      apply (Permutation_in (l := dir)); auto. now symmetry.
    + intros k f Hin. apply Hclean.
      apply (Permutation_in (l := dir)); auto. now symmetry.
Qed.

Lemma startup_loads_and_cleans_witness :
  let clock := (2 * Samples.one_day + 100)%Z in
  let s := __init__ Samples.mixed_dir 24 (fun _ => Samples.env_at clock)
                    Samples.deletable in
  dict_get "q1" (memory_cache s)
  = Some (Samples.stamped "q1" (2 * Samples.one_day))
  /\ ~ In "q0" (map fst (cache_dir s))
  /\ ~ In "q9" (map fst (cache_dir s)).
Proof.
  destruct (@startup_loads_and_cleans Samples.mixed_dir 24
              (fun _ => Samples.env_at (2 * Samples.one_day + 100))
              Samples.deletable
              ltac:(repeat constructor; simpl; intuition discriminate)
              ltac:(simpl; lia)
              ltac:(intros k f Hin; simpl in Hin;
                    repeat (destruct Hin as [[= <- <-]|Hin];
                            [reflexivity|]); contradiction))
    as (Hload & Hclean).
  split; [|split].
  - apply (Hload "q1"
             {| st_mtime := 2 * Samples.one_day + 10;
                content := JsonObject
                             (Samples.stamped "q1" (2 * Samples.one_day)) |}).
    + now left.
    + reflexivity.
    + reflexivity.
  - apply (Hclean "q0"
             {| st_mtime := 5;
                content := JsonObject (Samples.stamped "q0" 0) |}).
    + simpl. auto.
    + reflexivity.
    + reflexivity.
    + reflexivity.
  - apply (Hclean "q9" {| st_mtime := 7; content := BadJson |}).
    + simpl. auto.
    + reflexivity.
    + reflexivity.
    + reflexivity.
Defined.

(** A record whose expiry time is out of range ends the loading like a
    stray file: with a time to live of a hundred million hours nothing
    of [mixed_dir] is loaded and no file is deleted. *)
Example overflowing_record_stops_loading :
  let s := __init__ Samples.mixed_dir 100000000
                    (fun _ => Samples.env_at (2 * Samples.one_day + 100))
                    Samples.deletable in
  memory_cache s = [] /\ cache_dir s = Samples.mixed_dir.
Proof. split; reflexivity. Qed.

End LoadFacts.

(** ** A restart of the cache *)

Module RestartFacts.
Import PyStr Py PyTime Cag.
Local Open Scope string_scope.
Local Open Scope list_scope.

Lemma dict_set_nodup {V} k (v : V) d :
  NoDup (map fst d) -> NoDup (map fst (dict_set k v d)).
Proof.
  induction d as [|[k0 v0] d IH]; simpl.
  - intros _. repeat constructor. intros [].
  - intros H. apply NoDup_cons_iff in H as [Hn Hd].
    destruct (String.eqb_spec k k0) as [->|Hne]; simpl.
    + constructor; auto.
    + constructor; auto. intros Hin.
      apply in_map_iff in Hin as (x & Hx & Hin).
      apply CagFacts.in_dict_set in Hin as [->|Hin].
      * simpl in Hx. congruence.
      * apply Hn. rewrite <- Hx. now apply in_map.
Qed.

(** The records that a new [CacheModule] starts with. *)
Lemma init_loads_record dir ttl surroundings cleanup_fails k f it :
  NoDup (map fst dir) ->
  (List.length dir <= 100)%nat ->
  (forall k' f', In (k', f') dir -> halting ttl (content f') = false) ->
  In (k, f) dir -> content f = JsonObject it ->
  _is_cache_valid ttl (surroundings k) it = Ok true ->
  let s := __init__ dir ttl surroundings cleanup_fails in
  dict_get k (memory_cache s) = Some it /\ ttl_hours s = ttl.
Proof.
  intros Hnd Hlen Hstray Hin Hc Hv. cbv zeta.
  unfold __init__, _load_persistent_cache.
  cbv [bind gets try_except any_exception ret]. cbn [cache_dir].
  rewrite firstn_all2 by now rewrite SortFacts.sort_by_length.
  set (s0 := {| ttl_hours := ttl; memory_cache := [];
                cache_stats := {| hits := 0; misses := 0;
                                  total_requests := 0 |};
                cache_dir := dir |}).
  set (files := sort_by newest_first dir).
  assert (Hperm : Permutation files dir) by apply SortFacts.sort_by_perm.
  destruct (@LoadFacts.load_files_complete surroundings cleanup_fails files s0)
    as (Hok & Hload & _).
  - apply (Permutation_NoDup (l := map fst dir)); auto.
    apply Permutation_map. now symmetry.
  - intros k' f' Hin'. apply (Hstray k'). now apply (Permutation_in _ Hperm).
  - pose proof (LoadFacts.load_files_sound surroundings cleanup_fails files s0)
      as Hsound.
    cbv zeta in Hsound. destruct Hsound as (Ht & _).
    destruct (load_files surroundings cleanup_fails files s0) as [[[]|ex] s1];
      simpl in *; try discriminate.
    split; [|exact Ht].
    apply (Hload k f it); auto.
    apply (Permutation_in (l := dir)); auto. now symmetry.
Qed.

Section WithHash.

Variable md5 : string -> string.

(** X12.  A response that was stored and written to its record file survives
    a restart: a new [CacheModule] over the directory loads the record,
    and the lookup of the query is answered with the response, as long
    as the record is within its time to live at the restart and at the
    lookup, its expiry time is a datetime, and no file of the directory
    stops the loading. *)
Theorem stored_response_survives_restart (e_store e_lookup : env)
        (surroundings : string -> env) (cleanup_fails : string -> bool)
        (q r d : string) (src : option (list string))
        (meta : option (list (string * string))) (s : state) :
  write e_store = WriteDone ->
  NoDup (map fst (cache_dir s)) ->
  (List.length (cache_dir s) < 100)%nat ->
  (forall k f, In (k, f) (cache_dir s) ->
               halting (ttl_hours s) (content f) = false) ->
  let cache_key := _generate_cache_key md5 q in
  let expiry := (now e_store + ttl_hours s * microseconds_per_hour)%Z in
  representable expiry = true ->
  (now (surroundings cache_key) < expiry)%Z ->
  (now e_lookup < expiry)%Z ->
  let stored := snd (cache_response md5 e_store q r d src meta s) in
  let restarted :=
    __init__ (cache_dir stored) (ttl_hours s) surroundings cleanup_fails in
  let out := get_cached_response md5 e_lookup q restarted in
  fst out = Ok (Some r)
  /\ hits (cache_stats (snd out)) = 1%nat
  /\ misses (cache_stats (snd out)) = 0%nat.
Proof.
  intros Hw Hnd Hlen Hstray. cbv zeta. intros Hrange Hstart Hlook.
  set (key := _generate_cache_key md5 q).
  set (item := {| item_query := Some q;
                  item_response := Some r;
                  item_department := Some d;
                  item_sources := Some (or_empty src);
                  item_metadata := Some (or_empty meta);
                  item_timestamp := Some (written (now e_store));
                  item_cache_key := Some key |}).
  set (record_file := {| st_mtime := now e_store;
                         content := JsonObject item |}).
  assert (Hdir : cache_dir (snd (cache_response md5 e_store q r d src meta s))
                 = dict_set key record_file (cache_dir s)).
  { cbv [cache_response _store_persistent_cache write_file bind ret raise
         gets modify try_except any_exception].
    rewrite Hw. reflexivity. }
  rewrite Hdir.
  destruct (@init_loads_record (dict_set key record_file (cache_dir s))
              (ttl_hours s) surroundings cleanup_fails key record_file item)
    as (Hmem & Httl).
  - now apply dict_set_nodup.
  - pose proof (LoadFacts.dict_set_length key record_file (cache_dir s)). lia.
  - intros k' f' Hin. apply CagFacts.in_dict_set in Hin as [[= -> ->]|Hin];
      [|eauto].
    unfold halting, unhandled, expiry_in_range. simpl. now rewrite Hrange.
  - apply CagFacts.dict_get_in, CagFacts.dict_get_set_same.
  - reflexivity.
  - rewrite (@CagFacts.validity_of_clock_time _ _ item (now e_store))
      by auto.
    f_equal. now apply Z.ltb_lt.
  - set (restarted := __init__ _ _ _ _) in *.
    assert (Hstats : cache_stats restarted
                     = {| hits := 0; misses := 0; total_requests := 0 |}).
    { unfold restarted, __init__, _load_persistent_cache.
      cbv [bind gets try_except any_exception ret]. cbn [cache_dir].
      match goal with
      | |- context [load_files ?a ?b ?c ?d] =>
          pose proof (LoadFacts.load_files_sound a b c d) as Hsound;
          cbv zeta in Hsound; destruct Hsound as (_ & Hs & _);
          destruct (load_files a b c d) as [[[]|ex] s1]; exact Hs
      end. }
    erewrite CagFacts.lookup_memory_hit.
    + simpl. rewrite Hstats. simpl. auto.
    + exact Hmem.
    + rewrite Httl.
      rewrite (@CagFacts.validity_of_clock_time _ _ item (now e_store))
        by auto.
      f_equal. now apply Z.ltb_lt.
    + reflexivity.
Qed.

End WithHash.

Lemma stored_response_survives_restart_witness :
  let restarted :=
    __init__ (cache_dir Samples.water_cached) 24
             (fun _ => Samples.env_at 1) Samples.deletable in
  fst (get_cached_response plain_digest (Samples.env_at 2)
         Samples.water_query restarted)
  = Ok (Some Samples.water_response).
Proof.
  destruct (@stored_response_survives_restart plain_digest
              (Samples.env_at 0) (Samples.env_at 2)
              (fun _ => Samples.env_at 1) Samples.deletable
              Samples.water_query Samples.water_response
              "Chennai Metro Water" (Some ["Chennai Metro Water portal"])
              None (Samples.empty_cache 24)
              eq_refl
              ltac:(constructor)
              ltac:(simpl; lia)
              ltac:(intros k f [])
              eq_refl
              ltac:(vm_compute; reflexivity)
              ltac:(vm_compute; reflexivity))
    as (Hr & _).
  exact Hr.
Defined.

End RestartFacts.

(** ** Keys, spellings and the oldest entries *)

Module KeyFacts.

Import PyStr Py PyTime Cag ReplaceFacts NormalizeFacts.
Local Open Scope string_scope.

(** X13.  The normal form of a query is in lower case; every punctuation
    character in it is the full stop of ["t. nagar"]; and it spells the
    areas in the standard way only. *)
Theorem normalized_query_shape (query : string) :
  let normalized := _normalize_query query in
  lower normalized = normalized
  /\ dots_in_place false normalized = true
  /\ contains "t nagar" normalized = false
  /\ contains "tnagar" normalized = false
  /\ contains "annanagar" normalized = false.
Proof.
  cbv zeta. split; [apply normalize_lower|].
  rewrite normalize_unfold, standardize_areas_three.
  set (p := strip_punctuation (squeeze (lower query))).
  assert (Hp : all_chars keep p = true).
  { unfold p. rewrite strip_punctuation_filter. apply filter_chars_all. }
  set (w1 := replace_from "t nagar" "t. nagar" 0 p).
  set (w2 := replace_from "tnagar" "t. nagar" 0 w1).
  set (y := replace_from "annanagar" "anna nagar" 0 w2).
  assert (D1 : dots_in_place false w1 = true)
    by now apply dots_after_t_nagar.
  assert (D2 : dots_in_place false w2 = true).
  { apply dots_kept; auto; reflexivity. }
  assert (D3 : dots_in_place false y = true).
  { apply dots_kept; auto; reflexivity. }
  assert (A1 : contains "t nagar" w1 = false).
  { apply replace_removes_old; reflexivity. }
  assert (A2 : contains "t nagar" w2 = false).
  { apply replace_keeps_absent; auto; reflexivity. }
  assert (A3 : contains "t nagar" y = false).
  { apply replace_keeps_absent; auto; reflexivity. }
  assert (B2 : contains "tnagar" w2 = false).
  { apply replace_removes_old; reflexivity. }
  assert (B3 : contains "tnagar" y = false).
  { apply replace_keeps_absent; auto; reflexivity. }
  assert (C3 : contains "annanagar" y = false).
  { apply replace_removes_old; reflexivity. }
  auto.
Qed.

Section WithHash.

Variable md5 : string -> string.

(** X14.  A response stored under a query is served to the same query in any
    letter case and with any blanks around and between its words, as
    long as the entry is within its time to live and its expiry time is
    a datetime; the lookup counts a hit. *)
Theorem lookup_after_store_any_spelling (e_store e_lookup : env)
        (q q' r d : string) (src : option (list string))
        (meta : option (list (string * string))) (s : state) :
  squeeze (lower q') = squeeze (lower q) ->
  representable (now e_store + ttl_hours s * microseconds_per_hour) = true ->
  (now e_lookup < now e_store + ttl_hours s * microseconds_per_hour)%Z ->
  let stored := snd (cache_response md5 e_store q r d src meta s) in
  let out := get_cached_response md5 e_lookup q' stored in
  fst out = Ok (Some r)
  /\ hits (cache_stats (snd out)) = S (hits (cache_stats s))
  /\ misses (cache_stats (snd out)) = misses (cache_stats s)
  /\ memory_cache (snd out) = memory_cache stored.
Proof.
  intros Hq Hrange Hlt. cbv zeta.
  assert (Hkey : _generate_cache_key md5 q' = _generate_cache_key md5 q).
  { unfold _generate_cache_key. now rewrite !normalize_unfold, Hq. }
  erewrite CagFacts.lookup_memory_hit.
  - simpl. rewrite CagFacts.store_keeps_stats. auto.
  - rewrite Hkey. apply CagFacts.store_memory.
  - rewrite CagFacts.store_keeps_ttl.
    rewrite (@CagFacts.validity_of_clock_time _ _ _ (now e_store)) by auto.
    f_equal. now apply Z.ltb_lt.
  - reflexivity.
Qed.

Lemma dict_set_absent {V} k (v : V) d :
  dict_get k d = None -> dict_set k v d = (d ++ [(k, v)])%list.
Proof.
  induction d as [|[k0 v0] d IH]; simpl; auto.
  destruct (String.eqb k k0); [discriminate|]. intros H. f_equal. auto.
Qed.

Lemma take_length n s : (String.length (take n s) <= n)%nat.
Proof.
  revert s. induction n as [|n IH]; intros s; simpl; [lia|].
  destruct s as [|c s]; simpl; [lia|]. specialize (IH s). lia.
Qed.

(** X15.  The queries reported as popular are the first [limit] entries of the
    memory index, the oldest first, each with at most 100 characters of
    its query; a query cached anew is not among them once the index
    holds [limit] entries. *)
Theorem popular_queries_are_the_oldest (limit : nat) (e : env)
        (q r d : string) (src : option (list string))
        (meta : option (list (string * string))) (s : state) :
  let popular := get_popular_queries (Z.of_nat limit) s in
  map popular_cache_key popular = firstn limit (map fst (memory_cache s))
  /\ (forall p, In p popular ->
                (String.length (popular_query_text p) <= 100)%nat)
  /\ (dict_get (_generate_cache_key md5 q) (memory_cache s) = None ->
      (limit <= List.length (memory_cache s))%nat ->
      get_popular_queries (Z.of_nat limit)
        (snd (cache_response md5 e q r d src meta s))
      = popular).
Proof.
  cbv zeta. unfold get_popular_queries, slice_to.
  destruct (Z.leb_spec 0 (Z.of_nat limit)) as [_|Hneg]; [|lia].
  rewrite Nat2Z.id. split; [|split].
  - rewrite map_map. cbn [popular_cache_key]. now rewrite firstn_map.
  - intros p Hp. apply in_map_iff in Hp as (kv & <- & _).
    cbn [popular_query_text]. apply take_length.
  - intros Hnone Hlen. f_equal.
    assert (Hmem : memory_cache (snd (cache_response md5 e q r d src meta s))
                   = dict_set (_generate_cache_key md5 q)
                       {| item_query := Some q;
                          item_response := Some r;
                          item_department := Some d;
                          item_sources := Some (or_empty src);
                          item_metadata := Some (or_empty meta);
                          item_timestamp := Some (written (now e));
                          item_cache_key := Some (_generate_cache_key md5 q) |}
                       (memory_cache s)).
    { cbv [cache_response _store_persistent_cache write_file bind ret raise
           gets modify try_except any_exception].
      destruct (write e); reflexivity. }
    rewrite Hmem, (dict_set_absent _ _ _ Hnone).
    rewrite firstn_app.
    replace (limit - List.length (memory_cache s))%nat with 0%nat by lia.
    simpl. now rewrite app_nil_r.
Qed.

End WithHash.

Lemma popular_queries_are_the_oldest_witness :
  map popular_cache_key
      (get_popular_queries 2
         (snd (cache_response plain_digest (Samples.env_at 40)
                 Samples.water_query Samples.water_response
                 "Chennai Metro Water" None None Samples.crowded_cache)))
  = ["q1"; "q2"].
Proof.
  destruct (@popular_queries_are_the_oldest plain_digest 2
              (Samples.env_at 40) Samples.water_query Samples.water_response
              "Chennai Metro Water" None None Samples.crowded_cache)
    as (Hkeys & _ & Hsame).
  change (Z.of_nat 2) with 2%Z in *.
  rewrite (Hsame eq_refl ltac:(simpl; lia)). exact Hkeys.
Defined.

Lemma lookup_after_store_any_spelling_witness :
  fst (get_cached_response plain_digest (Samples.env_at 1)
         Samples.water_query_respelled Samples.water_cached)
  = Ok (Some Samples.water_response).
Proof.
  destruct (@lookup_after_store_any_spelling plain_digest
              (Samples.env_at 0) (Samples.env_at 1)
              Samples.water_query Samples.water_query_respelled
              Samples.water_response "Chennai Metro Water"
              (Some ["Chennai Metro Water portal"]) None
              (Samples.empty_cache 24)
              ltac:(vm_compute; reflexivity) eq_refl
              ltac:(vm_compute; reflexivity))
    as (Hr & _).
  exact Hr.
Defined.

End KeyFacts.

(** ** Storing again, and records on disk *)

Module StoreFacts.

Import PyStr Py PyTime Cag NormalizeFacts.
Local Open Scope string_scope.

Lemma dict_set_same_keys {V} k (v v' : V) d :
  dict_get k d = Some v' -> map fst (dict_set k v d) = map fst d.
Proof.
  induction d as [|[k0 v0] d IH]; simpl; [discriminate|].
  destruct (String.eqb_spec k k0) as [->|Hne]; simpl; auto.
  intros H. f_equal. auto.
Qed.

Lemma dict_set_present {V} k (v v' : V) d :
  dict_get k d = Some v' ->
  List.length (dict_set k v d) = List.length d.
Proof.
  induction d as [|[k0 v0] d IH]; simpl; [discriminate|].
  destruct (String.eqb k k0); simpl; auto.
Qed.

Section WithHash.

Variable md5 : string -> string.

Lemma store_result e q r d src meta s :
  let key := _generate_cache_key md5 q in
  let item := {| item_query := Some q;
                 item_response := Some r;
                 item_department := Some d;
                 item_sources := Some (or_empty src);
                 item_metadata := Some (or_empty meta);
                 item_timestamp := Some (written (now e));
                 item_cache_key := Some key |} in
  memory_cache (snd (cache_response md5 e q r d src meta s))
  = dict_set key item (memory_cache s).
Proof.
  cbv zeta.
  cbv [cache_response _store_persistent_cache write_file bind ret raise
       gets modify try_except any_exception].
  destruct (write e); reflexivity.
Qed.

(** X26.  The last response stored for a query is the one served:
    storing again under a query with the same normal form replaces the
    entry without adding one, and the lookup that follows, within the
    time to live of the new entry and with its expiry time a datetime,
    answers with the new response. *)
Theorem latest_response_wins (e1 e2 e_lookup : env)
        (q q' r1 r2 d1 d2 : string) (src1 src2 : option (list string))
        (meta1 meta2 : option (list (string * string))) (s : state) :
  _normalize_query q' = _normalize_query q ->
  representable (now e2 + ttl_hours s * microseconds_per_hour) = true ->
  (now e_lookup < now e2 + ttl_hours s * microseconds_per_hour)%Z ->
  let first := snd (cache_response md5 e1 q r1 d1 src1 meta1 s) in
  let second := snd (cache_response md5 e2 q' r2 d2 src2 meta2 first) in
  List.length (memory_cache second) = List.length (memory_cache first)
  /\ map fst (memory_cache second) = map fst (memory_cache first)
  /\ fst (get_cached_response md5 e_lookup q second) = Ok (Some r2).
Proof.
  intros Hq Hrange Hlt. cbv zeta.
  assert (Hkey : _generate_cache_key md5 q' = _generate_cache_key md5 q).
  { unfold _generate_cache_key. now rewrite Hq. }
  set (first := snd (cache_response md5 e1 q r1 d1 src1 meta1 s)).
  pose proof (CagFacts.store_memory md5 e1 q r1 d1 src1 meta1 s) as Hin.
  fold first in Hin. rewrite <- Hkey in Hin.
  split; [|split].
  - rewrite store_result. cbv zeta. eapply dict_set_present. exact Hin.
  - rewrite store_result. cbv zeta.
    eapply dict_set_same_keys. exact Hin.
  - erewrite CagFacts.lookup_memory_hit.
    + reflexivity.
    + rewrite <- Hkey. apply CagFacts.store_memory.
    + rewrite CagFacts.store_keeps_ttl. unfold first.
      rewrite CagFacts.store_keeps_ttl.
      rewrite (@CagFacts.validity_of_clock_time _ _ _ (now e2)) by auto.
      f_equal. now apply Z.ltb_lt.
    + reflexivity.
Qed.

(** X27.  A record that is on disk only, and that the validity check
    accepts, is served and taken into the memory index: the lookup
    answers with its response and counts a hit, the file stays, and a
    later lookup at which the check still accepts the record is answered
    whatever has become of the directory. *)
Theorem disk_record_is_promoted (e e' : env) (q : string) (s : state)
        (f : file) (it : cached_item) (r : string)
        (later_dir : list (string * file)) :
  let cache_key := _generate_cache_key md5 q in
  dict_get cache_key (memory_cache s) = None ->
  dict_get cache_key (cache_dir s) = Some f ->
  content f = JsonObject it ->
  item_response it = Some r ->
  _is_cache_valid (ttl_hours s) e it = Ok true ->
  _is_cache_valid (ttl_hours s) e' it = Ok true ->
  let out := get_cached_response md5 e q s in
  fst out = Ok (Some r)
  /\ hits (cache_stats (snd out)) = S (hits (cache_stats s))
  /\ misses (cache_stats (snd out)) = misses (cache_stats s)
  /\ dict_get cache_key (memory_cache (snd out)) = Some it
  /\ cache_dir (snd out) = cache_dir s
  /\ fst (get_cached_response md5 e' q
            (set_dir (fun _ => later_dir) (snd out)))
     = Ok (Some r).
Proof.
  cbv zeta. intros Hm Hd Hc Hr Hv Hv'.
  assert (Hout : get_cached_response md5 e q s
                 = (Ok (Some r),
                    set_memory (dict_set (_generate_cache_key md5 q) it)
                      (set_stats (fun c => {| hits := S (hits c);
                                              misses := misses c;
                                              total_requests :=
                                                S (total_requests c) |}) s))).
  { CagFacts.run. simpl. rewrite Hm. simpl. rewrite Hd. simpl.
    rewrite Hc. simpl. rewrite Hv. simpl. rewrite Hr. reflexivity. }
  rewrite Hout. simpl.
  repeat split; auto using CagFacts.dict_get_set_same.
  erewrite CagFacts.lookup_memory_hit.
  - reflexivity.
  - simpl. apply CagFacts.dict_get_set_same.
  - exact Hv'.
  - exact Hr.
Qed.

End WithHash.

Lemma latest_response_wins_witness :
  let second :=
    snd (cache_response plain_digest (Samples.env_at 5)
           "WATER SUPPLY ISSUE IN ADYAR" "Call 1913"
           "Greater Chennai Corporation" None None Samples.water_cached) in
  List.length (memory_cache second) = 1%nat
  /\ fst (get_cached_response plain_digest (Samples.env_at 6)
            Samples.water_query second) = Ok (Some "Call 1913").
Proof.
  destruct (@latest_response_wins plain_digest (Samples.env_at 0)
              (Samples.env_at 5) (Samples.env_at 6) Samples.water_query
              "WATER SUPPLY ISSUE IN ADYAR" Samples.water_response "Call 1913"
              "Chennai Metro Water" "Greater Chennai Corporation"
              (Some ["Chennai Metro Water portal"]) None None None
              (Samples.empty_cache 24)
              ltac:(vm_compute; reflexivity) eq_refl
              ltac:(vm_compute; reflexivity))
    as (Hlen & _ & Hr).
  split; [exact Hlen|exact Hr].
Defined.

Lemma disk_record_is_promoted_witness :
  let s := Samples.cache_with_file
             (JsonObject Samples.record_without_department) in
  let out := get_cached_response plain_digest (Samples.env_at 0)
               Samples.water_query s in
  fst out = Ok (Some Samples.water_response)
  /\ fst (get_cached_response plain_digest (Samples.env_at 1)
            Samples.water_query (set_dir (fun _ => []) (snd out)))
     = Ok (Some Samples.water_response).
Proof.
  destruct (@disk_record_is_promoted plain_digest (Samples.env_at 0)
              (Samples.env_at 1) Samples.water_query
              (Samples.cache_with_file
                 (JsonObject Samples.record_without_department))
              {| st_mtime := 0;
                 content := JsonObject Samples.record_without_department |}
              Samples.record_without_department Samples.water_response []
              ltac:(vm_compute; reflexivity) ltac:(vm_compute; reflexivity)
              eq_refl eq_refl
              ltac:(vm_compute; reflexivity) ltac:(vm_compute; reflexivity))
    as (Hr & _ & _ & _ & _ & Hlater).
  split; [exact Hr|exact Hlater].
Defined.

End StoreFacts.

(** ** The dictionary stand-in of the cache *)

Module RepeatFacts.

Import PyStr Py App.
Local Open Scope string_scope.
Local Open Scope list_scope.

Lemma bind_ok {S A B} (m : M S A) (k : A -> M S B) s a s' :
  m s = (Ok a, s') -> bind m k s = k a s'.
Proof. unfold bind. now intros ->. Qed.

Ltac step H := rewrite (@bind_ok _ _ _ _ _ _ _ _ H).

Lemma checkpoint_ok e st (a : app) :
  fault e st = None -> checkpoint e st a = (Ok tt, a).
Proof. unfold checkpoint. now intros ->. Qed.

Lemma retrieve_total e it a :
  exists info, retrieve_civic_information e it a = (Ok info, a).
Proof.
  unfold retrieve_civic_information, bind, gets, try_except, any_exception,
    ret, raise.
  destruct (rag_module a); [destruct (rag_outcome e)|]; eauto.
Qed.

Lemma reasoning_total e ar it a :
  exists recs, apply_knowledge_graph_reasoning e ar it a = (Ok recs, a).
Proof.
  unfold apply_knowledge_graph_reasoning, bind, gets, try_except,
    any_exception, ret, raise.
  destruct (kag_module a); [destruct (kag_outcome e)|]; eauto.
Qed.

Section WithHash.

Variable md5 : string -> string.

(** A submission that finds its entry in the dictionary. *)
Lemma dictionary_hit e q model a d en :
  cache_module a = BasicDict d ->
  fault e CacheCheck = None ->
  dict_get (md5 (lower q)) d = Some en ->
  process_civic_query md5 e q model a
  = (Ok {| response := entry_response en;
           sources := entry_sources en;
           processing_time := (end_clock e - start_clock e)%Z;
           cache_hit := true;
           department := entry_department en;
           area := None; issue := None; error := None |}, a).
Proof.
  intros Hc Hf Hg. unfold process_civic_query, try_except, pipeline_steps.
  step (@checkpoint_ok e CacheCheck a Hf).
  assert (Hcheck : check_cache md5 e q a = (Ok (Some (CachedEntry en)), a)).
  { unfold check_cache, bind, gets, ret. rewrite Hc, Hg. reflexivity. }
  step Hcheck. reflexivity.
Qed.

(** A submission that goes through all the steps on the dictionary
    writes its response and department, and no sources, under the key of
    its query. *)
Lemma dictionary_miss e q model a d :
  cache_module a = BasicDict d ->
  (forall st, fault e st = None) ->
  dict_get (md5 (lower q)) d = None ->
  exists r a1 d1 en,
    process_civic_query md5 e q model a = (Ok r, a1)
    /\ cache_module a1 = BasicDict d1
    /\ dict_get (md5 (lower q)) d1 = Some en
    /\ entry_response en = response r
    /\ entry_department en = department r
    /\ entry_sources en = []
    /\ cache_hit r = false.
Proof.
  intros Hc Hf Hg.
  unfold process_civic_query, try_except, pipeline_steps.
  step (@checkpoint_ok e CacheCheck a (Hf _)).
  assert (Hcheck : check_cache md5 e q a = (Ok None, a)).
  { unfold check_cache, bind, gets, ret. rewrite Hc, Hg. reflexivity. }
  step Hcheck. cbn [truthy].
  step (@checkpoint_ok e Classify a (Hf _)).
  unfold bind at 1. unfold gets at 1.
  step (@checkpoint_ok e Retrieve a (Hf _)).
  destruct (retrieve_total e (identify_issue_type q) a) as (info & Hr).
  step Hr.
  step (@checkpoint_ok e Reason a (Hf _)).
  destruct (reasoning_total e (identify_area_from_query (civic_data a) q)
              (identify_issue_type q) a) as (recs & Hk).
  step Hk.
  step (@checkpoint_ok e Compose a (Hf _)).
  unfold bind at 1. unfold gets at 1.
  step (@checkpoint_ok e CacheWrite a (Hf _)).
  set (text := if api_key a then _ else _).
  assert (Hstore :
            cache_response md5 e q text (info_department info) a
            = (Ok tt,
               set_cache_module
                 (fun _ => BasicDict
                             (dict_set (md5 (lower q))
                                {| entry_response := text;
                                   entry_department := info_department info;
                                   entry_timestamp := Cag.now (store_env e);
                                   entry_sources := [] |} d)) a)).
  { unfold cache_response, bind, gets, modify. rewrite Hc. reflexivity. }
  step Hstore.
  erewrite (@bind_ok _ _ _ (checkpoint e Record_));
    [|apply checkpoint_ok, Hf].
  unfold bind, modify, ret. simpl.
  eexists _, _, _, _. split; [reflexivity|]. simpl.
  split; [reflexivity|]. split; [apply CagFacts.dict_get_set_same|].
  simpl. auto.
Qed.

Lemma dictionary_store e q model a d :
  cache_module a = BasicDict d ->
  (forall st, fault e st = None) ->
  exists r a1 d1 en,
    process_civic_query md5 e q model a = (Ok r, a1)
    /\ cache_module a1 = BasicDict d1
    /\ dict_get (md5 (lower q)) d1 = Some en
    /\ entry_response en = response r
    /\ entry_department en = department r
    /\ (dict_get (md5 (lower q)) d = None ->
        entry_sources en = [] /\ cache_hit r = false).
Proof.
  intros Hc Hf.
  destruct (dict_get (md5 (lower q)) d) as [en|] eqn:Hg.
  - eexists _, a, d, en.
    rewrite (@dictionary_hit e q model a d en Hc (Hf _) Hg).
    simpl. repeat split; auto; discriminate.
  - destruct (@dictionary_miss e q model a d Hc Hf Hg)
      as (r & a1 & d1 & en & Hp & Hc1 & Hg1 & Hr & Hd & Hs & Hh).
    exists r, a1, d1, en. auto 10.
Qed.

(** X16.  On the dictionary stand-in the cache round trip works: after a
    submission that ran without a fault, the same query, in whatever
    letter case, is answered from the dictionary, with the response and
    the department of the first answer and a cache hit reported.  When
    the first submission was itself no hit, the repeated answer carries
    no sources, whatever sources the first one had. *)
Theorem dictionary_serves_repeated_query (e1 e2 : pipeline_env)
        (q q' model model' : string) (a : app)
        (d : list (string * dict_entry)) :
  cache_module a = BasicDict d ->
  (forall st, fault e1 st = None) ->
  fault e2 CacheCheck = None ->
  lower q' = lower q ->
  exists r1 a1 r2,
    process_civic_query md5 e1 q model a = (Ok r1, a1)
    /\ process_civic_query md5 e2 q' model' a1 = (Ok r2, a1)
    /\ cache_hit r2 = true
    /\ response r2 = response r1
    /\ department r2 = department r1
    /\ (dict_get (md5 (lower q)) d = None ->
        cache_hit r1 = false /\ sources r2 = []).
Proof.
  intros Hc Hf1 Hf2 Hq.
  destruct (@dictionary_store e1 q model a d Hc Hf1)
    as (r1 & a1 & d1 & en & Hp & Hc1 & Hg & Hr & Hd & Hnew).
  exists r1, a1. eexists. split; [exact Hp|]. split.
  - apply (@dictionary_hit e2 q' model' a1 d1 en Hc1 Hf2). now rewrite Hq.
  - simpl. repeat split; auto; now apply Hnew.
Qed.

End WithHash.

Lemma dictionary_serves_repeated_query_witness :
  exists r1 a1 r2,
    process_civic_query plain_digest Samples.quiet_run Samples.water_query
                        "gpt-4" (Samples.basic_app false) = (Ok r1, a1)
    /\ process_civic_query plain_digest Samples.quiet_run
                           "WATER SUPPLY ISSUE IN ADYAR" "gpt-4" a1
       = (Ok r2, a1)
    /\ cache_hit r2 = true
    /\ response r2 = response r1.
Proof.
  destruct (@dictionary_serves_repeated_query plain_digest
              Samples.quiet_run Samples.quiet_run Samples.water_query
              "WATER SUPPLY ISSUE IN ADYAR" "gpt-4" "gpt-4"
              (Samples.basic_app false) []
              eq_refl (fun _ => eq_refl) eq_refl
              ltac:(vm_compute; reflexivity))
    as (r1 & a1 & r2 & H1 & H2 & Hhit & Hresp & _).
  exists r1, a1, r2. auto.
Defined.

End RepeatFacts.

(** ** Departments and advice *)

Module AdviceFacts.

Import PyStr Py App.
Local Open Scope string_scope.

Lemma contains_here p x : contains p (p ++ x) = true.
Proof.
  destruct (p ++ x) eqn:E; simpl.
  - destruct p; [reflexivity|discriminate].
  - rewrite <- E, ReplaceFacts.starts_with_app. reflexivity.
Qed.

Lemma contains_skip p a s : contains p s = true -> contains p (a ++ s) = true.
Proof.
  intros H. induction a as [|c a IH]; simpl; auto.
  rewrite IH. apply orb_true_r.
Qed.

Ltac find_part :=
  repeat first [apply contains_here | apply contains_skip].

(** X17.  The answer composed without the generative model names the
    department, its contact and the kind of issue. *)
Theorem fallback_response_names_contact (ar : option area_info)
        (issue_type : string) (ci : civic_info) :
  let text := generate_fallback_response ar issue_type ci in
  contains (info_department ci) text = true
  /\ contains (info_contact ci) text = true
  /\ contains (replace "_" " " issue_type) text = true.
Proof.
  cbv zeta. unfold generate_fallback_response.
  split; [|split]; find_part.
Qed.

Ltac by_issue_type it :=
  destruct (String.eqb_spec it "water_supply") as [->|?];
  [|destruct (String.eqb_spec it "electricity") as [->|?];
    [|destruct (String.eqb_spec it "garbage_collection") as [->|?];
      [|destruct (String.eqb_spec it "roads") as [->|?];
        [|destruct (String.eqb_spec it "transport") as [->|?]]]]].

(** X18.  Whichever way the information is retrieved, by the retrieval
    module, by its fallback or by the fallback of the application, a
    query is directed to the same department, but for a transport query
    when the retrieval module has fallen back: that one goes to the
    corporation instead of the transport company. *)
Theorem department_is_the_same_on_every_path (e : pipeline_env) (a : app)
        (issue_type : string) :
  exists info,
    retrieve_civic_information e issue_type a = (Ok info, a)
    /\ ((issue_type = "transport" -> rag_module a = true ->
         rag_outcome e <> EngineDegraded) ->
        info_department info
        = info_department (get_fallback_civic_info (civic_data a) issue_type))
    /\ (issue_type = "transport" -> rag_module a = true ->
        rag_outcome e = EngineDegraded ->
        info_department info = "Greater Chennai Corporation"
        /\ info_department (get_fallback_civic_info (civic_data a) issue_type)
           = "TNSTC").
Proof.
  unfold retrieve_civic_information, bind, gets, try_except, any_exception,
    ret, raise.
  destruct (rag_module a) eqn:Hrag; [destruct (rag_outcome e) eqn:Hout|];
    eexists; (split; [reflexivity|]); split.
  all: try (intros _; reflexivity).
  all: try (intros; discriminate).
  - intros _. unfold rag_department_info, get_fallback_civic_info,
      department_mapping.
    cbn [info_department dict_get].
    by_issue_type issue_type; reflexivity.
  - intros H. unfold rag_fallback_info, get_fallback_civic_info.
    by_issue_type issue_type; try reflexivity.
    exfalso. now apply H.
  - intros ->. split; reflexivity.
Qed.

Lemma department_is_the_same_on_every_path_witness :
  exists info,
    retrieve_civic_information Samples.quiet_run "roads"
                               (Samples.full_app false)
    = (Ok info, Samples.full_app false)
    /\ info_department info = "Greater Chennai Corporation".
Proof.
  destruct (@department_is_the_same_on_every_path
              Samples.quiet_run (Samples.full_app false) "roads")
    as (info & Hr & Hsame & _).
  exists info. split; [exact Hr|].
  rewrite (Hsame ltac:(intros H; discriminate)). reflexivity.
Defined.

(** X19.  The limit of six recommendations never cuts one off: there are
    between three and six, and the advice about the area, when the area
    has a name, and about the zone office, when it is a zone, are among
    them. *)
Theorem recommendations_are_never_cut (ar : area_info) (issue_type : string) :
  let recs := kag_recommendations ar issue_type in
  (3 <= List.length recs <= 6)%nat
  /\ (area_name ar <> "" ->
      In ("Mention " ++ area_name ar ++ " location clearly when reporting")
         recs)
  /\ (area_name ar <> "" -> area_type ar = "zone" ->
      In "Contact zone office for faster resolution" recs).
Proof.
  cbv zeta. unfold kag_recommendations, issue_recommendations.
  cbn [dict_get].
  destruct (String.eqb_spec (area_name ar) "") as [En|En];
    destruct (String.eqb_spec (area_type ar) "zone") as [Ez|Ez];
    destruct (issue_type =? "water_supply");
    [| destruct (issue_type =? "electricity");
       [| destruct (issue_type =? "garbage_collection")]
     | | destruct (issue_type =? "electricity");
       [| destruct (issue_type =? "garbage_collection")]
     | | destruct (issue_type =? "electricity");
       [| destruct (issue_type =? "garbage_collection")]
     | | destruct (issue_type =? "electricity");
       [| destruct (issue_type =? "garbage_collection")] ];
    cbn [get_or List.app firstn List.length];
    (split; [lia|]); (split; [intros; try contradiction; simpl; tauto|]);
    intros; try contradiction; simpl; tauto.
Qed.

Lemma recommendations_are_never_cut_witness :
  let zone := AreaZone "13 Adyar" "Zone_13_Adyar" [170; 171]%Z
                       ["Avvai Nagar (South)"; "Adyar (East)"] in
  In "Mention 13 Adyar location clearly when reporting"
     (kag_recommendations zone "water_supply")
  /\ In "Contact zone office for faster resolution"
        (kag_recommendations zone "water_supply").
Proof.
  cbv zeta.
  destruct (@recommendations_are_never_cut
              (AreaZone "13 Adyar" "Zone_13_Adyar" [170; 171]%Z
                        ["Avvai Nagar (South)"; "Adyar (East)"])
              "water_supply") as (_ & Hname & Hzone).
  split.
  - apply Hname. simpl. discriminate.
  - apply Hzone; [simpl; discriminate|reflexivity].
Defined.

End AdviceFacts.

(** ** The session: counters, chat and feedback *)

Module SessionFacts.

Import PyStr Py App Session.
Local Open Scope string_scope.
Local Open Scope list_scope.

Section WithHash.

Variable md5 : string -> string.

Lemma process_returns e q model a :
  exists r a', process_civic_query md5 e q model a = (Ok r, a').
Proof.
  unfold process_civic_query, try_except.
  destruct (pipeline_steps md5 e q model a) as [[r|ex] a']; eauto.
  unfold ret. eauto.
Qed.

(** One submission: either the category counter is missing and only
    the key from the sidebar is written, or the counter goes up, the
    query is processed and the chat grows by the entry of the
    result. *)
Lemma submission_shape e clock key model q a ss :
  let out := process_and_display_query md5 e clock key model q (a, ss) in
  let counted := counted_under q (category_stats ss) in
  (dict_get counted (category_stats ss) = None
   /\ snd out = (with_key key a, ss))
  \/ exists n r a',
       dict_get counted (category_stats ss) = Some n
       /\ process_civic_query md5 e q model (with_key key a) = (Ok r, a')
       /\ out = (Ok tt,
                 (a', {| chat_history :=
                           chat_history ss ++ [entry_of clock q r];
                         query_count := S (query_count ss);
                         user_feedback := user_feedback ss;
                         category_stats :=
                           dict_set counted (S n) (category_stats ss) |})).
Proof.
  cbv zeta. unfold process_and_display_query, counted_under.
  destruct (process_returns e q model (with_key key a)) as (r & a' & Hp).
  cbv [sidebar_controls increment on_app bind gets modify raise ret fst snd].
  destruct key; cbv [with_key] in *;
    (destruct (dict_get (identify_issue_type q) (category_stats ss)) as [m|];
     [destruct (dict_get (title (replace "_" " " (identify_issue_type q)))
                         (category_stats ss)) as [n|] eqn:Hk
     |destruct (dict_get "Other" (category_stats ss)) as [n|] eqn:Hk]);
    try (left; split; reflexivity);
    right; exists n, r, a'; rewrite Hp; auto.
Qed.

Lemma run_submissions_snoc subs sub st :
  run_submissions md5 (subs ++ [sub]) st
  = snd (process_and_display_query md5 (submitted_env sub)
           (submitted_clock sub) (submitted_key sub) (submitted_model sub)
           (submitted_query sub) (run_submissions md5 subs st)).
Proof. unfold run_submissions. now rewrite fold_left_app. Qed.

Lemma with_key_cache key a : cache_module (with_key key a) = cache_module a.
Proof. now destruct key. Qed.

(** No issue type is the name of a category. *)
Lemma issue_type_is_no_category q (stats : list (string * nat)) :
  map fst stats = category_names ->
  dict_get (identify_issue_type q) stats = None
  /\ exists n, dict_get "Other" stats = Some n.
Proof.
  intros Hk.
  destruct stats as [|[k1 n1] [|[k2 n2] [|[k3 n3] [|[k4 n4] [|[k5 n5]
                    [|[k6 n6] [|? ?]]]]]]]; try discriminate.
  injection Hk as -> -> -> -> -> ->.
  split; [|exists n6; reflexivity].
  unfold identify_issue_type.
  pose proof (ClassifierFacts.first_issue_range (lower q) issue_keywords)
    as Hr.
  remember (first_issue (lower q) issue_keywords) as it eqn:E. clear E.
  destruct Hr as [->|Hin]; [reflexivity|].
  simpl in Hin.
  destruct Hin as [<-|[<-|[<-|[<-|[<-|[]]]]]]; reflexivity.
Qed.

Lemma dict_set_keys {V} k (v v' : V) d :
  dict_get k d = Some v' -> map fst (dict_set k v d) = map fst d.
Proof.
  induction d as [|[k0 v0] d IH]; simpl; [discriminate|].
  destruct (String.eqb_spec k k0) as [->|Hne]; simpl; auto.
  intros H. f_equal. auto.
Qed.

(** X20.  The counters by category never tell the categories apart: the
    classifier names its issue types in another spelling than the
    counters have, so that every submission is counted under Other.
    Along any run of submissions the five named categories keep their
    count, while Other, the count of queries and the chat history grow
    by one per submission. *)
Theorem every_query_counts_as_other (subs : list submission) (a : app)
        (ss : session) :
  map fst (category_stats ss) = category_names ->
  let st' := run_submissions md5 subs (a, ss) in
  (forall name, name <> "Other" ->
                dict_get name (category_stats (snd st'))
                = dict_get name (category_stats ss))
  /\ dict_get "Other" (category_stats (snd st'))
     = option_map (fun n => (n + List.length subs)%nat)
                  (dict_get "Other" (category_stats ss))
  /\ query_count (snd st') = (query_count ss + List.length subs)%nat
  /\ List.length (chat_history (snd st'))
     = (List.length (chat_history ss) + List.length subs)%nat.
Proof.
  intros Hk. cbv zeta.
  assert (H : let st' := run_submissions md5 subs (a, ss) in
              map fst (category_stats (snd st')) = category_names
              /\ (forall name, name <> "Other" ->
                               dict_get name (category_stats (snd st'))
                               = dict_get name (category_stats ss))
              /\ dict_get "Other" (category_stats (snd st'))
                 = option_map (fun n => (n + List.length subs)%nat)
                              (dict_get "Other" (category_stats ss))
              /\ query_count (snd st')
                 = (query_count ss + List.length subs)%nat
              /\ List.length (chat_history (snd st'))
                 = (List.length (chat_history ss) + List.length subs)%nat).
  { cbv zeta. induction subs as [|sub subs IH] using rev_ind.
    - simpl. split; [exact Hk|]. split; [auto|].
      split; [|split; lia].
      destruct (dict_get "Other" (category_stats ss)); simpl; auto.
    - rewrite run_submissions_snoc, length_app. cbn [List.length].
      destruct (run_submissions md5 subs (a, ss)) as [a1 ss1].
      simpl in IH. destruct IH as (Hk1 & Hn1 & Ho1 & Hq1 & Hc1).
      destruct (issue_type_is_no_category (submitted_query sub) _ Hk1)
        as (Hnone & n & Hother).
      pose proof (submission_shape (submitted_env sub) (submitted_clock sub)
                    (submitted_key sub) (submitted_model sub)
                    (submitted_query sub) a1 ss1)
        as Hshape.
      cbv zeta in Hshape. unfold counted_under in Hshape.
      rewrite Hnone in Hshape.
      destruct Hshape as [[Hx _]|(n' & r & a' & Hn' & _ & ->)];
        [congruence|].
      rewrite Hother in Hn'. injection Hn' as <-.
      simpl. split; [|split; [|split; [|split]]].
      + rewrite <- Hk1. eapply dict_set_keys; eauto.
      + intros name Hne. rewrite <- (Hn1 name Hne).
        apply LoadFacts.dict_get_set_other. exact Hne.
      + rewrite CagFacts.dict_get_set_same.
        rewrite Hother in Ho1.
        destruct (dict_get "Other" (category_stats ss)) as [n0|];
          [|discriminate].
        simpl in *. injection Ho1 as ->. f_equal. lia.
      + lia.
      + rewrite length_app. simpl. lia. }
  cbv zeta in H. tauto.
Qed.

(** X21.  On a [CacheModule] the chat never shows a cached answer: along any
    run of submissions from a chat without one, the dashboard counts no
    cache hit and shows a rate of 0. *)
Theorem cache_module_session_shows_no_hit (subs : list submission) (a : app)
        (ss : session) :
  uses_cache_object a ->
  cache_hits ss = 0%nat ->
  let st' := run_submissions md5 subs (a, ss) in
  uses_cache_object (fst st')
  /\ cache_hits (snd st') = 0%nat
  /\ cache_rate (snd st') == 0.
Proof.
  intros Ha Hh. cbv zeta.
  assert (H : uses_cache_object (fst (run_submissions md5 subs (a, ss)))
              /\ cache_hits (snd (run_submissions md5 subs (a, ss))) = 0%nat).
  { induction subs as [|sub subs IH] using rev_ind; [simpl; auto|].
    rewrite run_submissions_snoc.
    destruct (run_submissions md5 subs (a, ss)) as [a1 ss1].
    simpl in IH. destruct IH as [Ha1 Hh1].
    pose proof (submission_shape (submitted_env sub) (submitted_clock sub)
                  (submitted_key sub) (submitted_model sub)
                  (submitted_query sub) a1 ss1)
      as Hshape.
    cbv zeta in Hshape.
    assert (Hk1 : uses_cache_object (with_key (submitted_key sub) a1)).
    { unfold uses_cache_object in *. now rewrite with_key_cache. }
    destruct Hshape as [[_ ->]|(n' & r & a' & _ & Hp & ->)]; [simpl; auto|].
    destruct (@PipelineFacts.triple_process_object md5 (submitted_env sub)
                (submitted_query sub) (submitted_model sub) _ Hk1 _ _ Hp)
      as [Ha' Hr].
    simpl. split; [exact Ha'|].
    unfold cache_hits in *. simpl.
    rewrite filter_app, length_app, Hh1. simpl.
    rewrite (Hr r eq_refl). reflexivity. }
  destruct H as [H1 H2]. split; [exact H1|]. split; [exact H2|].
  unfold cache_rate. rewrite H2.
  destruct (chat_history (snd (run_submissions md5 subs (a, ss))));
    [reflexivity|].
  unfold Qdiv. simpl. rewrite !Qmult_0_l. reflexivity.
Qed.

End WithHash.

Lemma cache_module_session_shows_no_hit_witness :
  let st' := run_submissions plain_digest Samples.two_submissions
               (Samples.full_app false, initialize_session_state) in
  cache_hits (snd st') = 0%nat /\ cache_rate (snd st') == 0.
Proof.
  destruct (@cache_module_session_shows_no_hit plain_digest
              Samples.two_submissions (Samples.full_app false)
              initialize_session_state I eq_refl)
    as (_ & Hhits & Hrate).
  split; [exact Hhits|exact Hrate].
Defined.

Lemma every_query_counts_as_other_witness :
  let st' := run_submissions plain_digest Samples.two_submissions
               (Samples.full_app false, initialize_session_state) in
  dict_get "Water Supply" (category_stats (snd st')) = Some 0%nat
  /\ dict_get "Other" (category_stats (snd st')) = Some 2%nat
  /\ query_count (snd st') = 2%nat.
Proof.
  destruct (@every_query_counts_as_other plain_digest
              Samples.two_submissions (Samples.full_app false)
              initialize_session_state eq_refl)
    as (Hnamed & Hother & Hcount & _).
  split; [|split].
  - rewrite (Hnamed "Water Supply" ltac:(discriminate)). reflexivity.
  - rewrite Hother. reflexivity.
  - rewrite Hcount. reflexivity.
Defined.

Lemma run_clicks_snoc clicks c st :
  run_clicks (clicks ++ [c]) st
  = record_feedback (click_clock c) (click_manager_clock c)
                    (click_update_clock c) (click_index c) (click_type c)
                    (run_clicks clicks st).
Proof. unfold run_clicks. now rewrite fold_left_app. Qed.

Lemma tally_keys key helpful table k :
  In k (map fst (Fl.tally key helpful table)) ->
  k = key \/ In k (map fst table).
Proof.
  unfold Fl.tally. intros H. apply in_map_iff in H as (x & <- & Hx).
  apply CagFacts.in_dict_set in Hx as [->|Hx]; [now left|].
  right. now apply in_map.
Qed.

Lemma update_keeps_tables clock m :
  Fl.department_performance (Fl._update_model_parameters clock m)
  = Fl.department_performance m
  /\ Fl.issue_type_accuracy (Fl._update_model_parameters clock m)
     = Fl.issue_type_accuracy m
  /\ Fl.total_feedback (Fl.metrics (Fl._update_model_parameters clock m))
     = Fl.total_feedback (Fl.metrics m).
Proof.
  unfold Fl._update_model_parameters. destruct (Fl.feedback_data m); auto.
Qed.

Lemma record_feedback_tables clock uclock q h it d m :
  let m' := Fl.record_feedback clock uclock q h it d m in
  Fl.department_performance m' = Fl.tally d h (Fl.department_performance m)
  /\ Fl.issue_type_accuracy m' = Fl.tally it h (Fl.issue_type_accuracy m)
  /\ Fl.total_feedback (Fl.metrics m')
     = S (Fl.total_feedback (Fl.metrics m)).
Proof.
  cbv zeta. unfold Fl.record_feedback.
  match goal with
  | |- context [Fl._update_model_parameters _ ?x] => set (m1 := x)
  end.
  destruct (_ =? 0)%nat.
  - destruct (update_keeps_tables uclock m1) as (-> & -> & ->). auto.
  - auto.
Qed.

(** X22.  Feedback given in the chat reaches the learning manager without its
    issue type and department: whatever is clicked, the manager files it
    under the department Unknown and the issue type unknown, and counts
    one feedback for each entry that the session keeps. *)
Theorem feedback_reaches_manager_unlabelled (clicks : list click)
        (ss : session) (feedback_window : Z) :
  let st' := run_clicks clicks (ss, Some (Fl.__init__ feedback_window)) in
  chat_history (fst st') = chat_history ss
  /\ exists m,
       snd st' = Some m
       /\ (forall k, In k (map fst (Fl.department_performance m)) ->
                     k = "Unknown")
       /\ (forall k, In k (map fst (Fl.issue_type_accuracy m)) ->
                     k = "unknown")
       /\ List.length (user_feedback (fst st'))
          = (List.length (user_feedback ss)
             + Fl.total_feedback (Fl.metrics m))%nat.
Proof.
  cbv zeta. induction clicks as [|c clicks IH] using rev_ind.
  - simpl. split; [reflexivity|]. eexists. split; [reflexivity|].
    simpl. repeat split; try tauto. lia.
  - rewrite run_clicks_snoc.
    destruct (run_clicks clicks (ss, Some (Fl.__init__ feedback_window)))
      as [ss1 om].
    simpl in IH. destruct IH as (Hc & m & -> & Hd & Hi & Hl).
    unfold record_feedback. simpl.
    destruct (nth_error (chat_history ss1) (click_index c)) as [chat|].
    + simpl. split; [exact Hc|]. eexists. split; [reflexivity|].
      destruct (record_feedback_tables (click_manager_clock c)
                  (click_update_clock c) (chat_query chat)
                  (click_type c =? "helpful") "unknown" "Unknown" m)
        as (-> & -> & ->).
      split; [|split].
      * intros k Hk. apply tally_keys in Hk as [->|Hk]; auto.
      * intros k Hk. apply tally_keys in Hk as [->|Hk]; auto.
      * rewrite length_app. simpl. lia.
    + simpl. split; [exact Hc|]. exists m. auto.
Qed.

Lemma feedback_reaches_manager_unlabelled_witness :
  exists m,
    snd (run_clicks Samples.two_clicks
           (Samples.one_chat, Some (Fl.__init__ 100))) = Some m
    /\ map fst (Fl.department_performance m) = ["Unknown"]
    /\ (forall k, In k (map fst (Fl.issue_type_accuracy m)) -> k = "unknown").
Proof.
  destruct (@feedback_reaches_manager_unlabelled Samples.two_clicks
              Samples.one_chat 100) as (_ & m & Hm & _ & Hissue & _).
  exists m. split; [exact Hm|]. split; [|exact Hissue].
  vm_compute in Hm. injection Hm as <-. reflexivity.
Defined.

End SessionFacts.

(** ** The learning manager *)

Module FlFacts.

Import PyStr Py Fl.
Local Open Scope string_scope.
Local Open Scope list_scope.
Local Open Scope nat_scope.

Lemma deque_append_length {A} maxlen (x : A) d :
  List.length (deque_append maxlen x d)
  = Nat.min maxlen (S (List.length d)).
Proof.
  unfold deque_append. rewrite length_skipn, length_app. simpl. lia.
Qed.

Lemma deque_append_suffix {A} maxlen (x : A) d :
  exists dropped, dropped ++ deque_append maxlen x d = d ++ [x].
Proof.
  unfold deque_append. eexists. apply firstn_skipn.
Qed.

Lemma run_interactions_snoc calls c m :
  run_interactions (calls ++ [c]) m
  = record_interaction (seen_clock c) (seen_query c) (seen_response c)
                       (seen_issue_type c) (seen_area c) (seen_department c)
                       (run_interactions calls m).
Proof. unfold run_interactions. now rewrite fold_left_app. Qed.

(** X23.  The manager keeps the last 1000 interactions: along any run of
    recorded interactions the deque never holds more than 1000, what it
    holds is the end of what was recorded, in order, and the counter of
    interactions counts them all. *)
Theorem interactions_keep_last_thousand (calls : list interaction_call)
        (m : manager) :
  List.length (interactions m) <= 1000 ->
  let m' := run_interactions calls m in
  List.length (interactions m')
  = Nat.min 1000 (List.length (interactions m) + List.length calls)
  /\ total_interactions (metrics m')
     = total_interactions (metrics m) + List.length calls
  /\ exists dropped recorded,
       List.length recorded = List.length calls
       /\ map interaction_query recorded
          = map (fun c => take 200 (seen_query c)) calls
       /\ map response_length recorded
          = map (fun c => String.length (seen_response c)) calls
       /\ dropped ++ interactions m' = interactions m ++ recorded.
Proof.
  intros Hlen. cbv zeta.
  induction calls as [|c calls IH] using rev_ind.
  - unfold run_interactions. cbn [fold_left List.length].
    split; [lia|]. split; [lia|].
    exists [], []. simpl. rewrite app_nil_r. auto.
  - rewrite run_interactions_snoc.
    destruct IH as (Hl & Ht & dropped & recorded & Hrl & Hq & Hr & Happ).
    set (m1 := run_interactions calls m) in *.
    unfold record_interaction. cbn [interactions metrics total_interactions].
    rewrite deque_append_length, Hl, Ht, length_app. cbn [List.length].
    split; [lia|]. split; [lia|].
    match goal with
    | |- context [deque_append 1000 ?i _] => set (entry := i)
    end.
    destruct (deque_append_suffix 1000 entry (interactions m1))
      as (dropped' & Hd).
    exists (dropped ++ dropped'), (recorded ++ [entry]).
    rewrite !length_app, !map_app, Hrl, Hq, Hr. simpl.
    repeat split; auto.
    rewrite <- app_assoc, Hd, app_assoc, Happ. now rewrite app_assoc.
Qed.

Lemma interactions_keep_last_thousand_witness :
  let m := run_interactions Samples.two_interactions (__init__ 100) in
  List.length (interactions m) = 2%nat
  /\ total_interactions (metrics m) = 2%nat.
Proof.
  destruct (@interactions_keep_last_thousand Samples.two_interactions
              (__init__ 100) ltac:(simpl; lia))
    as (Hlen & Htotal & _).
  split; [exact Hlen|exact Htotal].
Defined.

Lemma run_feedback_snoc calls c m :
  run_feedback (calls ++ [c]) m
  = record_feedback (call_clock c) (call_update_clock c) (call_query c)
                    (call_helpful c) (call_issue_type c) (call_department c)
                    (run_feedback calls m).
Proof. unfold run_feedback. now rewrite fold_left_app. Qed.

Lemma update_counts clock m :
  feedback_data m <> [] ->
  model_updates (metrics (_update_model_parameters clock m))
  = S (model_updates (metrics m))
  /\ feedback_data (_update_model_parameters clock m) = feedback_data m
  /\ total_feedback (metrics (_update_model_parameters clock m))
     = total_feedback (metrics m).
Proof.
  unfold _update_model_parameters. destruct (feedback_data m); [congruence|].
  intros _. simpl. auto.
Qed.

(** One feedback: what it does to the deque and to the counters. *)
Lemma record_feedback_step clock uclock q h it d m :
  let m' := record_feedback clock uclock q h it d m in
  let len' := Nat.min 500 (S (List.length (feedback_data m))) in
  List.length (feedback_data m') = len'
  /\ total_feedback (metrics m') = S (total_feedback (metrics m))
  /\ model_updates (metrics m')
     = model_updates (metrics m) + (if len' mod 10 =? 0 then 1 else 0).
Proof.
  cbv zeta. unfold record_feedback.
  cbn [feedback_data]. rewrite deque_append_length.
  set (len' := Nat.min 500 (S (List.length (feedback_data m)))).
  match goal with
  | |- context [_update_model_parameters _ ?x] => set (m1 := x)
  end.
  assert (Hl : List.length (feedback_data m1) = len')
    by (unfold m1; cbn [feedback_data]; apply deque_append_length).
  destruct (len' mod 10 =? 0) eqn:Hmod.
  - assert (Hne : feedback_data m1 <> []).
    { intros E. rewrite E in Hl. simpl in Hl. unfold len' in Hl. lia. }
    destruct (@update_counts uclock m1 Hne) as (Hu & Hf & Ht).
    rewrite Hu, Hf, Ht, Hl. unfold m1. simpl. repeat split; lia.
  - rewrite Hl. unfold m1. simpl. repeat split; lia.
Qed.

(** X24.  The model is updated at every tenth feedback only until the deque
    of feedback is full: from the 500th on, every feedback updates
    it. *)
Theorem updates_after_feedback (calls : list feedback_call)
        (feedback_window : Z) :
  let m := run_feedback calls (__init__ feedback_window) in
  let n := List.length calls in
  List.length (feedback_data m) = Nat.min 500 n
  /\ total_feedback (metrics m) = n
  /\ model_updates (metrics m)
     = if n <=? 500 then n / 10 else 50 + (n - 500).
Proof.
  cbv zeta. induction calls as [|c calls IH] using rev_ind.
  - repeat split.
  - rewrite run_feedback_snoc, length_app. cbn [List.length].
    destruct IH as (Hl & Ht & Hu).
    set (m1 := run_feedback calls (__init__ feedback_window)) in *.
    destruct (record_feedback_step (call_clock c) (call_update_clock c)
                (call_query c) (call_helpful c) (call_issue_type c)
                (call_department c) m1) as (Hl' & Ht' & Hu').
    cbv zeta in Hl', Hu'. rewrite Hl', Ht', Hu', Hl, Ht, Hu.
    set (n := List.length calls).
    split; [lia|]. split; [lia|].
    destruct (Nat.leb_spec n 500) as [Hn|Hn];
      destruct (Nat.leb_spec (n + 1) 500) as [Hn1|Hn1]; try lia.
    + replace (Nat.min 500 (S (Nat.min 500 n))) with (n + 1) by lia.
      pose proof (Nat.div_mod_eq n 10) as E1.
      pose proof (Nat.div_mod_eq (n + 1) 10) as E2.
      pose proof (Nat.mod_upper_bound n 10 ltac:(lia)) as B1.
      pose proof (Nat.mod_upper_bound (n + 1) 10 ltac:(lia)) as B2.
      destruct (Nat.eqb_spec ((n + 1) mod 10) 0) as [E|E]; lia.
    + assert (n = 500) by lia. subst n. rewrite H. reflexivity.
    + replace (Nat.min 500 (S (Nat.min 500 n))) with 500 by lia.
      change (500 mod 10 =? 0) with true. cbv iota. lia.
Qed.

(** X25.  A query of at most ten words is never rated high, and the rating is
    always one of the three levels. *)
Theorem short_query_is_not_complex (query : string) :
  In (_assess_query_complexity query) ["low"; "medium"; "high"]
  /\ (List.length (split query) <= 10 ->
      _assess_query_complexity query <> "high")
  /\ (20 < List.length (split query) ->
      _assess_query_complexity query <> "low").
Proof.
  unfold _assess_query_complexity.
  set (wc := List.length (split query)).
  set (em := List.length (filter _ entities)).
  set (ind := existsb _ complex_indicators).
  split; [|split].
  - destruct (20 <? wc), (10 <? wc), (2 <? em), (1 <? em), ind; simpl; auto.
  - intros Hwc.
    destruct (Nat.ltb_spec 20 wc); [lia|].
    destruct (Nat.ltb_spec 10 wc); [lia|].
    destruct (2 <? em), (1 <? em), ind; simpl; discriminate.
  - intros Hwc.
    destruct (Nat.ltb_spec 20 wc); [|lia].
    destruct (2 <? em), (1 <? em), ind; simpl; discriminate.
Qed.

Lemma short_query_is_not_complex_witness :
  _assess_query_complexity Samples.water_query <> "high"
  /\ _assess_query_complexity Samples.water_query = "low".
Proof.
  destruct (@short_query_is_not_complex Samples.water_query)
    as (_ & Hshort & _).
  split; [apply Hshort; vm_compute; lia|vm_compute; reflexivity].
Defined.

End FlFacts.
